(** * The annotation overlay of the PDF editor (js/modules/pdf-editor.js)

    A shallow embedding of class [PDFEditor]: the raster overlay canvas, the
    snapshot history behind undo and redo, the text insertion flow, the tool
    dispatcher, the geometry synchroniser and the export path, followed by
    the properties of the specification that concern them.

    Conventions.
    - A JavaScript string is the list of its UTF-16 code units.
    - A canvas bitmap is a row-major list of RGBA pixels, as the HTML
      standard describes [getImageData] and [putImageData]; colour-space
      and premultiplication effects of real back ends are not modelled.
    - A method is a computation on the fields of [this] that either
      completes normally or throws; the fields written before a throw
      keep their new values, as in JavaScript.
    - Whatever the page only obtains from the browser (IEEE numbers and
      their printing, the parsing and serialisation of CSS values, glyph
      and path rasterisation, compositing, PNG encoding) is an operation
      of the class [Browser].
    - An inline style holds what the browser makes of an assigned value:
      its serialisation, or the value held before when it does not
      parse.  The keywords the class assigns ([none], [block], [auto],
      the cursor names) are stored as written. *)

From Stdlib Require Import String Ascii.
From Stdlib Require Import List ZArith NArith Arith Bool Lia.
Import ListNotations.

(** ** JavaScript strings *)

Definition jsstring := list N.

(** A source literal, written as a Rocq string of ASCII characters. *)
Definition js (s : string) : jsstring :=
  map N_of_ascii (list_ascii_of_string s).

Definition jseqb (a b : jsstring) : bool :=
  if list_eq_dec N.eq_dec a b then true else false.

Arguments jseqb : simpl never.

(** WhiteSpace and LineTerminator code points of ECMAScript, the ones
    [String.prototype.trim] removes. *)
Definition isWhiteSpace (c : N) : bool :=
  ((9 <=? c) && (c <=? 13) || (c =? 32) || (c =? 160) || (c =? 5760)
   || (8192 <=? c) && (c <=? 8202) || (c =? 8232) || (c =? 8233)
   || (c =? 8239) || (c =? 8287) || (c =? 12288) || (c =? 65279))%N.

Fixpoint trimStart (s : jsstring) : jsstring :=
  match s with
  | c :: s' => if isWhiteSpace c then trimStart s' else s
  | [] => []
  end.

Definition trimEnd (s : jsstring) : jsstring := rev (trimStart (rev s)).

Definition trim (s : jsstring) : jsstring := trimEnd (trimStart s).

(** Truthiness of a string: the empty string is the only falsy one. *)
Definition truthy (s : jsstring) : bool :=
  match s with [] => false | _ :: _ => true end.

(** [text.split('\n')]: the segments between line feeds, at least one. *)
Fixpoint split_lines (s : jsstring) : list jsstring :=
  match s with
  | [] => [[]]
  | c :: s' =>
      if (c =? 10)%N then [] :: split_lines s'
      else match split_lines s' with
           | l :: ls => (c :: l) :: ls
           | [] => [[c]]
           end
  end.

(** [a.slice(0, e)] on an array: a negative end counts from the back. *)
Definition slice0 {A} (a : list A) (e : Z) : list A :=
  let len := Z.of_nat (length a) in
  let final := if (e <? 0)%Z then Z.max (len + e) 0 else Z.min e len in
  firstn (Z.to_nat final) a.

Arguments trim : simpl never.
Arguments slice0 : simpl never.

(** The last [n] elements of a list. *)
Definition keepLast {A} (n : nat) (l : list A) : list A :=
  skipn (length l - n) l.

(** [a[i]]: [undefined] outside the array. *)
Definition index {A} (a : list A) (i : Z) : option A :=
  if (i <? 0)%Z then None else nth_error a (Z.to_nat i).

(** ** Pixels and bitmaps *)

Record pixel := RGBA { red : N; green : N; blue : N; alpha : N }.

Definition transparent : pixel := RGBA 0 0 0 0.

(** The [w] by [h] grid whose pixel at column [x], row [y] is [f x y]. *)
Definition grid (w h : nat) (f : nat -> nat -> pixel) : list pixel :=
  map (fun i => f (i mod w) (i / w)) (seq 0 (w * h)).

Definition blank (w h : nat) : list pixel := repeat transparent (w * h).

Module ImageData.
Record t := mk { width : nat; height : nat; data : list pixel }.

Definition at_ (img : t) (x y : nat) : pixel :=
  nth (y * width img + x) (data img) transparent.
End ImageData.

Inductive exn :=
| IndexSizeError
| InvalidStateError
| TypeError
| Error (message : jsstring).

(** The canvas element of the overlay: its bitmap and the inline style
    the editor writes. *)
Module Canvas.
Record t := mk {
  width : nat;
  height : nat;
  pixels : list pixel;
  cursor : jsstring;
  styleWidth : jsstring;
  styleHeight : jsstring;
  styleLeft : jsstring;
  styleTop : jsstring
}.

(** A bitmap holds one pixel for each of its positions. *)
Definition wf (c : t) : Prop := length (pixels c) = width c * height c.

Definition is_blank (c : t) : Prop := pixels c = blank (width c) (height c).

Definition at_ (c : t) (x y : nat) : pixel :=
  if (x <? width c) && (y <? height c)
  then nth (y * width c + x) (pixels c) transparent
  else transparent.

Definition with_pixels (p : list pixel) (c : t) : t :=
  mk (width c) (height c) p (cursor c)
     (styleWidth c) (styleHeight c) (styleLeft c) (styleTop c).

(** Assigning [width] or [height] replaces the bitmap by a transparent
    black one of the new size, whatever the old size was. *)
Definition set_width (w : nat) (c : t) : t :=
  mk w (height c) (blank w (height c)) (cursor c)
     (styleWidth c) (styleHeight c) (styleLeft c) (styleTop c).

Definition set_height (h : nat) (c : t) : t :=
  mk (width c) h (blank (width c) h) (cursor c)
     (styleWidth c) (styleHeight c) (styleLeft c) (styleTop c).

Definition set_cursor (v : jsstring) (c : t) : t :=
  mk (width c) (height c) (pixels c) v
     (styleWidth c) (styleHeight c) (styleLeft c) (styleTop c).

Definition set_placement (w h l tp : jsstring) (c : t) : t :=
  mk (width c) (height c) (pixels c) (cursor c) w h l tp.

(** [getImageData(0, 0, sw, sh)]: a copy of the rectangle, transparent
    black outside the bitmap; a zero width or height is an
    IndexSizeError. *)
Definition getImageData (sw sh : nat) (c : t) : exn + ImageData.t :=
  if (sw =? 0) || (sh =? 0) then inl IndexSizeError
  else inr (ImageData.mk sw sh (grid sw sh (at_ c))).

Definition hasArea (c : t) : bool :=
  negb ((width c =? 0) || (height c =? 0)).

(** The image data of the whole bitmap. *)
Definition snapshot (c : t) : ImageData.t :=
  ImageData.mk (width c) (height c) (grid (width c) (height c) (at_ c)).

(** [putImageData(img, 0, 0)]: the pixels of [img] replace those of the
    bitmap where the two overlap; sizes are not compared. *)
Definition putImageData (img : ImageData.t) (c : t) : t :=
  with_pixels
    (grid (width c) (height c)
       (fun x y =>
          if (x <? ImageData.width img) && (y <? ImageData.height img)
          then ImageData.at_ img x y else at_ c x y))
    c.

(** [clearRect(0, 0, w, h)] under the identity transform. *)
Definition clearRect (w h : nat) (c : t) : t :=
  with_pixels
    (grid (width c) (height c)
       (fun x y => if (x <? w) && (y <? h) then transparent else at_ c x y))
    c.

End Canvas.

(** ** What the browser provides *)

Class Browser := {
  (** IEEE 754 doubles, the Number type. *)
  number : Type;
  (** An integer literal, or an integer attribute read as a Number. *)
  num : Z -> number;
  (** The literals [1.2] and [0.3]. *)
  num_1_2 : number;
  num_0_3 : number;
  add : number -> number -> number;
  sub : number -> number -> number;
  mul : number -> number -> number;
  div : number -> number -> number;
  (** ToString of a Number, as in [x + 'px']. *)
  numToString : number -> jsstring;
  parseInt : jsstring -> number;
  (** What a CSS declaration block makes of a value assigned to one of
      its properties (named as in CSS: [left], [font-size], ...): the
      serialisation of the parsed value, [None] for a value the property
      does not accept. *)
  cssParse : jsstring -> jsstring -> option jsstring;
  (** [fillText(text, x, y)] with the given fillStyle, font and
      textBaseline, on a bitmap of the given width and height. *)
  fillText : jsstring -> jsstring -> jsstring -> jsstring ->
             number -> number -> nat -> nat -> list pixel -> list pixel;
  (** [fillRect(x, y, w, h)] with the given fillStyle and globalAlpha. *)
  fillRect : jsstring -> number -> number -> number -> number -> number ->
             nat -> nat -> list pixel -> list pixel;
  (** [stroke()] of the current path with the given strokeStyle,
      lineWidth, lineCap and lineJoin. *)
  stroke : jsstring -> number -> jsstring -> jsstring ->
           list (number * number) -> nat -> nat -> list pixel -> list pixel;
  (** [drawImage(source, 0, 0)]: source-over compositing of a source
      bitmap onto a destination bitmap; both given as width, height and
      pixels. *)
  drawImage : nat -> nat -> list pixel -> nat -> nat -> list pixel ->
              list pixel;
  (** [toDataURL('image/png')] of a bitmap. *)
  toDataURL : nat -> nat -> list pixel -> jsstring
}.

(** ** The objects the editor holds *)

Record DOMRect {B : Browser} := mkRect {
  rectLeft : number;
  rectTop : number;
  rectWidth : number;
  rectHeight : number
}.
Arguments mkRect {B} _ _ _ _.

Record MouseEvent {B : Browser} := mkMouseEvent {
  clientX : number;
  clientY : number
}.
Arguments mkMouseEvent {B} _ _.

(** The contentEditable box in which text is typed. *)
Module TextEditor.
Record t := mk {
  display : jsstring;
  left : jsstring;
  top : jsstring;
  fontSize : jsstring;
  color : jsstring;
  fontFamily : jsstring;
  textContent : jsstring
}.

Definition set_display (v : jsstring) (e : t) : t :=
  mk v (left e) (top e) (fontSize e) (color e) (fontFamily e)
     (textContent e).

(** [innerHTML = ''] removes every child, so [textContent] is empty. *)
Definition clear (e : t) : t :=
  mk (display e) (left e) (top e) (fontSize e) (color e) (fontFamily e) [].

Definition set_textContent (v : jsstring) (e : t) : t :=
  mk (display e) (left e) (top e) (fontSize e) (color e) (fontFamily e) v.
End TextEditor.

(** The part of the 2D context's drawing state that outlives a method:
    stroke settings and the current path. *)
Module Context2D.
Record t {B : Browser} := mk {
  strokeStyle : jsstring;
  lineWidth : number;
  lineCap : jsstring;
  lineJoin : jsstring;
  path : list (number * number)
}.
Arguments mk {B} _ _ _ _ _.
End Context2D.

Inductive PDFDocumentProxy := pdfDocument (numPages : nat).

(** The engine as the editor sees it. *)
Module Engine.
Record t := mk { currentPDF : option PDFDocumentProxy }.
End Engine.

(** The canvas a page was rendered to, with its place on the screen. *)
Module SourceCanvas.
Record t {B : Browser} := mk {
  width : nat;
  height : nat;
  pixels : list pixel;
  boundingClientRect : DOMRect
}.
Arguments mk {B} _ _ _ _.
End SourceCanvas.

(** The payload of a [pageRendered] notification, as far as it is read. *)
Record RenderData {B : Browser} := mkRenderData {
  pageNumber : nat;
  canvas : option SourceCanvas.t
}.
Arguments mkRenderData {B} _ _.

(** What [document.getElementById('pdf-canvas')] finds. *)
Record Document {B : Browser} := mkDocument {
  pdfCanvas : option SourceCanvas.t
}.
Arguments mkDocument {B} _.

(** Nothing in the class ever selects an element. *)
Inductive Element := element.

Inductive Notification :=
| stateChanged (canUndo canRedo : bool)
| toolChanged (tool : jsstring)
| editModeEnabled
| editModeDisabled.

Inductive completion (S A : Type) :=
| Normal (a : A) (s : S)
| Throw (e : exn) (s : S).
Arguments Normal {S A} a s.
Arguments Throw {S A} e s.

(** The fields [this] has when the computation ends, either way. *)
Definition state_of {S A} (c : completion S A) : S :=
  match c with Normal _ s => s | Throw _ s => s end.

Definition completes {S A} (c : completion S A) : bool :=
  match c with Normal _ _ => true | Throw _ _ => false end.

Declare Scope js_scope.
Delimit Scope js_scope with js_scope.

Section Editor.
Context {B : Browser}.

Definition point : Type := number * number.

Definition px (n : number) : jsstring := numToString n ++ js "px".

(** [style.property = value] on a declaration that holds [old] for the
    property: the serialised value is stored, and a value that does not
    parse leaves the declaration as it was. *)
Definition styleSet (property old value : jsstring) : jsstring :=
  match cssParse property value with
  | Some v => v
  | None => old
  end.

Record PDFEditor := mkPDFEditor {
  engine : option Engine.t;
  isEditMode : bool;
  selectedElement : option Element;
  editHistory : list ImageData.t;
  historyIndex : Z;
  currentTool : jsstring;
  textColor : jsstring;
  textSize : number;
  textFont : jsstring;
  strokeColor : jsstring;
  strokeWidth : number;
  fillColor : jsstring;
  editCanvas : Canvas.t;
  editContext : Context2D.t;
  pointerEvents : jsstring;
  textEditor : TextEditor.t;
  editingText : bool;
  isDrawing : bool;
  drawPath : list point;
  emitted : list Notification
}.

Definition set_engine (v : option Engine.t) (s : PDFEditor) : PDFEditor :=
  mkPDFEditor v (isEditMode s) (selectedElement s) (editHistory s)
    (historyIndex s) (currentTool s) (textColor s) (textSize s)
    (textFont s) (strokeColor s) (strokeWidth s) (fillColor s)
    (editCanvas s) (editContext s) (pointerEvents s) (textEditor s)
    (editingText s) (isDrawing s) (drawPath s) (emitted s).

Definition set_isEditMode (v : bool) (s : PDFEditor) : PDFEditor :=
  mkPDFEditor (engine s) v (selectedElement s) (editHistory s)
    (historyIndex s) (currentTool s) (textColor s) (textSize s)
    (textFont s) (strokeColor s) (strokeWidth s) (fillColor s)
    (editCanvas s) (editContext s) (pointerEvents s) (textEditor s)
    (editingText s) (isDrawing s) (drawPath s) (emitted s).

Definition set_selectedElement (v : option Element) (s : PDFEditor) : PDFEditor :=
  mkPDFEditor (engine s) (isEditMode s) v (editHistory s) (historyIndex s)
    (currentTool s) (textColor s) (textSize s) (textFont s)
    (strokeColor s) (strokeWidth s) (fillColor s) (editCanvas s)
    (editContext s) (pointerEvents s) (textEditor s) (editingText s)
    (isDrawing s) (drawPath s) (emitted s).

Definition set_editHistory (v : list ImageData.t) (s : PDFEditor) : PDFEditor :=
  mkPDFEditor (engine s) (isEditMode s) (selectedElement s) v
    (historyIndex s) (currentTool s) (textColor s) (textSize s)
    (textFont s) (strokeColor s) (strokeWidth s) (fillColor s)
    (editCanvas s) (editContext s) (pointerEvents s) (textEditor s)
    (editingText s) (isDrawing s) (drawPath s) (emitted s).

Definition set_historyIndex (v : Z) (s : PDFEditor) : PDFEditor :=
  mkPDFEditor (engine s) (isEditMode s) (selectedElement s)
    (editHistory s) v (currentTool s) (textColor s) (textSize s)
    (textFont s) (strokeColor s) (strokeWidth s) (fillColor s)
    (editCanvas s) (editContext s) (pointerEvents s) (textEditor s)
    (editingText s) (isDrawing s) (drawPath s) (emitted s).

Definition set_currentTool (v : jsstring) (s : PDFEditor) : PDFEditor :=
  mkPDFEditor (engine s) (isEditMode s) (selectedElement s)
    (editHistory s) (historyIndex s) v (textColor s) (textSize s)
    (textFont s) (strokeColor s) (strokeWidth s) (fillColor s)
    (editCanvas s) (editContext s) (pointerEvents s) (textEditor s)
    (editingText s) (isDrawing s) (drawPath s) (emitted s).

Definition set_editCanvas (v : Canvas.t) (s : PDFEditor) : PDFEditor :=
  mkPDFEditor (engine s) (isEditMode s) (selectedElement s)
    (editHistory s) (historyIndex s) (currentTool s) (textColor s)
    (textSize s) (textFont s) (strokeColor s) (strokeWidth s)
    (fillColor s) v (editContext s) (pointerEvents s) (textEditor s)
    (editingText s) (isDrawing s) (drawPath s) (emitted s).

Definition set_editContext (v : Context2D.t) (s : PDFEditor) : PDFEditor :=
  mkPDFEditor (engine s) (isEditMode s) (selectedElement s)
    (editHistory s) (historyIndex s) (currentTool s) (textColor s)
    (textSize s) (textFont s) (strokeColor s) (strokeWidth s)
    (fillColor s) (editCanvas s) v (pointerEvents s) (textEditor s)
    (editingText s) (isDrawing s) (drawPath s) (emitted s).

Definition set_pointerEvents (v : jsstring) (s : PDFEditor) : PDFEditor :=
  mkPDFEditor (engine s) (isEditMode s) (selectedElement s)
    (editHistory s) (historyIndex s) (currentTool s) (textColor s)
    (textSize s) (textFont s) (strokeColor s) (strokeWidth s)
    (fillColor s) (editCanvas s) (editContext s) v (textEditor s)
    (editingText s) (isDrawing s) (drawPath s) (emitted s).

Definition set_textEditor (v : TextEditor.t) (s : PDFEditor) : PDFEditor :=
  mkPDFEditor (engine s) (isEditMode s) (selectedElement s)
    (editHistory s) (historyIndex s) (currentTool s) (textColor s)
    (textSize s) (textFont s) (strokeColor s) (strokeWidth s)
    (fillColor s) (editCanvas s) (editContext s) (pointerEvents s) v
    (editingText s) (isDrawing s) (drawPath s) (emitted s).

Definition set_editingText (v : bool) (s : PDFEditor) : PDFEditor :=
  mkPDFEditor (engine s) (isEditMode s) (selectedElement s)
    (editHistory s) (historyIndex s) (currentTool s) (textColor s)
    (textSize s) (textFont s) (strokeColor s) (strokeWidth s)
    (fillColor s) (editCanvas s) (editContext s) (pointerEvents s)
    (textEditor s) v (isDrawing s) (drawPath s) (emitted s).

Definition set_isDrawing (v : bool) (s : PDFEditor) : PDFEditor :=
  mkPDFEditor (engine s) (isEditMode s) (selectedElement s)
    (editHistory s) (historyIndex s) (currentTool s) (textColor s)
    (textSize s) (textFont s) (strokeColor s) (strokeWidth s)
    (fillColor s) (editCanvas s) (editContext s) (pointerEvents s)
    (textEditor s) (editingText s) v (drawPath s) (emitted s).

Definition set_drawPath (v : list point) (s : PDFEditor) : PDFEditor :=
  mkPDFEditor (engine s) (isEditMode s) (selectedElement s)
    (editHistory s) (historyIndex s) (currentTool s) (textColor s)
    (textSize s) (textFont s) (strokeColor s) (strokeWidth s)
    (fillColor s) (editCanvas s) (editContext s) (pointerEvents s)
    (textEditor s) (editingText s) (isDrawing s) v (emitted s).

Definition set_emitted (v : list Notification) (s : PDFEditor) : PDFEditor :=
  mkPDFEditor (engine s) (isEditMode s) (selectedElement s)
    (editHistory s) (historyIndex s) (currentTool s) (textColor s)
    (textSize s) (textFont s) (strokeColor s) (strokeWidth s)
    (fillColor s) (editCanvas s) (editContext s) (pointerEvents s)
    (textEditor s) (editingText s) (isDrawing s) (drawPath s) v.

(** *** Methods as computations on [this] *)

Definition M (A : Type) : Type := PDFEditor -> completion PDFEditor A.

Definition ret {A} (a : A) : M A := fun s => Normal a s.

Definition bind {A C} (c : M A) (k : A -> M C) : M C :=
  fun s =>
    match c s with
    | Normal a s' => k a s'
    | Throw e s' => Throw e s'
    end.

Definition throw {A} (e : exn) : M A := fun s => Throw e s.

Definition get : M PDFEditor := fun s => Normal s s.

Definition modify (f : PDFEditor -> PDFEditor) : M unit :=
  fun s => Normal tt (f s).

Local Notation "x <- c ;; k" := (bind c (fun x => k))
  (at level 61, c at next level, right associativity) : js_scope.
Local Notation "c ;; k" := (bind c (fun _ => k))
  (at level 61, right associativity) : js_scope.
Local Open Scope js_scope.

(** [this.maxHistorySize], assigned by the constructor and never again. *)
Definition maxHistorySize : nat := 50.

(** The state of a 2D context that was just created, or whose canvas
    was just given a width or a height. *)
Definition freshContext : Context2D.t :=
  Context2D.mk (js "#000000") (num 1) (js "butt") (js "miter") [].

(** [new PDFEditor()]: the field initialisers, then [init()], which
    creates the overlay canvas and the text box; the [cssText] of the
    box is parsed declaration by declaration. *)
Definition constructor : PDFEditor :=
  mkPDFEditor None false None [] (-1) (js "text")
    (js "#000000") (num 12) (js "Helvetica")
    (js "#ff0000") (num 2) (js "#ffff00")
    (Canvas.mk 300 150 (blank 300 150) (js "crosshair") [] []
       (js "0px") (js "0px"))
    freshContext
    (js "none")
    (TextEditor.mk (js "none") [] []
       (styleSet (js "font-size") [] (px (num 12)))
       (styleSet (js "color") [] (js "#000000"))
       (styleSet (js "font-family") [] (js "Helvetica")) [])
    false false [] [].

(** [emit(event, data)]: the notification handed to the listeners. *)
Definition emit (n : Notification) : M unit :=
  modify (fun s => set_emitted (emitted s ++ [n]) s).

Definition canUndo (this : PDFEditor) : bool :=
  (0 <? historyIndex this)%Z.

Definition canRedo (this : PDFEditor) : bool :=
  (historyIndex this <? Z.of_nat (length (editHistory this)) - 1)%Z.

Definition emitStateChanged : M unit :=
  this <- get ;;
  emit (stateChanged (canUndo this) (canRedo this)).

(** [this.editContext.getImageData(0, 0, this.editCanvas.width,
    this.editCanvas.height)] *)
Definition getImageData : M ImageData.t :=
  this <- get ;;
  let c := editCanvas this in
  match Canvas.getImageData (Canvas.width c) (Canvas.height c) c with
  | inl e => throw e
  | inr imageData => ret imageData
  end.

Definition saveState : M unit :=
  this <- get ;;
  modify (set_editHistory
            (slice0 (editHistory this) (historyIndex this + 1))) ;;
  imageData <- getImageData ;;
  this <- get ;;
  modify (set_editHistory (editHistory this ++ [imageData])) ;;
  this <- get ;;
  (if maxHistorySize <? length (editHistory this)
   then modify (set_editHistory (tl (editHistory this)))
   else modify (set_historyIndex (historyIndex this + 1))) ;;
  emitStateChanged.

(** [putImageData] of a value that is not an ImageData is a TypeError. *)
Definition restoreState (imageData : option ImageData.t) : M unit :=
  match imageData with
  | None => throw TypeError
  | Some img =>
      modify (fun s =>
                set_editCanvas (Canvas.putImageData img (editCanvas s)) s)
  end.

Definition undo : M unit :=
  this <- get ;;
  if negb (canUndo this) then ret tt
  else
    modify (set_historyIndex (historyIndex this - 1)) ;;
    this <- get ;;
    restoreState (index (editHistory this) (historyIndex this)) ;;
    emitStateChanged.

Definition redo : M unit :=
  this <- get ;;
  if negb (canRedo this) then ret tt
  else
    modify (set_historyIndex (historyIndex this + 1)) ;;
    this <- get ;;
    restoreState (index (editHistory this) (historyIndex this)) ;;
    emitStateChanged.

(** *** Text insertion *)

Definition cancelTextEdit : M unit :=
  modify (set_editingText false) ;;
  modify (fun s =>
            set_textEditor
              (TextEditor.clear
                 (TextEditor.set_display (js "none") (textEditor s))) s).

(** One [fillText] per line, line [i] at [y + i * textSize * 1.2]. *)
Definition drawText (this : PDFEditor) (text : jsstring) (x y : number)
    (c : Canvas.t) : Canvas.t :=
  let lines := split_lines text in
  let font := numToString (textSize this) ++ js "px " ++ textFont this in
  fold_left
    (fun c li =>
       Canvas.with_pixels
         (fillText (textColor this) font (js "top") (fst li) x
            (add y (mul (mul (num (Z.of_nat (snd li))) (textSize this))
                      num_1_2))
            (Canvas.width c) (Canvas.height c) (Canvas.pixels c))
         c)
    (combine lines (seq 0 (length lines)))
    c.

(** [save()] and [restore()] leave the context as it was. *)
Definition addTextElement (text : jsstring) (x y : number) : M unit :=
  this <- get ;;
  modify (fun s => set_editCanvas (drawText this text x y (editCanvas s)) s).

Definition finishTextEdit : M unit :=
  this <- get ;;
  if negb (editingText this)
     || negb (truthy (trim (TextEditor.textContent (textEditor this))))
  then cancelTextEdit
  else
    let text := TextEditor.textContent (textEditor this) in
    let x := parseInt (TextEditor.left (textEditor this)) in
    let y := parseInt (TextEditor.top (textEditor this)) in
    addTextElement text x y ;;
    cancelTextEdit ;;
    saveState.

Definition startTextEdit (x y : number) : M unit :=
  finishTextEdit ;;
  modify (set_editingText true) ;;
  this <- get ;;
  let box := textEditor this in
  modify (set_textEditor
            (TextEditor.mk (js "block")
               (styleSet (js "left") (TextEditor.left box) (px x))
               (styleSet (js "top") (TextEditor.top box) (px y))
               (styleSet (js "font-size") (TextEditor.fontSize box)
                  (px (textSize this)))
               (styleSet (js "color") (TextEditor.color box)
                  (textColor this))
               (styleSet (js "font-family") (TextEditor.fontFamily box)
                  (textFont this))
               [])).

(** *** Drawing and highlighting *)

Definition startDrawing (x y : number) : M unit :=
  modify (set_isDrawing true) ;;
  modify (set_drawPath [(x, y)]) ;;
  this <- get ;;
  modify (set_editContext
            (Context2D.mk (strokeColor this) (strokeWidth this)
               (js "round") (js "round") [(x, y)])).

Definition continueDrawing (x y : number) : M unit :=
  this <- get ;;
  if negb (isDrawing this) then ret tt
  else
    modify (set_drawPath (drawPath this ++ [(x, y)])) ;;
    let ctx := editContext this in
    let ctx' :=
      Context2D.mk (Context2D.strokeStyle ctx) (Context2D.lineWidth ctx)
        (Context2D.lineCap ctx) (Context2D.lineJoin ctx)
        (Context2D.path ctx ++ [(x, y)]) in
    modify (set_editContext ctx') ;;
    modify (fun s =>
      let c := editCanvas s in
      set_editCanvas
        (Canvas.with_pixels
           (stroke (Context2D.strokeStyle ctx') (Context2D.lineWidth ctx')
              (Context2D.lineCap ctx') (Context2D.lineJoin ctx')
              (Context2D.path ctx')
              (Canvas.width c) (Canvas.height c) (Canvas.pixels c))
           c)
        s).

(** [closePath()] paints nothing. *)
Definition finishDrawing : M unit :=
  this <- get ;;
  if negb (isDrawing this) then ret tt
  else
    modify (set_isDrawing false) ;;
    saveState.

Definition startHighlight (x y : number) : M unit :=
  this <- get ;;
  modify (fun s =>
    let c := editCanvas s in
    set_editCanvas
      (Canvas.with_pixels
         (fillRect (fillColor this) num_0_3
            (sub x (num 50)) (sub y (num 5)) (num 100) (num 20)
            (Canvas.width c) (Canvas.height c) (Canvas.pixels c))
         c)
      s) ;;
  saveState.

(** *** Selection *)

Definition clearSelection : M unit := modify (set_selectedElement None).

Definition selectElement (x y : number) : M unit := clearSelection.

(** *** Tools and pointer input *)

Definition setCursor (v : jsstring) : M unit :=
  modify (fun s => set_editCanvas (Canvas.set_cursor v (editCanvas s)) s).

Definition setTool (tool : jsstring) : M unit :=
  modify (set_currentTool tool) ;;
  finishTextEdit ;;
  clearSelection ;;
  (if jseqb tool (js "text") then setCursor (js "text")
   else if jseqb tool (js "draw") then setCursor (js "crosshair")
   else if jseqb tool (js "highlight") then setCursor (js "cell")
   else if jseqb tool (js "select") then setCursor (js "default")
   else setCursor (js "crosshair")) ;;
  emit (toolChanged tool).

(** The pointer position in bitmap coordinates; [rect] is what
    [this.editCanvas.getBoundingClientRect()] returns. *)
Definition toCanvasX (this : PDFEditor) (e : MouseEvent) (rect : DOMRect)
  : number :=
  mul (sub (clientX e) (rectLeft rect))
      (div (num (Z.of_nat (Canvas.width (editCanvas this))))
           (rectWidth rect)).

Definition toCanvasY (this : PDFEditor) (e : MouseEvent) (rect : DOMRect)
  : number :=
  mul (sub (clientY e) (rectTop rect))
      (div (num (Z.of_nat (Canvas.height (editCanvas this))))
           (rectHeight rect)).

Definition handleEditMouseDown (e : MouseEvent) (rect : DOMRect) : M unit :=
  this <- get ;;
  if negb (isEditMode this) then ret tt
  else
    let x := toCanvasX this e rect in
    let y := toCanvasY this e rect in
    if jseqb (currentTool this) (js "text") then startTextEdit x y
    else if jseqb (currentTool this) (js "draw") then startDrawing x y
    else if jseqb (currentTool this) (js "highlight")
    then startHighlight x y
    else if jseqb (currentTool this) (js "select") then selectElement x y
    else ret tt.

Definition handleEditMouseMove (e : MouseEvent) (rect : DOMRect) : M unit :=
  this <- get ;;
  if negb (isEditMode this) || negb (isDrawing this) then ret tt
  else continueDrawing (toCanvasX this e rect) (toCanvasY this e rect).

Definition handleEditMouseUp : M unit :=
  this <- get ;;
  if negb (isEditMode this) then ret tt
  else if isDrawing this then finishDrawing
  else ret tt.

(** *** Edit mode *)

Definition setEngine (engine : option Engine.t) : M unit :=
  modify (set_engine engine).

Definition enableEditMode : M unit :=
  modify (set_isEditMode true) ;;
  modify (set_pointerEvents (js "auto")) ;;
  emit editModeEnabled.

Definition disableEditMode : M unit :=
  modify (set_isEditMode false) ;;
  modify (set_pointerEvents (js "none")) ;;
  finishTextEdit ;;
  clearSelection ;;
  emit editModeDisabled.

(** *** Canvas management *)

(** [parentRect] is the bounding rectangle of the overlay container's
    parent, absent when the container was never attached.  Assigning
    [width] or [height] blanks the bitmap and resets the 2D context. *)
Definition syncOverlaySize (renderData : RenderData)
    (parentRect : option DOMRect) : M unit :=
  match canvas renderData with
  | None => ret tt
  | Some sourceCanvas =>
      modify (fun s =>
        set_editContext freshContext
          (set_editCanvas
             (Canvas.set_width (SourceCanvas.width sourceCanvas)
                (editCanvas s)) s)) ;;
      modify (fun s =>
        set_editContext freshContext
          (set_editCanvas
             (Canvas.set_height (SourceCanvas.height sourceCanvas)
                (editCanvas s)) s)) ;;
      let rect := SourceCanvas.boundingClientRect sourceCanvas in
      match parentRect with
      | None => throw TypeError
      | Some containerRect =>
          modify (fun s =>
            let c := editCanvas s in
            set_editCanvas
              (Canvas.set_placement
                 (styleSet (js "width") (Canvas.styleWidth c)
                    (px (rectWidth rect)))
                 (styleSet (js "height") (Canvas.styleHeight c)
                    (px (rectHeight rect)))
                 (styleSet (js "left") (Canvas.styleLeft c)
                    (px (sub (rectLeft rect) (rectLeft containerRect))))
                 (styleSet (js "top") (Canvas.styleTop c)
                    (px (sub (rectTop rect) (rectTop containerRect))))
                 c) s)
      end
  end.

(** *** Export *)

(** [drawImage] of a canvas without width or height is an
    InvalidStateError; reading [width] of a missing element is a
    TypeError. *)
Definition exportAsImage (document : Document) : M jsstring :=
  this <- get ;;
  match pdfCanvas document with
  | None => throw TypeError
  | Some originalCanvas =>
      let w := SourceCanvas.width originalCanvas in
      let h := SourceCanvas.height originalCanvas in
      if (w =? 0) || (h =? 0) then throw InvalidStateError
      else
        let combined :=
          drawImage w h (SourceCanvas.pixels originalCanvas)
            w h (blank w h) in
        let c := editCanvas this in
        if (Canvas.width c =? 0) || (Canvas.height c =? 0)
        then throw InvalidStateError
        else
          ret (toDataURL w h
                 (drawImage (Canvas.width c) (Canvas.height c)
                    (Canvas.pixels c) w h combined))
  end.

Definition engineHasPDF (this : PDFEditor) : bool :=
  match engine this with
  | Some e =>
      match Engine.currentPDF e with Some _ => true | None => false end
  | None => false
  end.

(** The rejection of the promise is the throw. *)
Definition exportEditedPDF (document : Document) : M jsstring :=
  this <- get ;;
  if negb (engineHasPDF this) then throw (Error (js "No PDF loaded"))
  else exportAsImage document.

(** *** Clear all edits *)

Definition clearAllEdits : M unit :=
  modify (fun s =>
    let c := editCanvas s in
    set_editCanvas
      (Canvas.clearRect (Canvas.width c) (Canvas.height c) c) s) ;;
  modify (set_editHistory []) ;;
  modify (set_historyIndex (-1)) ;;
  saveState.

(** ** A session: what reaches the editor from outside *)

Inductive event :=
| SetEngine (e : Engine.t)
| PdfLoaded (pdf : PDFDocumentProxy)
| PageRendered (renderData : RenderData) (parentRect : option DOMRect)
| EnableEditMode
| DisableEditMode
| SetTool (tool : jsstring)
| MouseDown (e : MouseEvent) (rect : DOMRect)
| MouseMove (e : MouseEvent) (rect : DOMRect)
| MouseUp
| Typed (text : jsstring)
| Blur
| Escape
| Undo
| Redo
| ClearAllEdits.

(** The method each event ends in.  [PdfLoaded] is the engine assigning
    its own [currentPDF]: the editor holds the engine by reference and
    sees it.  [PageRendered] reaches the listener [setEngine] registered.
    [Typed] is the user replacing the content of the text box; [Blur]
    and [Escape] are the listeners of the text box. *)
Definition handle (ev : event) : M unit :=
  match ev with
  | SetEngine e => setEngine (Some e)
  | PdfLoaded pdf =>
      modify (fun s =>
        match engine s with
        | Some _ => set_engine (Some (Engine.mk (Some pdf))) s
        | None => s
        end)
  | PageRendered renderData parentRect =>
      this <- get ;;
      match engine this with
      | Some _ => syncOverlaySize renderData parentRect
      | None => ret tt
      end
  | EnableEditMode => enableEditMode
  | DisableEditMode => disableEditMode
  | SetTool tool => setTool tool
  | MouseDown e rect => handleEditMouseDown e rect
  | MouseMove e rect => handleEditMouseMove e rect
  | MouseUp => handleEditMouseUp
  | Typed text =>
      modify (fun s =>
        set_textEditor (TextEditor.set_textContent text (textEditor s)) s)
  | Blur => finishTextEdit
  | Escape => cancelTextEdit
  | Undo => undo
  | Redo => redo
  | ClearAllEdits => clearAllEdits
  end.

(** An uncaught exception ends the handler, not the page: the next
    event finds the fields as the failed handler left them. *)
Fixpoint run (evs : list event) (s : PDFEditor) : PDFEditor :=
  match evs with
  | [] => s
  | ev :: evs' => run evs' (state_of (handle ev s))
  end.

Definition isPageRendered (ev : event) : bool :=
  match ev with PageRendered _ _ => true | _ => false end.

(** No page was rendered in the course of the session. *)
Definition neverRendered (evs : list event) : bool :=
  negb (existsb isPageRendered evs).

(** A sequence of captures, the raster holding [p] when the n-th one is
    taken. *)
Definition paint (p : list pixel) : M unit :=
  modify (fun s => set_editCanvas (Canvas.with_pixels p (editCanvas s)) s).

Fixpoint captures (ps : list (list pixel)) : M unit :=
  match ps with
  | [] => ret tt
  | p :: ps' => paint p ;; saveState ;; captures ps'
  end.

End Editor.

Notation "x <- c ;; k" := (bind c (fun x => k))
  (at level 61, c at next level, right associativity) : js_scope.
Notation "c ;; k" := (bind c (fun _ => k))
  (at level 61, right associativity) : js_scope.

(** ** A small browser to run the editor on

    Numbers are integers, printed in decimal; text, rectangles and
    strokes leave opaque marks at their anchor points; compositing keeps
    a source pixel unless it is fully transparent. *)
Module Sample.

Definition digit (n : N) : N := 48 + n.

Fixpoint digits (fuel : nat) (n : N) (acc : jsstring) : jsstring :=
  match fuel with
  | O => acc
  | S fuel' =>
      let acc' := digit (n mod 10) :: acc in
      if (n / 10 =? 0)%N then acc' else digits fuel' (n / 10) acc'
  end.

Definition showZ (z : Z) : jsstring :=
  let n := Z.to_N (Z.abs z) in
  let d := digits (S (N.to_nat (N.log2 n))) n [] in
  if (z <? 0)%Z then 45%N :: d else d.

Fixpoint readN (s : jsstring) (acc : N) : N :=
  match s with
  | c :: s' =>
      if ((48 <=? c) && (c <=? 57))%N then readN s' (acc * 10 + (c - 48))
      else acc
  | [] => acc
  end.

Definition readZ (s : jsstring) : Z :=
  match trimStart s with
  | 45%N :: s' => (- Z.of_N (readN s' 0))%Z
  | s' => Z.of_N (readN s' 0)
  end.

Fixpoint setNth (i : nat) (p : pixel) (l : list pixel) : list pixel :=
  match l, i with
  | [], _ => []
  | _ :: l', O => p :: l'
  | q :: l', S i' => q :: setNth i' p l'
  end.

Definition mark (p : pixel) (x y : Z) (w h : nat) (l : list pixel)
  : list pixel :=
  if ((0 <=? x) && (x <? Z.of_nat w) && (0 <=? y) && (y <? Z.of_nat h))%Z
  then setNth (Z.to_nat y * w + Z.to_nat x) p l
  else l.

Definition over (sw sh : nat) (src : list pixel) (dw dh : nat)
    (dst : list pixel) : list pixel :=
  grid dw dh
    (fun x y =>
       let d := nth (y * dw + x) dst transparent in
       if (x <? sw) && (y <? sh)
       then let s := nth (y * sw + x) src transparent in
            if (alpha s =? 0)%N then d else s
       else d).

Definition isDigit (c : N) : bool := ((48 <=? c) && (c <=? 57))%N.

Definition hexDigit (c : N) : option Z :=
  if isDigit c then Some (Z.of_N (c - 48))
  else if ((97 <=? c) && (c <=? 102))%N then Some (Z.of_N (c - 87))
  else if ((65 <=? c) && (c <=? 70))%N then Some (Z.of_N (c - 55))
  else None.

Definition hexByte (a b : N) : option Z :=
  match hexDigit a, hexDigit b with
  | Some x, Some y => Some (16 * x + y)%Z
  | _, _ => None
  end.

(** A sample of the CSS value grammar: a length is an integer followed
    by [px] and is kept as written; a colour written [#rrggbb] is
    serialised as [rgb(r, g, b)]; other values are kept as written. *)
Fixpoint dropDigits (v : jsstring) : jsstring :=
  match v with
  | c :: v' => if isDigit c then dropDigits v' else v
  | [] => []
  end.

Definition isLength (v : jsstring) : bool :=
  let body := match v with 45%N :: v' => v' | _ => v end in
  match body with
  | c :: _ => isDigit c && jseqb (dropDigits body) (js "px")
  | [] => false
  end.

Definition parseColor (v : jsstring) : option jsstring :=
  match v with
  | [35%N; r1; r2; g1; g2; b1; b2] =>
      match hexByte r1 r2, hexByte g1 g2, hexByte b1 b2 with
      | Some r, Some g, Some b =>
          Some (js "rgb(" ++ showZ r ++ js ", " ++ showZ g ++ js ", "
                  ++ showZ b ++ js ")")
      | _, _, _ => None
      end
  | _ => Some v
  end.

Definition parseStyle (property v : jsstring) : option jsstring :=
  if jseqb property (js "color") then parseColor v
  else if jseqb property (js "font-family") then Some v
  else if isLength v then Some v else None.

Definition encode (w h : nat) (l : list pixel) : jsstring :=
  js "data:image/png;base64," ++ [N.of_nat w; N.of_nat h]
     ++ flat_map (fun p => [red p; green p; blue p; alpha p]) l.

#[export] Instance browser : Browser := {|
  number := Z;
  num := fun z => z;
  num_1_2 := 1%Z;
  num_0_3 := 0%Z;
  add := Z.add;
  sub := Z.sub;
  mul := Z.mul;
  div := Z.div;
  numToString := showZ;
  parseInt := readZ;
  cssParse := parseStyle;
  fillText := fun _ _ _ _ x y => mark (RGBA 0 0 0 255) x y;
  fillRect := fun _ _ x y _ _ => mark (RGBA 255 255 0 77) x y;
  stroke := fun _ _ _ _ pts w h l =>
              fold_left (fun l' pt => mark (RGBA 255 0 0 255)
                                        (fst pt) (snd pt) w h l') pts l;
  drawImage := over;
  toDataURL := encode
|}.

Definition black : pixel := RGBA 0 0 0 255.
Definition red_ : pixel := RGBA 255 0 0 255.

Definition unitRect : DOMRect := mkRect 0%Z 0%Z 2%Z 1%Z.

(** A page rendered to a 2 by 1 canvas, and to a 1 by 1 canvas. *)
Definition page2x1 : RenderData :=
  mkRenderData 1 (Some (SourceCanvas.mk 2 1 [black; black] unitRect)).

Definition page1x1 : RenderData :=
  mkRenderData 1
    (Some (SourceCanvas.mk 1 1 [black] (mkRect 0%Z 0%Z 1%Z 1%Z))).

Definition attached : PDFEditor :=
  run [SetEngine (Engine.mk (Some (pdfDocument 1)));
       PageRendered page2x1 (Some unitRect)] constructor.

End Sample.

(** ** The state a history operation leaves

    Closed forms of [saveState], [undo] and [redo] on the paths where
    they run to their end; the properties below show that the methods
    compute them. *)
Section Outcomes.
Context {B : Browser}.

(** What the capacity check of [saveState] keeps of the history. *)
Definition evict (h : list ImageData.t) : list ImageData.t :=
  if maxHistorySize <? length h then tl h else h.

Definition announce (s : PDFEditor) : PDFEditor :=
  set_emitted (emitted s ++ [stateChanged (canUndo s) (canRedo s)]) s.

Definition saved (s : PDFEditor) : PDFEditor :=
  let h := slice0 (editHistory s) (historyIndex s + 1)
             ++ [Canvas.snapshot (editCanvas s)] in
  announce
    (if maxHistorySize <? length h
     then set_editHistory (tl h) s
     else set_historyIndex (historyIndex s + 1) (set_editHistory h s)).

Definition restored (i : Z) (img : ImageData.t) (s : PDFEditor)
  : PDFEditor :=
  announce
    (set_editCanvas (Canvas.putImageData img (editCanvas s))
       (set_historyIndex i s)).

Definition painted (p : list pixel) (s : PDFEditor) : PDFEditor :=
  set_editCanvas (Canvas.with_pixels p (editCanvas s)) s.

(** The snapshot a capture takes when the raster holds [p]. *)
Definition snapshotOf (s : PDFEditor) (p : list pixel) : ImageData.t :=
  Canvas.snapshot (Canvas.with_pixels p (editCanvas s)).

(** The pointer addresses an entry and the history respects the
    capacity; [-1] with an empty history. *)
Definition wfHistory (s : PDFEditor) : Prop :=
  (-1 <= historyIndex s < Z.of_nat (length (editHistory s)))%Z
  /\ length (editHistory s) <= maxHistorySize.

(** A text edit is in progress and would be committed. *)
Definition pendingText (s : PDFEditor) : bool :=
  editingText s && truthy (trim (TextEditor.textContent (textEditor s))).

(** The text box closed and emptied. *)
Definition cancelled (s : PDFEditor) : PDFEditor :=
  set_textEditor
    (TextEditor.clear (TextEditor.set_display (js "none") (textEditor s)))
    (set_editingText false s).

(** The pending text painted where the box stood. *)
Definition texted (s : PDFEditor) : PDFEditor :=
  set_editCanvas
    (drawText s (TextEditor.textContent (textEditor s))
       (parseInt (TextEditor.left (textEditor s)))
       (parseInt (TextEditor.top (textEditor s)))
       (editCanvas s))
    s.

Definition committed (s : PDFEditor) : PDFEditor :=
  saved (cancelled (texted s)).

(** The text box shown and emptied, with [(x, y)] and the text settings
    assigned to its style. *)
Definition opened (x y : number) (s : PDFEditor) : PDFEditor :=
  let box := textEditor s in
  set_textEditor
    (TextEditor.mk (js "block")
       (styleSet (js "left") (TextEditor.left box) (px x))
       (styleSet (js "top") (TextEditor.top box) (px y))
       (styleSet (js "font-size") (TextEditor.fontSize box)
          (px (textSize s)))
       (styleSet (js "color") (TextEditor.color box) (textColor s))
       (styleSet (js "font-family") (TextEditor.fontFamily box)
          (textFont s))
       [])
    (set_editingText true s).

(** Lines of text filled one below the other, [1.2] font sizes apart,
    the first one at [(x, y)], each with the same fill colour and font
    and the [top] baseline; [i] counts the lines already filled. *)
Fixpoint textLines (color font : jsstring) (size x y : number) (i : nat)
    (lines : list jsstring) (c : Canvas.t) : Canvas.t :=
  match lines with
  | [] => c
  | line :: rest =>
      textLines color font size x y (S i) rest
        (Canvas.with_pixels
           (fillText color font (js "top") line x
              (add y (mul (mul (num (Z.of_nat i)) size) num_1_2))
              (Canvas.width c) (Canvas.height c) (Canvas.pixels c))
           c)
  end.

(** The raster after the pending text of [s] was filled line by line
    from the position its box holds. *)
Definition textFilled (s : PDFEditor) : Canvas.t :=
  textLines (textColor s)
    (numToString (textSize s) ++ js "px " ++ textFont s)
    (textSize s)
    (parseInt (TextEditor.left (textEditor s)))
    (parseInt (TextEditor.top (textEditor s)))
    0 (split_lines (TextEditor.textContent (textEditor s)))
    (editCanvas s).

(** Neither the raster nor the history differ between two states. *)
Definition untouched (s s' : PDFEditor) : Prop :=
  editHistory s' = editHistory s
  /\ historyIndex s' = historyIndex s
  /\ Canvas.pixels (editCanvas s') = Canvas.pixels (editCanvas s)
  /\ Canvas.width (editCanvas s') = Canvas.width (editCanvas s)
  /\ Canvas.height (editCanvas s') = Canvas.height (editCanvas s).

Definition loadsDocument (ev : event) : bool :=
  match ev with
  | SetEngine e =>
      match Engine.currentPDF e with Some _ => true | None => false end
  | PdfLoaded _ => true
  | _ => false
  end.

(** No document reached the engine in the course of the session. *)
Definition neverLoaded (evs : list event) : bool :=
  negb (existsb loadsDocument evs).

(** A computation leaves a field, or any other view of the state, as
    it found it, whether it completes or throws. *)
Definition keeps {T A} (f : PDFEditor -> T) (c : M A) : Prop :=
  forall s, f (state_of (c s)) = f s.

(** A computation started in a state with property [P] ends in one,
    whether it completes or throws. *)
Definition maintains {A} (P : PDFEditor -> Prop) (c : M A) : Prop :=
  forall s, P s -> P (state_of (c s)).

End Outcomes.

(** ** The rest of the class: setters, keys, touches *)

Section Rest.
Context {B : Browser}.
Local Open Scope js_scope.

Definition set_textColor (v : jsstring) (s : PDFEditor) : PDFEditor :=
  mkPDFEditor (engine s) (isEditMode s) (selectedElement s)
    (editHistory s) (historyIndex s) (currentTool s) v (textSize s)
    (textFont s) (strokeColor s) (strokeWidth s) (fillColor s)
    (editCanvas s) (editContext s) (pointerEvents s) (textEditor s)
    (editingText s) (isDrawing s) (drawPath s) (emitted s).

Definition set_textSize (v : number) (s : PDFEditor) : PDFEditor :=
  mkPDFEditor (engine s) (isEditMode s) (selectedElement s)
    (editHistory s) (historyIndex s) (currentTool s) (textColor s) v
    (textFont s) (strokeColor s) (strokeWidth s) (fillColor s)
    (editCanvas s) (editContext s) (pointerEvents s) (textEditor s)
    (editingText s) (isDrawing s) (drawPath s) (emitted s).

Definition set_textFont (v : jsstring) (s : PDFEditor) : PDFEditor :=
  mkPDFEditor (engine s) (isEditMode s) (selectedElement s)
    (editHistory s) (historyIndex s) (currentTool s) (textColor s)
    (textSize s) v (strokeColor s) (strokeWidth s) (fillColor s)
    (editCanvas s) (editContext s) (pointerEvents s) (textEditor s)
    (editingText s) (isDrawing s) (drawPath s) (emitted s).



Definition set_fillColor (v : jsstring) (s : PDFEditor) : PDFEditor :=
  mkPDFEditor (engine s) (isEditMode s) (selectedElement s)
    (editHistory s) (historyIndex s) (currentTool s) (textColor s)
    (textSize s) (textFont s) (strokeColor s) (strokeWidth s) v
    (editCanvas s) (editContext s) (pointerEvents s) (textEditor s)
    (editingText s) (isDrawing s) (drawPath s) (emitted s).

Definition withColor (v : jsstring) (e : TextEditor.t) : TextEditor.t :=
  TextEditor.mk (TextEditor.display e) (TextEditor.left e) (TextEditor.top e)
    (TextEditor.fontSize e) v (TextEditor.fontFamily e)
    (TextEditor.textContent e).

Definition withFontSize (v : jsstring) (e : TextEditor.t) : TextEditor.t :=
  TextEditor.mk (TextEditor.display e) (TextEditor.left e) (TextEditor.top e)
    v (TextEditor.color e) (TextEditor.fontFamily e)
    (TextEditor.textContent e).

Definition withFontFamily (v : jsstring) (e : TextEditor.t) : TextEditor.t :=
  TextEditor.mk (TextEditor.display e) (TextEditor.left e) (TextEditor.top e)
    (TextEditor.fontSize e) (TextEditor.color e) v
    (TextEditor.textContent e).

(** *** Property setters *)

Definition setTextColor (color : jsstring) : M unit :=
  modify (set_textColor color) ;;
  this <- get ;;
  if editingText this
  then modify (fun s =>
                 let box := textEditor s in
                 set_textEditor
                   (withColor
                      (styleSet (js "color") (TextEditor.color box) color)
                      box) s)
  else ret tt.

Definition setTextSize (size : number) : M unit :=
  modify (set_textSize size) ;;
  this <- get ;;
  if editingText this
  then modify (fun s =>
                 let box := textEditor s in
                 set_textEditor
                   (withFontSize
                      (styleSet (js "font-size") (TextEditor.fontSize box)
                         (px size))
                      box) s)
  else ret tt.

Definition setTextFont (font : jsstring) : M unit :=
  modify (set_textFont font) ;;
  this <- get ;;
  if editingText this
  then modify (fun s =>
                 let box := textEditor s in
                 set_textEditor
                   (withFontFamily
                      (styleSet (js "font-family")
                         (TextEditor.fontFamily box) font)
                      box) s)
  else ret tt.



Definition setFillColor (color : jsstring) : M unit :=
  modify (set_fillColor color).

(** *** Deleting the selection and the keyboard shortcuts *)

Definition hasSelection (this : PDFEditor) : bool :=
  match selectedElement this with Some _ => true | None => false end.

Definition deleteSelectedElement : M unit :=
  this <- get ;;
  if negb (hasSelection this) then ret tt
  else clearSelection ;; saveState.

Record KeyboardEvent := mkKey {
  key : jsstring;
  ctrlKey : bool;
  metaKey : bool;
  shiftKey : bool
}.

(** The [keydown] listener on the document. *)
Definition handleKeyDown (e : KeyboardEvent) : M unit :=
  this <- get ;;
  if negb (isEditMode this) then ret tt
  else
    (if ctrlKey e || metaKey e
     then if jseqb (key e) (js "z")
          then (if shiftKey e then redo else undo)
          else if jseqb (key e) (js "y") then redo
          else ret tt
     else ret tt) ;;
    this <- get ;;
    if jseqb (key e) (js "Delete") && hasSelection this
    then deleteSelectedElement
    else ret tt.

(** *** Touch input *)

Record Touch := mkTouch {
  touchX : number;
  touchY : number
}.

(** What a synthetic MouseEvent reports for a coordinate it was
    initialised with. *)
Variable mouseInit : number -> number.

Definition mouseOfTouch (t : Touch) : MouseEvent :=
  mkMouseEvent (mouseInit (touchX t)) (mouseInit (touchY t)).

(** [e.touches] is the argument; [rect] as for the mouse handlers. *)
Definition handleEditTouchStart (touches : list Touch) (rect : DOMRect)
  : M unit :=
  match touches with
  | [touch] => handleEditMouseDown (mouseOfTouch touch) rect
  | _ => ret tt
  end.

Definition handleEditTouchMove (touches : list Touch) (rect : DOMRect)
  : M unit :=
  this <- get ;;
  match touches with
  | [touch] =>
      if isDrawing this then handleEditMouseMove (mouseOfTouch touch) rect
      else ret tt
  | _ => ret tt
  end.

Definition handleEditTouchEnd : M unit := handleEditMouseUp.

(** Pointer and touch input as it reaches the canvas listeners. *)
Inductive pointerInput :=
| OnMouseDown (e : MouseEvent) (rect : DOMRect)
| OnMouseMove (e : MouseEvent) (rect : DOMRect)
| OnMouseUp
| OnTouchStart (touches : list Touch) (rect : DOMRect)
| OnTouchMove (touches : list Touch) (rect : DOMRect)
| OnTouchEnd.

Definition onPointer (i : pointerInput) : M unit :=
  match i with
  | OnMouseDown e rect => handleEditMouseDown e rect
  | OnMouseMove e rect => handleEditMouseMove e rect
  | OnMouseUp => handleEditMouseUp
  | OnTouchStart touches rect => handleEditTouchStart touches rect
  | OnTouchMove touches rect => handleEditTouchMove touches rect
  | OnTouchEnd => handleEditTouchEnd
  end.

Fixpoint runPointer (l : list pointerInput) (s : PDFEditor) : PDFEditor :=
  match l with
  | [] => s
  | i :: l' => runPointer l' (state_of (onPointer i s))
  end.

(** *** Closed forms of the drawing steps *)

Definition drawingStarted (x y : number) (s : PDFEditor) : PDFEditor :=
  set_editContext
    (Context2D.mk (strokeColor s) (strokeWidth s) (js "round") (js "round")
       [(x, y)])
    (set_drawPath [(x, y)] (set_isDrawing true s)).

Definition extended (x y : number) (ctx : Context2D.t) : Context2D.t :=
  Context2D.mk (Context2D.strokeStyle ctx) (Context2D.lineWidth ctx)
    (Context2D.lineCap ctx) (Context2D.lineJoin ctx)
    (Context2D.path ctx ++ [(x, y)]).

Definition strokedCanvas (ctx : Context2D.t) (c : Canvas.t) : Canvas.t :=
  Canvas.with_pixels
    (stroke (Context2D.strokeStyle ctx) (Context2D.lineWidth ctx)
       (Context2D.lineCap ctx) (Context2D.lineJoin ctx) (Context2D.path ctx)
       (Canvas.width c) (Canvas.height c) (Canvas.pixels c))
    c.

Definition stroked (x y : number) (s : PDFEditor) : PDFEditor :=
  set_editCanvas
    (strokedCanvas (extended x y (editContext s)) (editCanvas s))
    (set_editContext (extended x y (editContext s))
       (set_drawPath (drawPath s ++ [(x, y)]) s)).

Definition highlighted (x y : number) (s : PDFEditor) : PDFEditor :=
  set_editCanvas
    (Canvas.with_pixels
       (fillRect (fillColor s) num_0_3 (sub x (num 50)) (sub y (num 5))
          (num 100) (num 20)
          (Canvas.width (editCanvas s)) (Canvas.height (editCanvas s))
          (Canvas.pixels (editCanvas s)))
       (editCanvas s))
    s.

(** The pointer position of an event in bitmap coordinates. *)
Definition at_pointer (s : PDFEditor) (rect : DOMRect) (e : MouseEvent)
  : point :=
  (toCanvasX s e rect, toCanvasY s e rect).

(** *** What the listeners were told last *)

(** The payload of the last [stateChanged] in a log, [d] if there is
    none. *)
Fixpoint lastStateChanged (l : list Notification) (d : bool * bool)
  : bool * bool :=
  match l with
  | [] => d
  | stateChanged u r :: l' => lastStateChanged l' (u, r)
  | _ :: l' => lastStateChanged l' d
  end.

(** The listeners of [stateChanged] know whether undo and redo are
    enabled; before the first notification they assume neither is. *)
Definition inSync (s : PDFEditor) : Prop :=
  lastStateChanged (emitted s) (false, false) = (canUndo s, canRedo s).

Definition rendersWithArea (ev : event) : bool :=
  match ev with
  | PageRendered rd _ =>
      match canvas rd with
      | Some c =>
          negb ((SourceCanvas.width c =? 0) || (SourceCanvas.height c =? 0))
      | None => true
      end
  | _ => true
  end.

(** The cursor [setTool] gives the canvas. *)
Definition cursorFor (tool : jsstring) : jsstring :=
  if jseqb tool (js "text") then js "text"
  else if jseqb tool (js "draw") then js "crosshair"
  else if jseqb tool (js "highlight") then js "cell"
  else if jseqb tool (js "select") then js "default"
  else js "crosshair".

(** What [setTool] does after the pending text is dealt with. *)
Definition toolSwitched (tool : jsstring) (s : PDFEditor) : PDFEditor :=
  set_emitted (emitted s ++ [toolChanged tool])
    (set_editCanvas (Canvas.set_cursor (cursorFor tool) (editCanvas s))
       (set_selectedElement None s)).

(** The moves of a gesture as events. *)
Definition moveEvents (ms : list (MouseEvent * DOMRect)) : list event :=
  map (fun m => MouseMove (fst m) (snd m)) ms.

Definition recognised (tool : jsstring) : bool :=
  jseqb tool (js "text") || jseqb tool (js "draw")
  || jseqb tool (js "highlight") || jseqb tool (js "select").

(** [n] times undo. *)
Fixpoint undos (n : nat) (s : PDFEditor) : PDFEditor :=
  match n with
  | O => s
  | S n' => undos n' (state_of (undo s))
  end.

End Rest.

(** ** The event systems of the editor and of the engine

    [on], [emit] and [off] as both classes write them.  The listeners
    are a Map from event names to arrays of callbacks, kept here in
    insertion order.  A callback acts on a world [W] of its own and may
    throw; it has an identity, which is what [indexOf] compares; it
    does not register or remove listeners while it runs. *)
Module Events.
Section Listeners.
Variables (W D : Type).

Record callback := mkCallback {
  ident : nat;
  call : D -> W -> completion W unit
}.

Definition registry := list (jsstring * list callback).

Fixpoint lookup (ev : jsstring) (m : registry) : option (list callback) :=
  match m with
  | [] => None
  | (k, cbs) :: m' => if jseqb k ev then Some cbs else lookup ev m'
  end.

(** Replacing the array of a key that is present. *)
Fixpoint update (ev : jsstring) (cbs : list callback) (m : registry)
  : registry :=
  match m with
  | [] => []
  | (k, old) :: m' =>
      if jseqb k ev then (k, cbs) :: m' else (k, old) :: update ev cbs m'
  end.

(** [on(event, callback)] of the engine, whose Map exists from the
    constructor on. *)
Definition on (ev : jsstring) (cb : callback) (m : registry) : registry :=
  match lookup ev m with
  | Some cbs => update ev (cbs ++ [cb]) m
  | None => m ++ [(ev, [cb])]
  end.

(** [on(event, callback)] of the editor, which creates its Map on the
    first registration. *)
Definition onLazy (ev : jsstring) (cb : callback) (m : option registry)
  : option registry :=
  match m with
  | Some reg => Some (on ev cb reg)
  | None => Some (on ev cb [])
  end.

(** [forEach(callback => callback(data))]: an exception leaves the
    loop. *)
Fixpoint deliver (cbs : list callback) (d : D) (w : W) : completion W unit :=
  match cbs with
  | [] => Normal tt w
  | cb :: cbs' =>
      match call cb d w with
      | Normal _ w' => deliver cbs' d w'
      | Throw e w' => Throw e w'
      end
  end.

(** [emit(event, data)] of the engine. *)
Definition emit (ev : jsstring) (d : D) (m : registry) (w : W)
  : completion W unit :=
  match lookup ev m with
  | Some cbs => deliver cbs d w
  | None => Normal tt w
  end.

(** The loop of the editor, each call inside [try]: an exception is
    logged and the loop goes on. *)
Fixpoint deliverGuarded (cbs : list callback) (d : D) (w : W) : W :=
  match cbs with
  | [] => w
  | cb :: cbs' => deliverGuarded cbs' d (state_of (call cb d w))
  end.

(** [emit(event, data)] of the editor. *)
Definition emitGuarded (ev : jsstring) (d : D) (m : option registry) (w : W)
  : W :=
  match m with
  | None => w
  | Some reg =>
      match lookup ev reg with
      | Some cbs => deliverGuarded cbs d w
      | None => w
      end
  end.

(** [callbacks.splice(callbacks.indexOf(callback), 1)] when the
    callback is found. *)
Fixpoint removeFirst (i : nat) (cbs : list callback) : list callback :=
  match cbs with
  | [] => []
  | cb :: cbs' => if ident cb =? i then cbs' else cb :: removeFirst i cbs'
  end.

(** [off(event, callback)] of the engine. *)
Definition off (ev : jsstring) (cb : callback) (m : registry) : registry :=
  match lookup ev m with
  | Some cbs => update ev (removeFirst (ident cb) cbs) m
  | None => m
  end.

(** The callbacks an [emit] of [ev] would call, none for an unknown
    event. *)
Definition listening (ev : jsstring) (m : registry) : list callback :=
  match lookup ev m with Some cbs => cbs | None => [] end.

End Listeners.

Arguments mkCallback {W D} _ _.
Arguments ident {W D} _.
Arguments call {W D} _ _ _.
Arguments lookup {W D} _ _.
Arguments update {W D} _ _ _.
Arguments on {W D} _ _ _.
Arguments onLazy {W D} _ _ _.
Arguments deliver {W D} _ _ _.
Arguments emit {W D} _ _ _ _.
Arguments deliverGuarded {W D} _ _ _.
Arguments emitGuarded {W D} _ _ _ _.
Arguments removeFirst {W D} _ _.
Arguments off {W D} _ _ _.
Arguments listening {W D} _ _.
End Events.

(** ** Sample sessions *)

Section Runs.
Import Sample.
Local Open Scope js_scope.

Definition clickLeft : MouseEvent := mkMouseEvent 0%Z 0%Z.
Definition click : MouseEvent := mkMouseEvent 1%Z 0%Z.

(** Two texts typed and committed on the 2 by 1 overlay, one on each
    pixel: two captures. *)
Definition twoCaptures : PDFEditor :=
  run [EnableEditMode;
       MouseDown clickLeft unitRect; Typed (js "a"); Blur;
       MouseDown click unitRect; Typed (js "b"); Blur]
    attached.

(** The same, after the page was rendered again at 1 by 1. *)
Definition zoomedOut : PDFEditor :=
  run [PageRendered page1x1 (Some unitRect)] twoCaptures.

(** A text box opened by a click, holding two spaces. *)
Definition typingSpaces : PDFEditor :=
  run [EnableEditMode; MouseDown click unitRect; Typed (js "  ")] attached.

(** A text box opened by a click, holding a word. *)
Definition typingWord : PDFEditor :=
  run [EnableEditMode; MouseDown click unitRect; Typed (js "hi")] attached.

(** A document is loaded and no page has been rendered yet. *)
Definition loadedOnly : list event :=
  [SetEngine (Engine.mk None); PdfLoaded (pdfDocument 3)].

Definition nothingLoaded : list event :=
  [SetEngine (Engine.mk None); EnableEditMode].

(** The page canvas as a document has it before anything is drawn. *)
Definition stillPage : Document :=
  mkDocument
    (Some (SourceCanvas.mk 300 150 (blank 300 150)
             (mkRect 0%Z 0%Z 300%Z 150%Z))).
End Runs.

(** ** More sample sessions *)

Section MoreRuns.
Import Sample.
Local Open Scope js_scope.

(** Two captures, then one undo: the pointer is on the first entry and
    the raster shows it. *)
Definition oneUndone : PDFEditor := run [Undo] twoCaptures.

(** A page rendered to a canvas without width. *)
Definition page0x1 : RenderData :=
  mkRenderData 1
    (Some (SourceCanvas.mk 0 1 [] (mkRect 0%Z 0%Z 0%Z 1%Z))).

(** One undone capture and an overlay that has lost its width. *)
Definition collapsed : PDFEditor :=
  run [PageRendered page0x1 (Some unitRect)] oneUndone.

(** A word being typed on an overlay that has lost its width. *)
Definition typingCollapsed : PDFEditor :=
  run [PageRendered page0x1 (Some unitRect)] typingWord.

Definition editingSession : list event :=
  [SetEngine (Engine.mk (Some (pdfDocument 1)));
   PageRendered page2x1 (Some unitRect);
   EnableEditMode;
   MouseDown clickLeft unitRect; Typed (js "a"); Blur;
   MouseDown click unitRect; Typed (js "b"); Blur;
   Undo].

Definition drawing : PDFEditor :=
  run [EnableEditMode; SetTool (js "draw")] twoCaptures.

Definition highlighting : PDFEditor :=
  run [EnableEditMode; SetTool (js "highlight")] twoCaptures.

Definition plainKey : KeyboardEvent := mkKey (js "a") false false false.

(** Listeners that count their calls, and one that fails. *)
Definition counting (i : nat) : Events.callback nat unit :=
  Events.mkCallback i (fun _ w => Normal tt (S w)).

Definition failing (i : nat) : Events.callback nat unit :=
  Events.mkCallback i (fun _ w => Throw TypeError (10 + w)).

Definition threeListeners : Events.registry nat unit :=
  [(js "pageRendered", [counting 1; failing 2; counting 3])].

End MoreRuns.

(** * Properties *)

Section Properties.
Context {B : Browser}.
Local Open Scope js_scope.

(** ** Bitmaps *)

Lemma grid_length w h f : length (grid w h f) = w * h.
Proof. unfold grid. now rewrite length_map, length_seq. Qed.

Lemma grid_nth w h f i d :
  i < w * h -> nth i (grid w h f) d = f (i mod w) (i / w).
Proof.
  intros Hi. unfold grid.
  rewrite (nth_indep _ d (f (0 mod w) (0 / w))) by
    now rewrite length_map, length_seq.
  rewrite (map_nth (fun i => f (i mod w) (i / w)) (seq 0 (w * h)) 0 i).
  now rewrite seq_nth.
Qed.

Lemma cell_bounds w h i :
  i < w * h -> i mod w < w /\ i / w < h /\ i / w * w + i mod w = i.
Proof.
  intros Hi.
  assert (Hw : w <> 0) by (intros ->; simpl in Hi; lia).
  split; [now apply Nat.mod_upper_bound|].
  split; [now apply Nat.Div0.div_lt_upper_bound|].
  pose proof (Nat.div_mod_eq i w). lia.
Qed.

(** A grid that reads a full pixel list back is that list. *)
Lemma grid_read w h (l : list pixel) g :
  length l = w * h ->
  (forall x y, x < w -> y < h -> g x y = nth (y * w + x) l transparent) ->
  grid w h g = l.
Proof.
  intros Hl Hg.
  apply (nth_ext _ _ transparent transparent).
  - now rewrite grid_length.
  - intros i Hi. rewrite grid_length in Hi.
    rewrite grid_nth by assumption.
    destruct (cell_bounds w h i Hi) as (Hx & Hy & Hxy).
    rewrite Hg by assumption. now rewrite Hxy.
Qed.

Lemma blank_length w h : length (blank w h) = w * h.
Proof. unfold blank. apply repeat_length. Qed.

Lemma blank_nth w h i : nth i (blank w h) transparent = transparent.
Proof. unfold blank. apply nth_repeat. Qed.

Lemma grid_blank w h g :
  (forall x y, x < w -> y < h -> g x y = transparent) ->
  grid w h g = blank w h.
Proof.
  intros Hg. apply grid_read.
  - apply blank_length.
  - intros x y Hx Hy. now rewrite Hg, blank_nth.
Qed.

Lemma ltb_and x w y h : x < w -> y < h -> (x <? w) && (y <? h) = true.
Proof.
  intros Hx Hy.
  apply andb_true_intro; split; now apply Nat.ltb_lt.
Qed.

(** Writing image data of the bitmap's own size replaces the bitmap. *)
Lemma putImageData_same_size img c :
  ImageData.width img = Canvas.width c ->
  ImageData.height img = Canvas.height c ->
  length (ImageData.data img) = Canvas.width c * Canvas.height c ->
  Canvas.pixels (Canvas.putImageData img c) = ImageData.data img.
Proof.
  intros Hw Hh Hl. simpl. apply grid_read; [assumption|].
  intros x y Hx Hy. rewrite Hw, Hh, ltb_and by assumption.
  unfold ImageData.at_. now rewrite Hw.
Qed.

Lemma clearRect_all c :
  Canvas.pixels (Canvas.clearRect (Canvas.width c) (Canvas.height c) c)
  = blank (Canvas.width c) (Canvas.height c).
Proof.
  simpl. apply grid_blank. intros x y Hx Hy.
  now rewrite ltb_and.
Qed.

Lemma snapshot_blank c :
  Canvas.is_blank c ->
  Canvas.snapshot c
  = ImageData.mk (Canvas.width c) (Canvas.height c)
      (blank (Canvas.width c) (Canvas.height c)).
Proof.
  intros Hb. unfold Canvas.snapshot. f_equal.
  apply grid_blank. intros x y Hx Hy.
  unfold Canvas.at_. rewrite ltb_and by assumption.
  rewrite Hb. apply blank_nth.
Qed.

Lemma getImageData_snapshot c :
  Canvas.hasArea c = true ->
  Canvas.getImageData (Canvas.width c) (Canvas.height c) c
  = inr (Canvas.snapshot c).
Proof.
  unfold Canvas.hasArea, Canvas.getImageData. intros H.
  apply negb_true_iff in H. now rewrite H.
Qed.

Lemma getImageData_no_area c :
  Canvas.hasArea c = false ->
  Canvas.getImageData (Canvas.width c) (Canvas.height c) c
  = inl IndexSizeError.
Proof.
  unfold Canvas.hasArea, Canvas.getImageData. intros H.
  apply negb_false_iff in H. now rewrite H.
Qed.

(** ** The history operations *)

Lemma saveState_ok s :
  Canvas.hasArea (editCanvas s) = true ->
  saveState s = Normal tt (saved s).
Proof.
  intros Ha. unfold saveState, bind, get, modify, getImageData.
  cbn -[Canvas.getImageData slice0 Nat.ltb].
  rewrite (getImageData_snapshot _ Ha). unfold saved.
  cbn -[slice0 Nat.ltb].
  destruct (maxHistorySize <? _); reflexivity.
Qed.

Lemma saveState_throws s :
  Canvas.hasArea (editCanvas s) = false ->
  saveState s
  = Throw IndexSizeError
      (set_editHistory (slice0 (editHistory s) (historyIndex s + 1)) s).
Proof.
  intros Ha. unfold saveState, bind, get, modify, getImageData.
  cbn -[Canvas.getImageData slice0 Nat.ltb].
  now rewrite (getImageData_no_area _ Ha).
Qed.

Lemma undo_ok s img :
  canUndo s = true ->
  index (editHistory s) (historyIndex s - 1) = Some img ->
  undo s = Normal tt (restored (historyIndex s - 1) img s).
Proof.
  intros Hu Hi. unfold undo, bind, get, modify. rewrite Hu. simpl.
  rewrite Hi. reflexivity.
Qed.

Lemma redo_ok s img :
  canRedo s = true ->
  index (editHistory s) (historyIndex s + 1) = Some img ->
  redo s = Normal tt (restored (historyIndex s + 1) img s).
Proof.
  intros Hr Hi. unfold redo, bind, get, modify. rewrite Hr. simpl.
  rewrite Hi. reflexivity.
Qed.

Lemma saved_editCanvas s : editCanvas (saved s) = editCanvas s.
Proof.
  unfold saved. cbn -[slice0 Nat.ltb].
  destruct (maxHistorySize <? _); reflexivity.
Qed.

Lemma saved_editHistory s :
  editHistory (saved s)
  = evict (slice0 (editHistory s) (historyIndex s + 1)
             ++ [Canvas.snapshot (editCanvas s)]).
Proof.
  unfold saved, evict. cbn -[slice0 Nat.ltb].
  destruct (maxHistorySize <? _); reflexivity.
Qed.

Lemma saved_historyIndex s :
  historyIndex (saved s)
  = if maxHistorySize <?
         length (slice0 (editHistory s) (historyIndex s + 1)
                   ++ [Canvas.snapshot (editCanvas s)])
    then historyIndex s else (historyIndex s + 1)%Z.
Proof.
  unfold saved. cbn -[slice0 Nat.ltb].
  destruct (maxHistorySize <? _); reflexivity.
Qed.

Lemma restored_hasArea i img s :
  Canvas.hasArea (editCanvas (restored i img s))
  = Canvas.hasArea (editCanvas s).
Proof. reflexivity. Qed.

(** C1, as the code has it: after capture, capture, undo, capture on
    an empty history nothing can be redone and the history holds two
    entries, the first capture and the last one. *)
Theorem branch_truncation s :
  editHistory s = [] ->
  historyIndex s = (-1)%Z ->
  Canvas.hasArea (editCanvas s) = true ->
  let r := (saveState ;; saveState ;; undo ;; saveState) s in
  completes r = true
  /\ canRedo (state_of r) = false
  /\ length (editHistory (state_of r)) = 2.
Proof.
  intros Hh Hi Ha r. subst r. unfold bind.
  rewrite (saveState_ok s Ha).
  assert (Ha1 : Canvas.hasArea (editCanvas (saved s)) = true)
    by now rewrite saved_editCanvas.
  rewrite (saveState_ok _ Ha1).
  assert (H1 : editHistory (saved s) = [Canvas.snapshot (editCanvas s)])
    by (rewrite saved_editHistory, Hh, Hi; reflexivity).
  assert (I1 : historyIndex (saved s) = 0%Z)
    by (rewrite saved_historyIndex, Hh, Hi; reflexivity).
  set (a := Canvas.snapshot (editCanvas s)) in *.
  set (s1 := saved s) in *.
  assert (H2 : editHistory (saved s1) = [a; Canvas.snapshot (editCanvas s1)])
    by (rewrite saved_editHistory, H1, I1; reflexivity).
  assert (I2 : historyIndex (saved s1) = 1%Z)
    by (rewrite saved_historyIndex, H1, I1; reflexivity).
  set (s2 := saved s1) in *.
  assert (Hu : undo s2 = Normal tt (restored 0 a s2)).
  { replace 0%Z with (historyIndex s2 - 1)%Z by (rewrite I2; reflexivity).
    apply undo_ok.
    - unfold canUndo. now rewrite I2.
    - rewrite H2, I2. reflexivity. }
  rewrite Hu.
  set (s3 := restored 0 a s2).
  assert (Ha3 : Canvas.hasArea (editCanvas s3) = true).
  { unfold s3. rewrite restored_hasArea. unfold s2.
    now rewrite saved_editCanvas. }
  rewrite (saveState_ok _ Ha3). cbn [completes state_of].
  assert (H3 : editHistory s3 = editHistory s2) by reflexivity.
  assert (I3 : historyIndex s3 = 0%Z) by reflexivity.
  assert (H4 : editHistory (saved s3)
               = [a; Canvas.snapshot (editCanvas s3)])
    by (rewrite saved_editHistory, H3, H2, I3; reflexivity).
  assert (I4 : historyIndex (saved s3) = 1%Z)
    by (rewrite saved_historyIndex, H3, H2, I3; reflexivity).
  unfold canRedo. rewrite H4, I4. auto.
Qed.

(** ** Capacity *)

Lemma keepLast_short {A} n (l : list A) : length l <= n -> keepLast n l = l.
Proof.
  intros H. unfold keepLast.
  replace (length l - n) with 0 by lia. reflexivity.
Qed.

Lemma keepLast_length {A} n (l : list A) : length (keepLast n l) <= n.
Proof. unfold keepLast. rewrite length_skipn. lia. Qed.

Lemma keepLast_app {A} n (l r : list A) :
  keepLast n (keepLast n l ++ r) = keepLast n (l ++ r).
Proof.
  destruct (Nat.le_gt_cases (length l) n) as [Hs | Hl].
  - now rewrite (keepLast_short n l Hs).
  - unfold keepLast at 1 3.
    rewrite !length_app. unfold keepLast. rewrite length_skipn.
    rewrite !skipn_app, length_skipn, skipn_skipn.
    f_equal; f_equal; lia.
Qed.

Lemma slice0_wf s :
  wfHistory s ->
  length (slice0 (editHistory s) (historyIndex s + 1))
  = Z.to_nat (historyIndex s + 1).
Proof.
  intros [Hi _]. unfold slice0.
  destruct (Z.ltb_spec (historyIndex s + 1) 0); [lia|].
  rewrite length_firstn. lia.
Qed.

Lemma slice0_tip {A} (h : list A) :
  slice0 h (Z.of_nat (length h) - 1 + 1) = h.
Proof.
  unfold slice0.
  destruct (Z.ltb_spec (Z.of_nat (length h) - 1 + 1) 0); [lia|].
  replace (Z.to_nat _) with (length h) by lia.
  apply firstn_all.
Qed.

Lemma evict_keepLast h :
  length h <= S maxHistorySize -> evict h = keepLast maxHistorySize h.
Proof.
  intros H. unfold evict.
  destruct (Nat.ltb_spec maxHistorySize (length h)) as [Hl | Hs].
  - unfold keepLast.
    replace (length h - maxHistorySize) with 1 by lia.
    now destruct h.
  - now rewrite keepLast_short.
Qed.

Lemma index_last {A} (l : list A) x :
  index (l ++ [x]) (Z.of_nat (length (l ++ [x])) - 1) = Some x.
Proof.
  unfold index. rewrite length_app. simpl.
  destruct (Z.ltb_spec (Z.of_nat (length l + 1) - 1) 0); [lia|].
  replace (Z.to_nat _) with (length l) by lia.
  rewrite nth_error_app2 by lia. now rewrite Nat.sub_diag.
Qed.

Lemma keepLast_snoc {A} n (l : list A) x :
  0 < n -> exists l', keepLast n (l ++ [x]) = l' ++ [x].
Proof.
  intros Hn. unfold keepLast. rewrite length_app. simpl.
  rewrite skipn_app.
  replace (length l + 1 - n - length l) with 0 by lia.
  now exists (skipn (length l + 1 - n) l).
Qed.

(** One capture on a well-formed history: the entries up to the pointer
    and the new snapshot, cut to the capacity from the front, with the
    pointer on the new snapshot. *)
Lemma saved_tip s :
  wfHistory s ->
  editHistory (saved s)
  = keepLast maxHistorySize
      (slice0 (editHistory s) (historyIndex s + 1)
         ++ [Canvas.snapshot (editCanvas s)])
  /\ historyIndex (saved s)
     = (Z.of_nat (length (editHistory (saved s))) - 1)%Z
  /\ wfHistory (saved s)
  /\ index (editHistory (saved s)) (historyIndex (saved s))
     = Some (Canvas.snapshot (editCanvas s)).
Proof.
  intros Hwf. pose proof (slice0_wf s Hwf) as Hl.
  destruct Hwf as [Hi Hc].
  set (h := slice0 (editHistory s) (historyIndex s + 1)
              ++ [Canvas.snapshot (editCanvas s)]) in *.
  assert (Hh : length h = Z.to_nat (historyIndex s + 1) + 1)
    by (unfold h; rewrite length_app, Hl; reflexivity).
  assert (He : editHistory (saved s) = keepLast maxHistorySize h).
  { rewrite saved_editHistory. apply evict_keepLast. fold h.
    unfold maxHistorySize in *. lia. }
  assert (Hk : length (keepLast maxHistorySize h)
               = Nat.min (length h) maxHistorySize).
  { unfold keepLast. rewrite length_skipn. lia. }
  assert (Hp : historyIndex (saved s)
               = (Z.of_nat (length (editHistory (saved s))) - 1)%Z).
  { rewrite saved_historyIndex, He, Hk. fold h.
    destruct (Nat.ltb_spec maxHistorySize (length h));
      unfold maxHistorySize in *; lia. }
  repeat split; try assumption.
  - rewrite Hp. lia.
  - rewrite Hp. rewrite He, Hk. unfold maxHistorySize in *. lia.
  - rewrite He. apply keepLast_length.
  - rewrite Hp, He.
    destruct (keepLast_snoc maxHistorySize
                (slice0 (editHistory s) (historyIndex s + 1))
                (Canvas.snapshot (editCanvas s))) as [l' Hl'];
      [unfold maxHistorySize; lia|].
    fold h in Hl'. rewrite Hl'. apply index_last.
Qed.

Lemma captures_cons ps : forall p s,
  wfHistory s ->
  Canvas.hasArea (editCanvas s) = true ->
  let r := captures (p :: ps) s in
  completes r = true
  /\ editHistory (state_of r)
     = keepLast maxHistorySize
         (slice0 (editHistory s) (historyIndex s + 1)
            ++ map (snapshotOf s) (p :: ps))
  /\ historyIndex (state_of r)
     = (Z.of_nat (length (editHistory (state_of r))) - 1)%Z
  /\ index (editHistory (state_of r)) (historyIndex (state_of r))
     = Some (Canvas.snapshot (editCanvas (state_of r))).
Proof.
  induction ps as [|q ps IH]; intros p s Hwf Ha r; subst r.
  - change (captures [p] s)
      with (bind saveState (fun _ => ret tt) (painted p s)).
    unfold bind. rewrite saveState_ok by exact Ha.
    destruct (saved_tip (painted p s) Hwf) as (He & Hp & _ & Hx).
    cbn [ret completes state_of map].
    rewrite saved_editCanvas in *.
    repeat split; assumption.
  - change (captures (p :: q :: ps) s)
      with (bind saveState (fun _ => captures (q :: ps)) (painted p s)).
    unfold bind. rewrite saveState_ok by exact Ha.
    destruct (saved_tip (painted p s) Hwf) as (He & Hp & Hwf1 & _).
    set (s1 := saved (painted p s)) in *.
    assert (Hc1 : editCanvas s1 = Canvas.with_pixels p (editCanvas s))
      by (unfold s1; now rewrite saved_editCanvas).
    assert (Ha1 : Canvas.hasArea (editCanvas s1) = true)
      by (rewrite Hc1; exact Ha).
    destruct (IH q s1 Hwf1 Ha1) as (Hr & Hh & Hi & Hx).
    repeat split; try assumption.
    rewrite Hh, Hp, slice0_tip, He.
    change (editHistory (painted p s)) with (editHistory s).
    change (historyIndex (painted p s)) with (historyIndex s).
    change (Canvas.snapshot (editCanvas (painted p s)))
      with (snapshotOf s p).
    rewrite keepLast_app, <- app_assoc.
    replace (map (snapshotOf s1) (q :: ps))
      with (map (snapshotOf s) (q :: ps)); [reflexivity|].
    apply map_ext. intros p'. unfold snapshotOf. now rewrite Hc1.
Qed.

(** C2: any non-empty sequence of captures on a well-formed history
    leaves the last 50 of the entries up to the pointer followed by
    the new snapshots; the entries dropped are the oldest, and the
    pointer is on the snapshot taken last. *)
Theorem capacity_bound s ps :
  wfHistory s ->
  Canvas.hasArea (editCanvas s) = true ->
  ps <> [] ->
  let r := captures ps s in
  completes r = true
  /\ length (editHistory (state_of r)) <= 50
  /\ editHistory (state_of r)
     = keepLast 50
         (slice0 (editHistory s) (historyIndex s + 1)
            ++ map (snapshotOf s) ps)
  /\ historyIndex (state_of r)
     = (Z.of_nat (length (editHistory (state_of r))) - 1)%Z
  /\ index (editHistory (state_of r)) (historyIndex (state_of r))
     = Some (Canvas.snapshot (editCanvas (state_of r))).
Proof.
  intros Hwf Ha Hne. destruct ps as [|p ps]; [contradiction|].
  destruct (captures_cons ps p s Hwf Ha) as (Hr & Hh & Hi & Hx).
  cbv zeta. repeat split; try assumption.
  rewrite Hh. apply (keepLast_length maxHistorySize).
Qed.

(** ** Undo and redo *)

Lemma snapshot_wf c :
  Canvas.wf c ->
  Canvas.snapshot c
  = ImageData.mk (Canvas.width c) (Canvas.height c) (Canvas.pixels c).
Proof.
  intros Hwf. unfold Canvas.snapshot. f_equal.
  apply grid_read; [exact Hwf|].
  intros x y Hx Hy. unfold Canvas.at_. now rewrite ltb_and.
Qed.

Lemma index_Some_range {A} (l : list A) i x :
  index l i = Some x -> (0 <= i < Z.of_nat (length l))%Z.
Proof.
  unfold index. destruct (Z.ltb_spec i 0); [discriminate|].
  intros H'. assert (Hn : nth_error l (Z.to_nat i) <> None) by congruence.
  apply nth_error_Some in Hn. lia.
Qed.

Lemma index_in_range {A} (l : list A) i :
  (0 <= i < Z.of_nat (length l))%Z -> exists x, index l i = Some x.
Proof.
  intros Hi. unfold index. destruct (Z.ltb_spec i 0); [lia|].
  destruct (nth_error l (Z.to_nat i)) eqn:E; [now eexists|].
  apply nth_error_None in E. lia.
Qed.

Lemma cell_index w x y :
  x < w -> (y * w + x) mod w = x /\ (y * w + x) / w = y.
Proof.
  intros Hx. split.
  - rewrite Nat.add_comm, Nat.Div0.mod_add. now apply Nat.mod_small.
  - rewrite Nat.add_comm, Nat.div_add by lia.
    now rewrite Nat.div_small.
Qed.

Lemma putImageData_at img c x y :
  x < Canvas.width c -> y < Canvas.height c ->
  Canvas.at_ (Canvas.putImageData img c) x y
  = if (x <? ImageData.width img) && (y <? ImageData.height img)
    then ImageData.at_ img x y else Canvas.at_ c x y.
Proof.
  intros Hx Hy. unfold Canvas.at_ at 1.
  change (Canvas.width (Canvas.putImageData img c)) with (Canvas.width c).
  change (Canvas.height (Canvas.putImageData img c))
    with (Canvas.height c).
  rewrite ltb_and by assumption.
  cbn [Canvas.putImageData Canvas.with_pixels Canvas.pixels].
  rewrite grid_nth by nia.
  destruct (cell_index (Canvas.width c) x y Hx) as [-> ->].
  reflexivity.
Qed.

Lemma grid_ext w h f g :
  (forall x y, x < w -> y < h -> f x y = g x y) -> grid w h f = grid w h g.
Proof.
  intros H. unfold grid. apply map_ext_in. intros i Hi.
  apply in_seq in Hi.
  destruct (cell_bounds w h i) as (Hx & Hy & _); [lia|].
  now apply H.
Qed.

Lemma snapshot_at c x y :
  x < Canvas.width c -> y < Canvas.height c ->
  ImageData.at_ (Canvas.snapshot c) x y = Canvas.at_ c x y.
Proof.
  intros Hx Hy. unfold ImageData.at_, Canvas.snapshot.
  cbn [ImageData.width ImageData.data].
  rewrite grid_nth by nia.
  now destruct (cell_index (Canvas.width c) x y Hx) as [-> ->].
Qed.

(** Writing back a snapshot of a bitmap of the same size restores every
    pixel the snapshot read. *)
Lemma putImageData_snapshot c c' :
  Canvas.width c' = Canvas.width c ->
  Canvas.height c' = Canvas.height c ->
  Canvas.snapshot (Canvas.putImageData (Canvas.snapshot c) c')
  = Canvas.snapshot c.
Proof.
  intros Hw Hh. unfold Canvas.snapshot at 1 3.
  change (Canvas.width (Canvas.putImageData (Canvas.snapshot c) c'))
    with (Canvas.width c').
  change (Canvas.height (Canvas.putImageData (Canvas.snapshot c) c'))
    with (Canvas.height c').
  rewrite Hw, Hh. f_equal. apply grid_ext. intros x y Hx Hy.
  rewrite putImageData_at by lia.
  cbn [Canvas.snapshot ImageData.width ImageData.height].
  rewrite ltb_and by assumption. now apply snapshot_at.
Qed.

Lemma at_outside c x y :
  (x <? Canvas.width c) && (y <? Canvas.height c) = false ->
  Canvas.at_ c x y = transparent.
Proof. intros H. unfold Canvas.at_. now rewrite H. Qed.

(** C3: when undo is enabled and the raster is what the entry under
    the pointer recorded, undo followed by redo completes and leaves
    every pixel of the raster, its size, the history and the pointer as
    they were. *)
Theorem undo_redo_round_trip s :
  canUndo s = true ->
  index (editHistory s) (historyIndex s)
  = Some (Canvas.snapshot (editCanvas s)) ->
  let r := (undo ;; redo) s in
  completes r = true
  /\ (forall x y,
        Canvas.at_ (editCanvas (state_of r)) x y
        = Canvas.at_ (editCanvas s) x y)
  /\ Canvas.snapshot (editCanvas (state_of r))
     = Canvas.snapshot (editCanvas s)
  /\ Canvas.width (editCanvas (state_of r)) = Canvas.width (editCanvas s)
  /\ Canvas.height (editCanvas (state_of r))
     = Canvas.height (editCanvas s)
  /\ editHistory (state_of r) = editHistory s
  /\ historyIndex (state_of r) = historyIndex s.
Proof.
  intros Hu Hcur r. subst r.
  pose proof (index_Some_range _ _ _ Hcur) as Hrange.
  assert (Hpos : (0 < historyIndex s)%Z)
    by (unfold canUndo in Hu; now apply Z.ltb_lt in Hu).
  destruct (index_in_range (editHistory s) (historyIndex s - 1))
    as [prev Hprev]; [lia|].
  unfold bind. rewrite (undo_ok s prev Hu Hprev).
  set (s1 := restored (historyIndex s - 1) prev s).
  assert (Hr : canRedo s1 = true).
  { unfold canRedo. apply Z.ltb_lt.
    change (historyIndex s1) with (historyIndex s - 1)%Z.
    change (editHistory s1) with (editHistory s). lia. }
  assert (Hnext : index (editHistory s1) (historyIndex s1 + 1)
                  = Some (Canvas.snapshot (editCanvas s))).
  { change (historyIndex s1) with (historyIndex s - 1)%Z.
    change (editHistory s1) with (editHistory s).
    now replace (historyIndex s - 1 + 1)%Z with (historyIndex s) by lia. }
  rewrite (redo_ok s1 _ Hr Hnext). cbn [completes state_of].
  set (c := editCanvas s).
  set (c' := Canvas.putImageData (Canvas.snapshot c) (editCanvas s1)).
  change (editCanvas (restored (historyIndex s1 + 1) (Canvas.snapshot c) s1))
    with c'.
  assert (Hsnap : Canvas.snapshot c' = Canvas.snapshot c)
    by (apply putImageData_snapshot; reflexivity).
  repeat split; try exact Hsnap.
  - intros x y.
    destruct ((x <? Canvas.width c) && (y <? Canvas.height c)) eqn:Hin.
    + apply andb_prop in Hin. destruct Hin as [Hx Hy].
      apply Nat.ltb_lt in Hx. apply Nat.ltb_lt in Hy.
      rewrite <- (snapshot_at c' x y), <- (snapshot_at c x y), Hsnap;
        auto.
    + rewrite (at_outside c x y Hin). now apply at_outside.
  - change (historyIndex s - 1 + 1 = historyIndex s)%Z. lia.
Qed.

(** ** Frames *)

Lemma keeps_ret {T A} (f : PDFEditor -> T) (a : A) : keeps f (ret a).
Proof. intros s. reflexivity. Qed.

Lemma keeps_throw {T A} (f : PDFEditor -> T) e : keeps f (@throw _ A e).
Proof. intros s. reflexivity. Qed.

Lemma keeps_get {T} (f : PDFEditor -> T) : keeps f get.
Proof. intros s. reflexivity. Qed.

Lemma keeps_modify {T} (f : PDFEditor -> T) g :
  (forall s, f (g s) = f s) -> keeps f (modify g).
Proof. intros H s. apply H. Qed.

Lemma keeps_bind {T A C} (f : PDFEditor -> T) (c : M A) (k : A -> M C) :
  keeps f c -> (forall a, keeps f (k a)) -> keeps f (bind c k).
Proof.
  intros Hc Hk s. unfold bind. specialize (Hc s).
  destruct (c s) as [a s' | e s']; simpl in *.
  - now rewrite Hk.
  - exact Hc.
Qed.

Ltac frame :=
  repeat first
    [ apply keeps_ret | apply keeps_throw | apply keeps_get
    | assumption
    | apply keeps_modify; intros; reflexivity
    | apply keeps_bind; [|intros]
    | match goal with
      | |- keeps _ (if ?b then _ else _) => destruct b
      | |- keeps _ (match ?x with _ => _ end) => destruct x
      end ].

Lemma saveState_keeps_engine : keeps engine saveState.
Proof. unfold saveState, emitStateChanged, getImageData, emit. frame. Qed.

Lemma saveState_keeps_currentTool : keeps currentTool saveState.
Proof. unfold saveState, emitStateChanged, getImageData, emit. frame. Qed.

Lemma finishTextEdit_keeps_engine : keeps engine finishTextEdit.
Proof.
  pose proof saveState_keeps_engine.
  unfold finishTextEdit, cancelTextEdit, addTextElement. frame.
Qed.

Lemma finishTextEdit_keeps_currentTool : keeps currentTool finishTextEdit.
Proof.
  pose proof saveState_keeps_currentTool.
  unfold finishTextEdit, cancelTextEdit, addTextElement. frame.
Qed.

(** Only the engine itself, or attaching one, changes what the editor
    sees of the engine. *)
Lemma handle_keeps_engine ev :
  match ev with
  | SetEngine _ | PdfLoaded _ => True
  | _ => keeps engine (handle ev)
  end.
Proof.
  pose proof saveState_keeps_engine.
  pose proof finishTextEdit_keeps_engine.
  destruct ev; try exact I;
    unfold handle, syncOverlaySize, enableEditMode, disableEditMode,
      setTool, setCursor, handleEditMouseDown, handleEditMouseMove,
      handleEditMouseUp, startTextEdit, startDrawing, continueDrawing,
      finishDrawing, startHighlight, selectElement, clearSelection,
      cancelTextEdit, undo, redo, restoreState, emitStateChanged,
      clearAllEdits, emit;
    frame.
Qed.

Lemma handle_no_document ev s :
  loadsDocument ev = false ->
  engineHasPDF s = false ->
  engineHasPDF (state_of (handle ev s)) = false.
Proof.
  intros Hev Hs. pose proof (handle_keeps_engine ev) as Hk.
  destruct ev; try discriminate;
    try (unfold engineHasPDF in *; now rewrite Hk).
  simpl in *. unfold engineHasPDF. simpl.
  now destruct (Engine.currentPDF e).
Qed.

Lemma run_no_document evs : forall s,
  neverLoaded evs = true ->
  engineHasPDF s = false ->
  engineHasPDF (run evs s) = false.
Proof.
  unfold neverLoaded.
  induction evs as [|ev evs IH]; intros s Hn Hs; [exact Hs|].
  simpl in Hn. apply negb_true_iff, orb_false_iff in Hn.
  destruct Hn as [Hev Hrest].
  simpl. apply IH.
  - now rewrite Hrest.
  - now apply handle_no_document.
Qed.

(** C8, as the code has it: as long as no document has been loaded
    into the engine of the session, [exportEditedPDF] fails with the
    error "No PDF loaded" and changes nothing. *)
Theorem export_needs_document evs doc :
  neverLoaded evs = true ->
  exportEditedPDF doc (run evs constructor)
  = Throw (Error (js "No PDF loaded")) (run evs constructor).
Proof.
  intros Hn.
  pose proof (run_no_document evs constructor Hn eq_refl) as He.
  unfold exportEditedPDF, bind, get. now rewrite He.
Qed.

(** ** Geometry, clearing and restoring *)

(** C4, as the code has it: a page-rendered notification that carries
    a canvas gives the overlay that canvas's size and a transparent
    bitmap, and leaves the history and its pointer alone, so that
    [canUndo] and [canRedo] answer as before. *)
Theorem sync_blanks_raster_keeps_history s n src parentRect :
  let s' :=
    state_of (syncOverlaySize (mkRenderData n (Some src)) parentRect s) in
  Canvas.width (editCanvas s') = SourceCanvas.width src
  /\ Canvas.height (editCanvas s') = SourceCanvas.height src
  /\ Canvas.is_blank (editCanvas s')
  /\ editHistory s' = editHistory s
  /\ historyIndex s' = historyIndex s
  /\ canUndo s' = canUndo s
  /\ canRedo s' = canRedo s.
Proof.
  destruct parentRect; repeat split; reflexivity.
Qed.

(** C5, as the code has it: on an overlay with width and height,
    [clearAllEdits] makes the raster transparent and leaves a history
    of one entry, the snapshot of the cleared raster, under the
    pointer. *)
Theorem clear_leaves_one_blank_entry s :
  Canvas.hasArea (editCanvas s) = true ->
  let r := clearAllEdits s in
  let w := Canvas.width (editCanvas s) in
  let h := Canvas.height (editCanvas s) in
  completes r = true
  /\ Canvas.is_blank (editCanvas (state_of r))
  /\ editHistory (state_of r) = [ImageData.mk w h (blank w h)]
  /\ historyIndex (state_of r) = 0%Z.
Proof.
  intros Ha r w h. subst r.
  set (c := Canvas.clearRect w h (editCanvas s)).
  set (s0 := set_historyIndex (-1)
               (set_editHistory [] (set_editCanvas c s))).
  assert (Hb : Canvas.is_blank c)
    by exact (clearRect_all (editCanvas s)).
  assert (Hr : clearAllEdits s = Normal tt (saved s0))
    by (apply (saveState_ok s0); exact Ha).
  rewrite Hr. cbn [completes state_of].
  repeat split.
  - now rewrite saved_editCanvas.
  - rewrite saved_editHistory.
    change (editCanvas s0) with c. rewrite (snapshot_blank c Hb).
    reflexivity.
Qed.

(** C9, as the code has it: undo and redo compare no sizes.  Whatever
    the width and height of the entry they move to, they complete
    normally and write the entry's pixels over the part of the bitmap
    the entry covers from the top left corner; the bitmap keeps its
    own size. *)
Theorem restore_compares_no_sizes (forward : bool) s img :
  (if forward then canRedo s else canUndo s) = true ->
  index (editHistory s)
    (if forward then historyIndex s + 1 else historyIndex s - 1)%Z
  = Some img ->
  let r := (if forward then redo else undo) s in
  let c := editCanvas s in
  completes r = true
  /\ editCanvas (state_of r) = Canvas.putImageData img c
  /\ forall x y, x < Canvas.width c -> y < Canvas.height c ->
       Canvas.at_ (editCanvas (state_of r)) x y
       = if (x <? ImageData.width img) && (y <? ImageData.height img)
         then ImageData.at_ img x y else Canvas.at_ c x y.
Proof.
  intros He Hi r c. subst r.
  assert (Hr : (if forward then redo else undo) s
               = Normal tt
                   (restored
                      (if forward then historyIndex s + 1
                       else historyIndex s - 1)%Z img s)).
  { destruct forward; [now apply redo_ok | now apply undo_ok]. }
  rewrite Hr. cbn [completes state_of].
  repeat split.
  intros x y Hx Hy. now apply putImageData_at.
Qed.

(** ** Text insertion *)

Lemma drawText_size this text x y c :
  Canvas.width (drawText this text x y c) = Canvas.width c
  /\ Canvas.height (drawText this text x y c) = Canvas.height c.
Proof.
  unfold drawText.
  generalize (combine (split_lines text)
                (seq 0 (length (split_lines text)))).
  intros l. revert c.
  induction l as [|li l IH]; intros c; [now split|].
  cbn [fold_left]. destruct (IH (Canvas.with_pixels
    (fillText (textColor this)
       (numToString (textSize this) ++ js "px " ++ textFont this)
       (js "top") (fst li) x
       (add y (mul (mul (num (Z.of_nat (snd li))) (textSize this))
                 num_1_2))
       (Canvas.width c) (Canvas.height c) (Canvas.pixels c)) c))
    as [Hw Hh].
  split; [exact Hw | exact Hh].
Qed.

Lemma fold_textLines color font size x y lines : forall i c,
  fold_left
    (fun c li =>
       Canvas.with_pixels
         (fillText color font (js "top") (fst li) x
            (add y (mul (mul (num (Z.of_nat (snd li))) size) num_1_2))
            (Canvas.width c) (Canvas.height c) (Canvas.pixels c))
         c)
    (combine lines (seq i (length lines))) c
  = textLines color font size x y i lines c.
Proof.
  induction lines as [|line rest IH]; intros i c; [reflexivity|].
  simpl. apply IH.
Qed.

(** [drawText] fills the lines of the text one by one. *)
Lemma drawText_textLines this text x y c :
  drawText this text x y c
  = textLines (textColor this)
      (numToString (textSize this) ++ js "px " ++ textFont this)
      (textSize this) x y 0 (split_lines text) c.
Proof. unfold drawText. apply fold_textLines. Qed.

Lemma texted_textFilled s : editCanvas (texted s) = textFilled s.
Proof.
  unfold textFilled. rewrite <- drawText_textLines. reflexivity.
Qed.

Lemma texted_hasArea s :
  Canvas.hasArea (editCanvas (cancelled (texted s)))
  = Canvas.hasArea (editCanvas s).
Proof.
  cbn [cancelled texted editCanvas set_textEditor set_editingText
       set_editCanvas].
  unfold Canvas.hasArea.
  destruct (drawText_size s (TextEditor.textContent (textEditor s))
              (parseInt (TextEditor.left (textEditor s)))
              (parseInt (TextEditor.top (textEditor s)))
              (editCanvas s)) as [-> ->].
  reflexivity.
Qed.

Lemma finish_condition s :
  negb (editingText s)
  || negb (truthy (trim (TextEditor.textContent (textEditor s))))
  = negb (pendingText s).
Proof. unfold pendingText. now rewrite negb_andb. Qed.

Lemma finishTextEdit_discard s :
  pendingText s = false -> finishTextEdit s = Normal tt (cancelled s).
Proof.
  intros Hp. unfold finishTextEdit, bind, get.
  rewrite finish_condition, Hp. reflexivity.
Qed.

Lemma finishTextEdit_commit s :
  pendingText s = true ->
  Canvas.hasArea (editCanvas s) = true ->
  finishTextEdit s = Normal tt (committed s).
Proof.
  intros Hp Ha. unfold finishTextEdit, bind, get.
  rewrite finish_condition, Hp. cbn [negb].
  change (saveState (cancelled (texted s)) = Normal tt (committed s)).
  apply saveState_ok. now rewrite texted_hasArea.
Qed.

Lemma finishTextEdit_no_area s :
  pendingText s = true ->
  Canvas.hasArea (editCanvas s) = false ->
  completes (finishTextEdit s) = false.
Proof.
  intros Hp Ha. unfold finishTextEdit, bind, get.
  rewrite finish_condition, Hp. cbn [negb].
  change (completes (saveState (cancelled (texted s))) = false).
  rewrite saveState_throws; [reflexivity|].
  now rewrite texted_hasArea.
Qed.

Lemma finishTextEdit_completes s :
  completes (finishTextEdit s)
  = negb (pendingText s) || Canvas.hasArea (editCanvas s).
Proof.
  destruct (pendingText s) eqn:Hp.
  - destruct (Canvas.hasArea (editCanvas s)) eqn:Ha.
    + now rewrite finishTextEdit_commit.
    + now rewrite finishTextEdit_no_area.
  - now rewrite finishTextEdit_discard.
Qed.

Lemma jseqb_refl t : jseqb t t = true.
Proof. unfold jseqb. now destruct (list_eq_dec N.eq_dec t t). Qed.

Lemma trim_empty_not_pending s :
  trim (TextEditor.textContent (textEditor s)) = [] ->
  pendingText s = false.
Proof. intros H. unfold pendingText. rewrite H. apply andb_false_r. Qed.

Lemma trim_nonempty_pending s :
  editingText s = true ->
  trim (TextEditor.textContent (textEditor s)) <> [] ->
  pendingText s = true.
Proof.
  intros He H. unfold pendingText. rewrite He.
  now destruct (trim (TextEditor.textContent (textEditor s))).
Qed.

(** C6: with a text edit in progress whose content trims to nothing,
    switching tools, losing focus or committing, leaving edit mode and
    a pointer-down that starts another text edit all complete, add no
    history entry, move no pointer and change no pixel. *)
Theorem blank_text_leaves_no_trace s tool x y :
  editingText s = true ->
  trim (TextEditor.textContent (textEditor s)) = [] ->
  (completes (setTool tool s) = true
   /\ untouched s (state_of (setTool tool s))
   /\ editingText (state_of (setTool tool s)) = false)
  /\ (completes (finishTextEdit s) = true
      /\ untouched s (state_of (finishTextEdit s))
      /\ editingText (state_of (finishTextEdit s)) = false
      /\ emitted (state_of (finishTextEdit s)) = emitted s)
  /\ (completes (disableEditMode s) = true
      /\ untouched s (state_of (disableEditMode s)))
  /\ (completes (startTextEdit x y s) = true
      /\ untouched s (state_of (startTextEdit x y s))).
Proof.
  intros _ Ht. pose proof (trim_empty_not_pending s Ht) as Hp.
  repeat apply conj.
  all: unfold setTool, disableEditMode, startTextEdit, untouched, bind,
         modify.
  all: try rewrite (finishTextEdit_discard (set_currentTool tool s) Hp).
  all: try rewrite (finishTextEdit_discard
                      (set_pointerEvents (js "none")
                         (set_isEditMode false s)) Hp).
  all: try rewrite (finishTextEdit_discard s Hp).
  all: repeat match goal with
              | |- context [jseqb ?a ?b] => destruct (jseqb a b)
              end.
  all: reflexivity.
Qed.

(** ** Tool switching *)

Lemma setTool_completes tool s :
  completes (setTool tool s)
  = completes (finishTextEdit (set_currentTool tool s)).
Proof.
  unfold setTool, bind, modify.
  destruct (finishTextEdit (set_currentTool tool s)); [|reflexivity].
  repeat match goal with
         | |- context [jseqb ?a ?b] => destruct (jseqb a b)
         end; reflexivity.
Qed.

Lemma setTool_currentTool tool s :
  currentTool (state_of (setTool tool s)) = tool.
Proof.
  pose proof finishTextEdit_keeps_currentTool as Hf.
  assert (Hk : keeps currentTool
                 (finishTextEdit ;;
                  clearSelection ;;
                  (if jseqb tool (js "text") then setCursor (js "text")
                   else if jseqb tool (js "draw")
                        then setCursor (js "crosshair")
                   else if jseqb tool (js "highlight")
                        then setCursor (js "cell")
                   else if jseqb tool (js "select")
                        then setCursor (js "default")
                   else setCursor (js "crosshair")) ;;
                  emit (toolChanged tool))).
  { unfold clearSelection, setCursor, emit. frame. }
  exact (Hk (set_currentTool tool s)).
Qed.

(** C7, as the code has it: [setTool] validates nothing.  Whatever
    string it is given becomes the active tool, and the call throws
    only when committing a pending text fails because the overlay has
    no width or no height. *)
Theorem setTool_accepts_any_tool tool s :
  currentTool (state_of (setTool tool s)) = tool
  /\ completes (setTool tool s)
     = negb (pendingText s) || Canvas.hasArea (editCanvas s).
Proof.
  split; [apply setTool_currentTool|].
  rewrite setTool_completes.
  exact (finishTextEdit_completes (set_currentTool tool s)).
Qed.

Lemma opened_frame x y s :
  editCanvas (opened x y s) = editCanvas s
  /\ editHistory (opened x y s) = editHistory s
  /\ historyIndex (opened x y s) = historyIndex s
  /\ emitted (opened x y s) = emitted s.
Proof. repeat split. Qed.

Lemma saved_emitted s :
  emitted (saved s)
  = emitted s ++ [stateChanged (canUndo (saved s)) (canRedo (saved s))].
Proof.
  unfold saved, announce. cbn -[slice0 Nat.ltb].
  destruct (maxHistorySize <? _); reflexivity.
Qed.

Lemma opened_box x y s :
  editingText (opened x y s) = true
  /\ TextEditor.display (textEditor (opened x y s)) = js "block"
  /\ TextEditor.left (textEditor (opened x y s))
     = styleSet (js "left") (TextEditor.left (textEditor s)) (px x)
  /\ TextEditor.top (textEditor (opened x y s))
     = styleSet (js "top") (TextEditor.top (textEditor s)) (px y)
  /\ TextEditor.textContent (textEditor (opened x y s)) = [].
Proof. repeat split. Qed.

Lemma saved_textEditor s : textEditor (saved s) = textEditor s.
Proof.
  unfold saved, announce. cbn -[slice0 Nat.ltb].
  destruct (maxHistorySize <? _); reflexivity.
Qed.

Lemma saved_editingText s : editingText (saved s) = editingText s.
Proof.
  unfold saved, announce. cbn -[slice0 Nat.ltb].
  destruct (maxHistorySize <? _); reflexivity.
Qed.

(** What committing a pending text leaves: the raster with the lines
    filled, its snapshot as the newest entry, one notification, and the
    box closed where it stood. *)
Lemma committed_filled s :
  editCanvas (committed s) = textFilled s
  /\ editHistory (committed s)
     = evict (slice0 (editHistory s) (historyIndex s + 1)
                ++ [Canvas.snapshot (textFilled s)])
  /\ emitted (committed s)
     = emitted s
         ++ [stateChanged (canUndo (committed s)) (canRedo (committed s))]
  /\ editingText (committed s) = false
  /\ TextEditor.left (textEditor (committed s))
     = TextEditor.left (textEditor s)
  /\ TextEditor.top (textEditor (committed s))
     = TextEditor.top (textEditor s).
Proof.
  rewrite <- texted_textFilled.
  unfold committed. set (t := cancelled (texted s)).
  split; [rewrite saved_editCanvas; reflexivity|].
  split; [rewrite saved_editHistory; reflexivity|].
  split; [apply (saved_emitted t)|].
  rewrite saved_editingText, saved_textEditor.
  repeat split.
Qed.

Lemma bind_normal {A C} (c : M A) (k : A -> M C) s a s' :
  c s = Normal a s' -> bind c k s = k a s'.
Proof. intros H. unfold bind. now rewrite H. Qed.

Lemma startTextEdit_opens x y s :
  (modify (set_editingText true) ;;
   this <- get ;;
   let box := textEditor this in
   modify (set_textEditor
             (TextEditor.mk (js "block")
                (styleSet (js "left") (TextEditor.left box) (px x))
                (styleSet (js "top") (TextEditor.top box) (px y))
                (styleSet (js "font-size") (TextEditor.fontSize box)
                   (px (textSize this)))
                (styleSet (js "color") (TextEditor.color box)
                   (textColor this))
                (styleSet (js "font-family") (TextEditor.fontFamily box)
                   (textFont this))
                []))) s
  = Normal tt (opened x y s).
Proof. reflexivity. Qed.

Lemma startTextEdit_commit x y s :
  pendingText s = true ->
  Canvas.hasArea (editCanvas s) = true ->
  startTextEdit x y s = Normal tt (opened x y (committed s)).
Proof.
  intros Hp Ha. unfold startTextEdit.
  rewrite (bind_normal _ _ _ _ _ (finishTextEdit_commit s Hp Ha)).
  apply startTextEdit_opens.
Qed.

Lemma handleEditMouseDown_text s e rect :
  isEditMode s = true ->
  currentTool s = js "text" ->
  handleEditMouseDown e rect s
  = startTextEdit (toCanvasX s e rect) (toCanvasY s e rect) s.
Proof.
  intros Hm Ht.
  unfold handleEditMouseDown.
  rewrite (bind_normal get _ s s s eq_refl).
  rewrite Hm, Ht, jseqb_refl. reflexivity.
Qed.

(** C10, as the code has it: in edit mode with the text tool active and
    on an overlay that has a width and a height, a pointer-down that
    finds a text edit in progress with content left after trimming
    first fills that text, line by line with the current colour, size
    and font and the [top] baseline, from the position its box holds,
    takes one snapshot of the raster so filled as the newest history
    entry and announces it once, and then shows the box again, empty,
    and assigns the pointer position in bitmap coordinates to its
    [left] and [top]. *)
Theorem pointer_down_commits_pending_text s e rect :
  isEditMode s = true ->
  currentTool s = js "text" ->
  editingText s = true ->
  trim (TextEditor.textContent (textEditor s)) <> [] ->
  Canvas.hasArea (editCanvas s) = true ->
  let r := handleEditMouseDown e rect s in
  let x := toCanvasX s e rect in
  let y := toCanvasY s e rect in
  let s' := state_of r in
  completes r = true
  /\ editCanvas s' = textFilled s
  /\ editHistory s'
     = evict (slice0 (editHistory s) (historyIndex s + 1)
                ++ [Canvas.snapshot (textFilled s)])
  /\ emitted s'
     = emitted s ++ [stateChanged (canUndo s') (canRedo s')]
  /\ editingText s' = true
  /\ TextEditor.display (textEditor s') = js "block"
  /\ TextEditor.left (textEditor s')
     = styleSet (js "left") (TextEditor.left (textEditor s)) (px x)
  /\ TextEditor.top (textEditor s')
     = styleSet (js "top") (TextEditor.top (textEditor s)) (px y)
  /\ TextEditor.textContent (textEditor s') = [].
Proof.
  intros Hm Ht He Hn Ha. cbv zeta.
  pose proof (trim_nonempty_pending s He Hn) as Hp.
  rewrite (handleEditMouseDown_text s e rect Hm Ht).
  rewrite (startTextEdit_commit _ _ s Hp Ha).
  cbn [state_of completes].
  destruct (committed_filled s) as (Hc & Hh & Hem & _ & Hl & Htop).
  destruct (opened_frame (toCanvasX s e rect) (toCanvasY s e rect)
              (committed s)) as (Fc & Fh & Fi & Fe).
  destruct (opened_box (toCanvasX s e rect) (toCanvasY s e rect)
              (committed s)) as (B1 & B2 & B3 & B4 & B5).
  split; [reflexivity|].
  split; [rewrite Fc; exact Hc|].
  split; [rewrite Fh; exact Hh|].
  split.
  { unfold canUndo, canRedo. rewrite Fe, Fh, Fi. exact Hem. }
  split; [exact B1|].
  split; [exact B2|].
  split; [rewrite B3, Hl; reflexivity|].
  split; [rewrite B4, Htop; reflexivity|].
  exact B5.
Qed.

(** ** The history invariant of a session *)

Lemma maintains_ret {A} P (a : A) : maintains P (ret a).
Proof. intros s H. exact H. Qed.

Lemma maintains_throw {A} P e : maintains P (@throw _ A e).
Proof. intros s H. exact H. Qed.

Lemma maintains_get P : maintains P get.
Proof. intros s H. exact H. Qed.

Lemma maintains_modify P g :
  (forall s, P s -> P (g s)) -> maintains P (modify g).
Proof. intros H s Hs. now apply H. Qed.

Lemma maintains_bind {A C} P (c : M A) (k : A -> M C) :
  maintains P c -> (forall a, maintains P (k a)) -> maintains P (bind c k).
Proof.
  intros Hc Hk s Hs. unfold bind. specialize (Hc s Hs).
  destruct (c s) as [a s' | e s']; simpl in *.
  - now apply Hk.
  - exact Hc.
Qed.

Ltac invariant :=
  repeat first
    [ apply maintains_ret | apply maintains_throw | apply maintains_get
    | assumption
    | apply maintains_modify; intros ? ?; assumption
    | apply maintains_bind; [|intros]
    | match goal with
      | |- maintains _ (if ?b then _ else _) => destruct b
      | |- maintains _ (match ?x with _ => _ end) => destruct x
      end ].

Lemma saveState_wfHistory : maintains wfHistory saveState.
Proof.
  intros s Hwf.
  destruct (Canvas.hasArea (editCanvas s)) eqn:Ha.
  - rewrite (saveState_ok s Ha). now apply saved_tip.
  - rewrite (saveState_throws s Ha). cbn [state_of].
    pose proof (slice0_wf s Hwf) as Hl. destruct Hwf as [Hi Hc].
    unfold wfHistory. cbn [editHistory historyIndex set_editHistory].
    rewrite Hl. unfold maxHistorySize in *. lia.
Qed.

Lemma undo_wfHistory : maintains wfHistory undo.
Proof.
  intros s Hwf. unfold undo, bind, get, modify, canUndo.
  destruct (Z.ltb_spec 0 (historyIndex s)) as [Hp | Hp];
    cbn [negb]; [|exact Hwf].
  assert (Hw : wfHistory (set_historyIndex (historyIndex s - 1) s)).
  { destruct Hwf as [Hi Hc]. split; [|exact Hc].
    cbn [editHistory historyIndex set_historyIndex]. lia. }
  cbn [editHistory historyIndex set_historyIndex].
  destruct (index (editHistory s) (historyIndex s - 1)); exact Hw.
Qed.

Lemma redo_wfHistory : maintains wfHistory redo.
Proof.
  intros s Hwf. unfold redo, bind, get, modify, canRedo.
  destruct (Z.ltb_spec (historyIndex s)
              (Z.of_nat (length (editHistory s)) - 1)) as [Hp | Hp];
    cbn [negb]; [|exact Hwf].
  assert (Hw : wfHistory (set_historyIndex (historyIndex s + 1) s)).
  { destruct Hwf as [Hi Hc]. split; [|exact Hc].
    cbn [editHistory historyIndex set_historyIndex]. lia. }
  cbn [editHistory historyIndex set_historyIndex].
  destruct (index (editHistory s) (historyIndex s + 1)); exact Hw.
Qed.

Lemma finishTextEdit_wfHistory : maintains wfHistory finishTextEdit.
Proof.
  pose proof saveState_wfHistory.
  unfold finishTextEdit, cancelTextEdit, addTextElement. invariant.
Qed.

Lemma clearAllEdits_wfHistory : maintains wfHistory clearAllEdits.
Proof.
  intros s _. unfold clearAllEdits, bind, modify.
  apply saveState_wfHistory. split; simpl; lia.
Qed.

Lemma handle_wfHistory ev : maintains wfHistory (handle ev).
Proof.
  pose proof saveState_wfHistory.
  pose proof finishTextEdit_wfHistory.
  pose proof undo_wfHistory.
  pose proof redo_wfHistory.
  pose proof clearAllEdits_wfHistory.
  destruct ev;
    unfold handle, setEngine, syncOverlaySize, enableEditMode,
      disableEditMode, setTool, setCursor, handleEditMouseDown,
      handleEditMouseMove, handleEditMouseUp, startTextEdit, startDrawing,
      continueDrawing, finishDrawing, startHighlight, selectElement,
      clearSelection, cancelTextEdit, emit;
    invariant.
  apply maintains_modify. intros s Hs. now destruct (engine s).
Qed.

(** Whatever reaches the editor, the pointer stays inside the history
    and the history within its capacity of 50 entries. *)
Lemma run_wfHistory evs : forall s, wfHistory s -> wfHistory (run evs s).
Proof.
  induction evs as [|ev evs IH]; intros s Hs; [exact Hs|].
  simpl. apply IH. now apply handle_wfHistory.
Qed.

Lemma session_wfHistory evs : wfHistory (run evs constructor).
Proof. apply run_wfHistory. split; simpl; lia. Qed.

End Properties.

(** * Further properties of the class *)

Section MoreProperties.
Context {B : Browser}.
Local Open Scope js_scope.

(** ** History *)

(** X1: whatever events reach the editor, and whether their handlers
    complete or throw, the pointer stays between -1 and the last index
    of the history and the history holds at most 50 entries. *)
Theorem history_invariant_of_sessions evs :
  let s := run evs constructor in
  (-1 <= historyIndex s < Z.of_nat (length (editHistory s)))%Z
  /\ length (editHistory s) <= 50.
Proof.
  apply (run_wfHistory evs constructor). split; simpl; lia.
Qed.

(** X2: a capture that succeeds on a well-formed history leaves
    nothing to redo, enables undo exactly when the history then holds
    more than one entry, and tells the listeners so. *)
Theorem capture_moves_to_tip s :
  wfHistory s ->
  Canvas.hasArea (editCanvas s) = true ->
  let s' := state_of (saveState s) in
  canRedo s' = false
  /\ canUndo s' = (1 <? length (editHistory s'))
  /\ emitted s' = emitted s ++ [stateChanged (canUndo s') false].
Proof.
  intros Hwf Ha s'. subst s'. rewrite (saveState_ok s Ha).
  cbn [state_of].
  destruct (saved_tip s Hwf) as (_ & Hp & _ & _).
  assert (Hr : canRedo (saved s) = false).
  { unfold canRedo. rewrite Hp. apply Z.ltb_irrefl. }
  assert (Hu : canUndo (saved s) = (1 <? length (editHistory (saved s)))).
  { unfold canUndo. rewrite Hp.
    destruct (Nat.ltb_spec 1 (length (editHistory (saved s))));
      [apply Z.ltb_lt | apply Z.ltb_ge]; lia. }
  repeat split; try assumption.
  rewrite saved_emitted, Hr. reflexivity.
Qed.

Lemma undo_pointer s :
  editHistory (state_of (undo s)) = editHistory s
  /\ historyIndex (state_of (undo s))
     = (if (0 <? historyIndex s)%Z then historyIndex s - 1
        else historyIndex s)%Z.
Proof.
  unfold undo, bind, get, modify, canUndo.
  destruct (0 <? historyIndex s)%Z; cbn [negb]; [|now split].
  cbn [editHistory historyIndex set_historyIndex].
  destruct (index (editHistory s) (historyIndex s - 1)); now split.
Qed.

(** X3: undo never goes below the first entry.  After [n] undos the
    history is what it was and the pointer is [n] lower, but not lower
    than 0; a pointer at 0 or -1 does not move, so the raster as it was
    before the first capture is out of reach of undo. *)
Theorem undo_stops_at_first_entry n : forall s,
  editHistory (undos n s) = editHistory s
  /\ historyIndex (undos n s)
     = (if (historyIndex s <=? 0)%Z then historyIndex s
        else Z.max (historyIndex s - Z.of_nat n) 0)%Z.
Proof.
  induction n as [|n IH]; intros s.
  - cbn [undos]. split; [reflexivity|].
    destruct (Z.leb_spec (historyIndex s) 0); lia.
  - cbn [undos]. destruct (undo_pointer s) as [Hh Hi].
    destruct (IH (state_of (undo s))) as [IHh IHi].
    split; [now rewrite IHh|].
    rewrite IHi, Hi.
    destruct (Z.ltb_spec 0 (historyIndex s));
      destruct (Z.leb_spec (historyIndex s) 0);
      destruct (Z.leb_spec (historyIndex s - 1) 0); lia.
Qed.

(** X4: when redo is enabled and the raster is what the entry under
    the pointer recorded, redo followed by undo completes and leaves
    every pixel of the raster, its size, the history and the pointer as
    they were. *)
Theorem redo_undo_round_trip s :
  canRedo s = true ->
  index (editHistory s) (historyIndex s)
  = Some (Canvas.snapshot (editCanvas s)) ->
  let r := (redo ;; undo) s in
  completes r = true
  /\ (forall x y,
        Canvas.at_ (editCanvas (state_of r)) x y
        = Canvas.at_ (editCanvas s) x y)
  /\ Canvas.snapshot (editCanvas (state_of r))
     = Canvas.snapshot (editCanvas s)
  /\ editHistory (state_of r) = editHistory s
  /\ historyIndex (state_of r) = historyIndex s.
Proof.
  intros Hr Hcur r. subst r.
  pose proof (index_Some_range _ _ _ Hcur) as Hrange.
  assert (Hlt : (historyIndex s < Z.of_nat (length (editHistory s)) - 1)%Z)
    by (unfold canRedo in Hr; now apply Z.ltb_lt in Hr).
  destruct (index_in_range (editHistory s) (historyIndex s + 1))
    as [next Hnext]; [lia|].
  rewrite (bind_normal _ _ _ _ _ (redo_ok s next Hr Hnext)).
  set (s1 := restored (historyIndex s + 1) next s).
  assert (Hu : canUndo s1 = true).
  { unfold canUndo. apply Z.ltb_lt.
    change (historyIndex s1) with (historyIndex s + 1)%Z. lia. }
  assert (Hprev : index (editHistory s1) (historyIndex s1 - 1)
                  = Some (Canvas.snapshot (editCanvas s))).
  { change (historyIndex s1) with (historyIndex s + 1)%Z.
    change (editHistory s1) with (editHistory s).
    now replace (historyIndex s + 1 - 1)%Z with (historyIndex s) by lia. }
  rewrite (undo_ok s1 _ Hu Hprev). cbn [completes state_of].
  set (c := editCanvas s).
  set (c' := Canvas.putImageData (Canvas.snapshot c) (editCanvas s1)).
  change (editCanvas (restored (historyIndex s1 - 1) (Canvas.snapshot c) s1))
    with c'.
  assert (Hsnap : Canvas.snapshot c' = Canvas.snapshot c)
    by (apply putImageData_snapshot; reflexivity).
  repeat split; try exact Hsnap.
  - intros x y.
    destruct ((x <? Canvas.width c) && (y <? Canvas.height c)) eqn:Hin.
    + apply andb_prop in Hin. destruct Hin as [Hx Hy].
      apply Nat.ltb_lt in Hx. apply Nat.ltb_lt in Hy.
      rewrite <- (snapshot_at c' x y), <- (snapshot_at c x y), Hsnap;
        auto.
    + rewrite (at_outside c x y Hin). now apply at_outside.
  - change (historyIndex s + 1 - 1 = historyIndex s)%Z. lia.
Qed.

(** X5: a capture attempted while the overlay has no width or no
    height throws an IndexSizeError after the entries behind the
    pointer have already been dropped: nothing is added, the pointer
    stays, redo is no longer possible and no notification is sent. *)
Theorem failed_capture_drops_redo s :
  wfHistory s ->
  Canvas.hasArea (editCanvas s) = false ->
  let r := saveState s in
  (exists s', r = Throw IndexSizeError s')
  /\ editHistory (state_of r)
     = firstn (Z.to_nat (historyIndex s + 1)) (editHistory s)
  /\ historyIndex (state_of r) = historyIndex s
  /\ canRedo (state_of r) = false
  /\ emitted (state_of r) = emitted s.
Proof.
  intros Hwf Ha r. subst r. rewrite (saveState_throws s Ha).
  cbn [state_of editHistory historyIndex emitted set_editHistory].
  pose proof (slice0_wf s Hwf) as Hl. destruct Hwf as [Hi Hc].
  split; [now eexists|].
  split.
  { unfold slice0. destruct (Z.ltb_spec (historyIndex s + 1) 0); [lia|].
    f_equal. lia. }
  split; [reflexivity|]. split; [|reflexivity].
  unfold canRedo. cbn [editHistory historyIndex set_editHistory].
  rewrite Hl. apply Z.ltb_ge. lia.
Qed.

Lemma modify_normal f s : modify f s = Normal tt (f s).
Proof. reflexivity. Qed.

Lemma snapshot_eq_at c c' :
  Canvas.width c' = Canvas.width c ->
  Canvas.height c' = Canvas.height c ->
  Canvas.snapshot c' = Canvas.snapshot c ->
  forall x y, Canvas.at_ c' x y = Canvas.at_ c x y.
Proof.
  intros Hw Hh Hs x y.
  destruct ((x <? Canvas.width c) && (y <? Canvas.height c)) eqn:Hin.
  - apply andb_prop in Hin. destruct Hin as [Hx Hy].
    apply Nat.ltb_lt in Hx. apply Nat.ltb_lt in Hy.
    rewrite <- (snapshot_at c' x y), <- (snapshot_at c x y), Hs;
      auto; lia.
  - rewrite (at_outside c x y Hin). apply at_outside.
    now rewrite Hw, Hh.
Qed.

Lemma keepLast_two {A} n (l : list A) a b :
  2 <= n -> exists l', keepLast n (l ++ [a; b]) = l' ++ [a; b].
Proof.
  intros Hn. unfold keepLast. rewrite length_app. simpl.
  rewrite skipn_app.
  replace (length l + 2 - n - length l) with 0 by lia.
  now exists (skipn (length l + 2 - n) l).
Qed.

Lemma index_before_last {A} (l : list A) a b :
  index (l ++ [a; b]) (Z.of_nat (length (l ++ [a; b])) - 1 - 1) = Some a.
Proof.
  unfold index. rewrite length_app. simpl.
  destruct (Z.ltb_spec (Z.of_nat (length l + 2) - 1 - 1) 0); [lia|].
  replace (Z.to_nat _) with (length l) by lia.
  rewrite nth_error_app2 by lia. now rewrite Nat.sub_diag.
Qed.

(** X23: undo brings back the raster of the capture before.  On a
    well-formed history and an overlay with an area: capture, paint
    anything, capture again, undo; every pixel is then what it was at
    the first of the two captures, the overlay has the same size, and
    redo is enabled. *)
Theorem undo_returns_to_previous_capture s p :
  wfHistory s ->
  Canvas.hasArea (editCanvas s) = true ->
  let r := (saveState ;; paint p ;; saveState ;; undo) s in
  completes r = true
  /\ (forall x y,
        Canvas.at_ (editCanvas (state_of r)) x y
        = Canvas.at_ (editCanvas s) x y)
  /\ Canvas.width (editCanvas (state_of r)) = Canvas.width (editCanvas s)
  /\ Canvas.height (editCanvas (state_of r))
     = Canvas.height (editCanvas s)
  /\ canRedo (state_of r) = true.
Proof.
  intros Hwf Ha r. subst r.
  rewrite (bind_normal _ _ _ _ _ (saveState_ok s Ha)).
  destruct (saved_tip s Hwf) as (He1 & Hp1 & Hwf1 & _).
  pose proof (saved_editCanvas s) as Hc1.
  set (s1 := saved s) in *.
  unfold paint.
  rewrite (bind_normal _ _ _ _ _
             (modify_normal
                (fun s0 => set_editCanvas
                             (Canvas.with_pixels p (editCanvas s0)) s0) s1)).
  set (s1' := set_editCanvas (Canvas.with_pixels p (editCanvas s1)) s1).
  assert (Ha1 : Canvas.hasArea (editCanvas s1') = true).
  { unfold Canvas.hasArea. cbn [s1' editCanvas set_editCanvas
      Canvas.with_pixels Canvas.width Canvas.height].
    rewrite Hc1. exact Ha. }
  rewrite (bind_normal _ _ _ _ _ (saveState_ok s1' Ha1)).
  destruct (saved_tip s1' Hwf1) as (He2 & Hp2 & Hwf2 & _).
  pose proof (saved_editCanvas s1') as Hc2.
  set (s2 := saved s1') in *.
  set (a := Canvas.snapshot (editCanvas s)) in *.
  set (b := Canvas.snapshot (editCanvas s1')) in *.
  assert (Hh2 : exists l', editHistory s2 = l' ++ [a; b]).
  { destruct (keepLast_snoc maxHistorySize
                (slice0 (editHistory s) (historyIndex s + 1)) a)
      as [l1 Hl1]; [unfold maxHistorySize; lia|].
    rewrite He2.
    change (editHistory s1') with (editHistory s1).
    change (historyIndex s1') with (historyIndex s1).
    rewrite Hp1, slice0_tip, He1, Hl1, <- app_assoc.
    apply keepLast_two. unfold maxHistorySize. lia. }
  destruct Hh2 as [l' Hh2].
  assert (Hprev : index (editHistory s2) (historyIndex s2 - 1) = Some a).
  { rewrite Hp2, Hh2. apply index_before_last. }
  assert (Hlen : 2 <= length (editHistory s2)).
  { rewrite Hh2, length_app. simpl. lia. }
  assert (Hu : canUndo s2 = true).
  { unfold canUndo. rewrite Hp2. apply Z.ltb_lt. lia. }
  rewrite (undo_ok s2 a Hu Hprev). cbn [completes state_of].
  set (c' := Canvas.putImageData a (editCanvas s2)).
  change (editCanvas (restored (historyIndex s2 - 1) a s2)) with c'.
  assert (Hw : Canvas.width (editCanvas s2) = Canvas.width (editCanvas s)).
  { rewrite Hc2. cbn [s1' editCanvas set_editCanvas Canvas.with_pixels
      Canvas.width]. now rewrite Hc1. }
  assert (Hh : Canvas.height (editCanvas s2) = Canvas.height (editCanvas s)).
  { rewrite Hc2. cbn [s1' editCanvas set_editCanvas Canvas.with_pixels
      Canvas.height]. now rewrite Hc1. }
  assert (Hsnap : Canvas.snapshot c' = a)
    by (apply putImageData_snapshot; assumption).
  split; [reflexivity|].
  split; [apply snapshot_eq_at; assumption|].
  split; [exact Hw|]. split; [exact Hh|].
  unfold canRedo. apply Z.ltb_lt.
  change (historyIndex (restored (historyIndex s2 - 1) a s2))
    with (historyIndex s2 - 1)%Z.
  change (editHistory (restored (historyIndex s2 - 1) a s2))
    with (editHistory s2).
  lia.
Qed.

(** ** Notifications *)

Lemma lastStateChanged_app l l' d :
  lastStateChanged (l ++ l') d = lastStateChanged l' (lastStateChanged l d).
Proof.
  revert d. induction l as [|n l IH]; intros d; [reflexivity|].
  destruct n; simpl; apply IH.
Qed.

Lemma announce_inSync s : inSync (announce s).
Proof.
  unfold inSync, announce.
  cbn [emitted set_emitted]. rewrite lastStateChanged_app. reflexivity.
Qed.

(** The history is well formed, the overlay has an area, and the
    listeners know the truth about undo and redo. *)
Definition informed (s : PDFEditor) : Prop :=
  wfHistory s /\ Canvas.hasArea (editCanvas s) = true /\ inSync s.

Lemma saveState_informed : maintains informed saveState.
Proof.
  intros s (Hwf & Ha & _). rewrite (saveState_ok s Ha). cbn [state_of].
  split; [now apply saved_tip|].
  split; [now rewrite saved_editCanvas|].
  unfold saved. apply announce_inSync.
Qed.

Lemma undo_informed : maintains informed undo.
Proof.
  intros s (Hwf & Ha & Hs).
  destruct (canUndo s) eqn:Hu.
  - assert (Hpos : (0 < historyIndex s)%Z)
      by (unfold canUndo in Hu; now apply Z.ltb_lt in Hu).
    destruct (index_in_range (editHistory s) (historyIndex s - 1))
      as [img Hi]; [destruct Hwf; lia|].
    pose proof (undo_wfHistory s Hwf) as Hw.
    rewrite (undo_ok s img Hu Hi) in *. cbn [state_of] in *.
    split; [exact Hw|]. split; [exact Ha|].
    unfold restored. apply announce_inSync.
  - unfold undo, bind, get. rewrite Hu.
    exact (conj Hwf (conj Ha Hs)).
Qed.

Lemma redo_informed : maintains informed redo.
Proof.
  intros s (Hwf & Ha & Hs).
  destruct (canRedo s) eqn:Hr.
  - assert (Hlt : (historyIndex s
                   < Z.of_nat (length (editHistory s)) - 1)%Z)
      by (unfold canRedo in Hr; now apply Z.ltb_lt in Hr).
    destruct (index_in_range (editHistory s) (historyIndex s + 1))
      as [img Hi]; [destruct Hwf; lia|].
    pose proof (redo_wfHistory s Hwf) as Hw.
    rewrite (redo_ok s img Hr Hi) in *. cbn [state_of] in *.
    split; [exact Hw|]. split; [exact Ha|].
    unfold restored. apply announce_inSync.
  - unfold redo, bind, get. rewrite Hr.
    exact (conj Hwf (conj Ha Hs)).
Qed.

Lemma clearAllEdits_informed : maintains informed clearAllEdits.
Proof.
  intros s (_ & Ha & _).
  set (c := Canvas.clearRect (Canvas.width (editCanvas s))
              (Canvas.height (editCanvas s)) (editCanvas s)).
  set (s0 := set_historyIndex (-1)
               (set_editHistory [] (set_editCanvas c s))).
  change (clearAllEdits s) with (saveState s0).
  rewrite (saveState_ok s0 Ha). cbn [state_of].
  split; [apply saved_tip; split; simpl; lia|].
  split; [rewrite saved_editCanvas; exact Ha|].
  unfold saved. apply announce_inSync.
Qed.

Definition isStateChanged (n : Notification) : bool :=
  match n with stateChanged _ _ => true | _ => false end.

Lemma emit_informed n :
  isStateChanged n = false -> maintains informed (emit n).
Proof.
  intros Hn s (Hwf & Ha & Hs).
  split; [exact Hwf|]. split; [exact Ha|].
  unfold inSync in *. cbn [emit modify state_of emitted set_emitted].
  rewrite lastStateChanged_app, Hs.
  destruct n; try discriminate; reflexivity.
Qed.

Lemma addTextElement_informed text x y :
  maintains informed (addTextElement text x y).
Proof.
  intros s (Hwf & Ha & Hs).
  split; [exact Hwf|]. split; [|exact Hs].
  cbn [addTextElement bind get modify state_of editCanvas set_editCanvas].
  unfold Canvas.hasArea in *.
  now destruct (drawText_size s text x y (editCanvas s)) as [-> ->].
Qed.

Lemma finishTextEdit_informed : maintains informed finishTextEdit.
Proof.
  pose proof saveState_informed.
  unfold finishTextEdit, cancelTextEdit.
  repeat first
    [ apply maintains_ret | apply maintains_get | assumption
    | apply addTextElement_informed
    | apply maintains_modify; intros ? ?; assumption
    | apply maintains_bind; [|intros]
    | match goal with
      | |- maintains _ (if ?b then _ else _) => destruct b
      end ].
Qed.

Lemma syncOverlaySize_informed rd parentRect :
  rendersWithArea (PageRendered rd parentRect) = true ->
  maintains informed (syncOverlaySize rd parentRect).
Proof.
  intros Hrd s (Hwf & Ha & Hs). unfold syncOverlaySize.
  cbn [rendersWithArea] in Hrd.
  destruct (canvas rd) as [src|]; [|exact (conj Hwf (conj Ha Hs))].
  destruct parentRect; (split; [exact Hwf|]; split; [exact Hrd|exact Hs]).
Qed.

Lemma handle_informed ev :
  rendersWithArea ev = true -> maintains informed (handle ev).
Proof.
  intros Hev.
  pose proof saveState_informed.
  pose proof finishTextEdit_informed.
  pose proof undo_informed.
  pose proof redo_informed.
  pose proof clearAllEdits_informed.
  destruct ev;
    try (apply maintains_bind;
         [apply maintains_get
         |intros this; destruct (engine this);
          [now apply syncOverlaySize_informed | apply maintains_ret]]);
    unfold handle, setEngine, enableEditMode,
      disableEditMode, setTool, setCursor, handleEditMouseDown,
      handleEditMouseMove, handleEditMouseUp, startTextEdit, startDrawing,
      continueDrawing, finishDrawing, startHighlight, selectElement,
      clearSelection, cancelTextEdit;
    repeat first
      [ apply maintains_ret | apply maintains_get | assumption
      | apply emit_informed; reflexivity
      | apply maintains_modify; intros ? ?; assumption
      | apply maintains_bind; [|intros]
      | match goal with
        | |- maintains _ (if ?b then _ else _) => destruct b
        | |- maintains _ (match ?x with _ => _ end) => destruct x
        end ].
  apply maintains_modify. intros s Hs. now destruct (engine s).
Qed.

Lemma run_informed evs : forall s,
  forallb rendersWithArea evs = true -> informed s -> informed (run evs s).
Proof.
  induction evs as [|ev evs IH]; intros s Hevs Hs; [exact Hs|].
  simpl in Hevs. apply andb_prop in Hevs. destruct Hevs as [Hev Hevs].
  simpl. apply IH; [exact Hevs|]. now apply handle_informed.
Qed.

(** X6: in a session in which every page is rendered to a canvas with
    a width and a height, the last [stateChanged] notification always
    tells whether undo and redo are enabled (neither, before the first
    notification). *)
Theorem listeners_know_undo_redo evs :
  forallb rendersWithArea evs = true ->
  let s := run evs constructor in
  lastStateChanged (emitted s) (false, false) = (canUndo s, canRedo s).
Proof.
  intros Hevs.
  apply (run_informed evs constructor Hevs).
  split; [split; simpl; lia|]. split; reflexivity.
Qed.

(** ** Text *)

Lemma setTool_rest tool s :
  (clearSelection ;;
   (if jseqb tool (js "text") then setCursor (js "text")
    else if jseqb tool (js "draw") then setCursor (js "crosshair")
    else if jseqb tool (js "highlight") then setCursor (js "cell")
    else if jseqb tool (js "select") then setCursor (js "default")
    else setCursor (js "crosshair")) ;;
   emit (toolChanged tool)) s
  = Normal tt (toolSwitched tool s).
Proof.
  unfold toolSwitched, cursorFor.
  repeat match goal with
         | |- context [jseqb ?a ?b] => destruct (jseqb a b)
         end; reflexivity.
Qed.

Lemma toolSwitched_view tool s :
  Canvas.pixels (editCanvas (toolSwitched tool s))
  = Canvas.pixels (editCanvas s)
  /\ editHistory (toolSwitched tool s) = editHistory s
  /\ historyIndex (toolSwitched tool s) = historyIndex s
  /\ emitted (toolSwitched tool s) = emitted s ++ [toolChanged tool]
  /\ editingText (toolSwitched tool s) = editingText s
  /\ textEditor (toolSwitched tool s) = textEditor s.
Proof. repeat split. Qed.

Lemma setTool_commit tool s :
  pendingText s = true ->
  Canvas.hasArea (editCanvas s) = true ->
  setTool tool s
  = Normal tt (toolSwitched tool (committed (set_currentTool tool s))).
Proof.
  intros Hp Ha. unfold setTool.
  rewrite (bind_normal _ _ _ _ _ (modify_normal (set_currentTool tool) s)).
  rewrite (bind_normal _ _ _ _ _
             (finishTextEdit_commit (set_currentTool tool s) Hp Ha)).
  apply setTool_rest.
Qed.

(** X7: on an overlay that has a width and a height, switching tools
    while a text with content left after trimming is being typed fills
    that text once and records it once: the raster is the old one with
    the lines of the text filled in the current colour, size and font
    from the position of the box, the history gains that raster's
    snapshot as its newest entry, one [stateChanged] and one
    [toolChanged] are sent, and a blur arriving afterwards changes
    neither raster nor history. *)
Theorem tool_switch_commits_text_once tool s :
  pendingText s = true ->
  Canvas.hasArea (editCanvas s) = true ->
  let r := setTool tool s in
  let s' := state_of r in
  completes r = true
  /\ Canvas.pixels (editCanvas s') = Canvas.pixels (textFilled s)
  /\ editHistory s'
     = evict (slice0 (editHistory s) (historyIndex s + 1)
                ++ [Canvas.snapshot (textFilled s)])
  /\ emitted s'
     = emitted s ++ [stateChanged (canUndo s') (canRedo s');
                     toolChanged tool]
  /\ completes (finishTextEdit s') = true
  /\ untouched s' (state_of (finishTextEdit s')).
Proof.
  intros Hp Ha r s'. subst s' r. rewrite (setTool_commit tool s Hp Ha).
  cbn [completes state_of].
  set (s0 := set_currentTool tool s).
  destruct (committed_filled s0) as (Hc & Hh & He & Ht & _).
  change (textFilled s0) with (textFilled s) in Hc, Hh.
  destruct (toolSwitched_view tool (committed s0))
    as (Vc & Vh & Vi & Ve & Vt & _).
  assert (Hnp : pendingText (toolSwitched tool (committed s0)) = false).
  { unfold pendingText. now rewrite Vt, Ht. }
  split; [reflexivity|].
  split; [rewrite Vc, Hc; reflexivity|].
  split; [rewrite Vh, Hh; reflexivity|].
  split.
  { rewrite Ve, He. unfold canUndo, canRedo. rewrite Vh, Vi.
    now rewrite <- app_assoc. }
  rewrite (finishTextEdit_discard _ Hnp).
  split; [reflexivity|]. cbn [state_of].
  generalize (toolSwitched tool (committed s0)). intros s1.
  repeat split.
Qed.

Lemma cancelTextEdit_normal s : cancelTextEdit s = Normal tt (cancelled s).
Proof. reflexivity. Qed.

(** X8: the cancel gesture throws the typed text away whatever it is:
    [cancelTextEdit] changes neither raster nor history, sends nothing,
    closes and empties the box, and the blur that follows it commits
    nothing either. *)
Theorem escape_discards_text s :
  let s1 := state_of (cancelTextEdit s) in
  let r := finishTextEdit s1 in
  completes (cancelTextEdit s) = true
  /\ untouched s s1
  /\ emitted s1 = emitted s
  /\ editingText s1 = false
  /\ TextEditor.textContent (textEditor s1) = []
  /\ completes r = true
  /\ untouched s (state_of r)
  /\ emitted (state_of r) = emitted s.
Proof.
  cbv zeta. rewrite cancelTextEdit_normal. cbn [completes state_of].
  assert (Hnp : pendingText (cancelled s) = false) by reflexivity.
  rewrite (finishTextEdit_discard _ Hnp). cbn [completes state_of].
  repeat split.
Qed.

Lemma pending_editing s : pendingText s = true -> editingText s = true.
Proof. unfold pendingText. intros H. now apply andb_prop in H. Qed.

Lemma setTextColor_editing c s :
  editingText s = true ->
  setTextColor c s
  = Normal tt (set_textEditor
                 (withColor
                    (styleSet (js "color") (TextEditor.color (textEditor s))
                       c)
                    (textEditor s))
                 (set_textColor c s)).
Proof.
  intros He. unfold setTextColor, bind, modify, get.
  cbn [editingText set_textColor]. now rewrite He.
Qed.

Lemma setTextSize_editing n s :
  editingText s = true ->
  setTextSize n s
  = Normal tt (set_textEditor
                 (withFontSize
                    (styleSet (js "font-size")
                       (TextEditor.fontSize (textEditor s)) (px n))
                    (textEditor s))
                 (set_textSize n s)).
Proof.
  intros He. unfold setTextSize, bind, modify, get.
  cbn [editingText set_textSize]. now rewrite He.
Qed.

Lemma setTextFont_editing f s :
  editingText s = true ->
  setTextFont f s
  = Normal tt (set_textEditor
                 (withFontFamily
                    (styleSet (js "font-family")
                       (TextEditor.fontFamily (textEditor s)) f)
                    (textEditor s))
                 (set_textFont f s)).
Proof.
  intros He. unfold setTextFont, bind, modify, get.
  cbn [editingText set_textFont]. now rewrite He.
Qed.

(** X9: colour, size and font chosen while a text is being typed are
    the ones the text is filled with.  Each is assigned to the style of
    the open box at once, which then holds what the browser makes of
    the value, and on an overlay that has a width and a height the
    commit fills the lines of the text, from the position of the box,
    with the colour, size and font in force when it commits. *)
Theorem text_settings_apply_at_commit c n f s :
  pendingText s = true ->
  Canvas.hasArea (editCanvas s) = true ->
  let s3 := state_of ((setTextColor c ;; setTextSize n ;; setTextFont f) s) in
  let r := finishTextEdit s3 in
  let box := textEditor s in
  (TextEditor.color (textEditor s3)
   = styleSet (js "color") (TextEditor.color box) c
   /\ TextEditor.fontSize (textEditor s3)
      = styleSet (js "font-size") (TextEditor.fontSize box) (px n)
   /\ TextEditor.fontFamily (textEditor s3)
      = styleSet (js "font-family") (TextEditor.fontFamily box) f)
  /\ completes r = true
  /\ editCanvas (state_of r)
     = textLines c (numToString n ++ js "px " ++ f) n
         (parseInt (TextEditor.left box)) (parseInt (TextEditor.top box))
         0 (split_lines (TextEditor.textContent box)) (editCanvas s)
  /\ editHistory (state_of r)
     = evict (slice0 (editHistory s) (historyIndex s + 1)
                ++ [Canvas.snapshot (editCanvas (state_of r))]).
Proof.
  intros Hp Ha. pose proof (pending_editing s Hp) as He. cbv zeta.
  rewrite (bind_normal _ _ _ _ _ (setTextColor_editing c s He)).
  set (s1 := set_textEditor _ (set_textColor c s)).
  rewrite (bind_normal _ _ _ _ _ (setTextSize_editing n s1 He)).
  set (s2 := set_textEditor _ (set_textSize n s1)).
  rewrite (setTextFont_editing f s2 He). cbn [state_of].
  set (s3 := set_textEditor _ (set_textFont f s2)).
  split; [repeat split|].
  rewrite (finishTextEdit_commit s3 Hp Ha). cbn [completes state_of].
  split; [reflexivity|].
  destruct (committed_filled s3) as (Hc & Hh & _).
  rewrite Hh, Hc. split; reflexivity.
Qed.

(** ** Drawing and highlighting *)

Lemma run_app l1 : forall l2 s, run (l1 ++ l2) s = run l2 (run l1 s).
Proof.
  induction l1 as [|ev l1 IH]; intros l2 s; [reflexivity|].
  simpl. apply IH.
Qed.

Lemma get_normal s : get s = Normal s s.
Proof. reflexivity. Qed.

Lemma startDrawing_normal x y s :
  startDrawing x y s = Normal tt (drawingStarted x y s).
Proof. reflexivity. Qed.

Lemma handleEditMouseDown_draw s e rect :
  isEditMode s = true ->
  currentTool s = js "draw" ->
  handleEditMouseDown e rect s
  = Normal tt (drawingStarted (toCanvasX s e rect) (toCanvasY s e rect) s).
Proof.
  intros Hm Ht. unfold handleEditMouseDown.
  rewrite (bind_normal _ _ _ _ _ (get_normal s)).
  rewrite Hm, Ht. cbn [negb].
  change (jseqb (js "draw") (js "text")) with false.
  change (jseqb (js "draw") (js "draw")) with true.
  apply startDrawing_normal.
Qed.

Lemma continueDrawing_normal x y s :
  isDrawing s = true -> continueDrawing x y s = Normal tt (stroked x y s).
Proof.
  intros Hd. unfold continueDrawing.
  rewrite (bind_normal _ _ _ _ _ (get_normal s)).
  rewrite Hd. reflexivity.
Qed.

Lemma handleEditMouseMove_drawing s e rect :
  isEditMode s = true ->
  isDrawing s = true ->
  handleEditMouseMove e rect s
  = Normal tt (stroked (toCanvasX s e rect) (toCanvasY s e rect) s).
Proof.
  intros Hm Hd. unfold handleEditMouseMove.
  rewrite (bind_normal _ _ _ _ _ (get_normal s)).
  rewrite Hm, Hd. cbn [negb orb].
  now apply continueDrawing_normal.
Qed.

Lemma handleEditMouseUp_drawing s :
  isEditMode s = true ->
  isDrawing s = true ->
  handleEditMouseUp s = saveState (set_isDrawing false s).
Proof.
  intros Hm Hd. unfold handleEditMouseUp.
  rewrite (bind_normal _ _ _ _ _ (get_normal s)).
  rewrite Hm, Hd. cbn [negb]. unfold finishDrawing.
  rewrite (bind_normal _ _ _ _ _ (get_normal s)).
  rewrite Hd. reflexivity.
Qed.

Lemma stroked_view x y s :
  isEditMode (stroked x y s) = isEditMode s
  /\ isDrawing (stroked x y s) = isDrawing s
  /\ drawPath (stroked x y s) = drawPath s ++ [(x, y)]
  /\ editHistory (stroked x y s) = editHistory s
  /\ historyIndex (stroked x y s) = historyIndex s
  /\ emitted (stroked x y s) = emitted s
  /\ Canvas.width (editCanvas (stroked x y s)) = Canvas.width (editCanvas s)
  /\ Canvas.height (editCanvas (stroked x y s))
     = Canvas.height (editCanvas s).
Proof. repeat split. Qed.

Lemma at_pointer_size s s' rect e :
  Canvas.width (editCanvas s') = Canvas.width (editCanvas s) ->
  Canvas.height (editCanvas s') = Canvas.height (editCanvas s) ->
  at_pointer s' rect e = at_pointer s rect e.
Proof.
  intros Hw Hh. unfold at_pointer, toCanvasX, toCanvasY.
  now rewrite Hw, Hh.
Qed.

(** While a stroke is in progress, moves extend the path in the order
    they arrive and touch neither the history nor the size. *)
Lemma moves_extend_path ms : forall s,
  isEditMode s = true ->
  isDrawing s = true ->
  let s' := run (moveEvents ms) s in
  isEditMode s' = true
  /\ isDrawing s' = true
  /\ drawPath s'
     = drawPath s ++ map (fun m => at_pointer s (snd m) (fst m)) ms
  /\ editHistory s' = editHistory s
  /\ historyIndex s' = historyIndex s
  /\ emitted s' = emitted s
  /\ Canvas.width (editCanvas s') = Canvas.width (editCanvas s)
  /\ Canvas.height (editCanvas s') = Canvas.height (editCanvas s).
Proof.
  induction ms as [|[e rect] ms IH]; intros s Hm Hd.
  - cbn. rewrite app_nil_r. repeat split; assumption.
  - cbn [moveEvents map run handle fst snd].
    rewrite (handleEditMouseMove_drawing s e rect Hm Hd). cbn [state_of].
    set (s1 := stroked (toCanvasX s e rect) (toCanvasY s e rect) s).
    destruct (stroked_view (toCanvasX s e rect) (toCanvasY s e rect) s)
      as (Vm & Vd & Vp & Vh & Vi & Ve & Vw & Vhh).
    fold s1 in Vm, Vd, Vp, Vh, Vi, Ve, Vw, Vhh.
    destruct (IH s1) as (Im & Id & Ip & Ih & Ii & Ie & Iw & Ihh);
      [now rewrite Vm | now rewrite Vd |].
    fold (moveEvents ms).
    repeat split; try congruence.
    rewrite Ip, Vp, <- app_assoc. cbn [app].
    apply (f_equal (app (drawPath s))).
    apply (f_equal (cons (at_pointer s rect e))).
    apply map_ext. intros m. now apply at_pointer_size.
Qed.

Lemma drawingStarted_view x y s :
  isEditMode (drawingStarted x y s) = isEditMode s
  /\ isDrawing (drawingStarted x y s) = true
  /\ drawPath (drawingStarted x y s) = [(x, y)]
  /\ editHistory (drawingStarted x y s) = editHistory s
  /\ historyIndex (drawingStarted x y s) = historyIndex s
  /\ emitted (drawingStarted x y s) = emitted s
  /\ editCanvas (drawingStarted x y s) = editCanvas s.
Proof. repeat split. Qed.

Lemma saved_view s :
  isDrawing (saved s) = isDrawing s /\ drawPath (saved s) = drawPath s.
Proof.
  unfold saved, announce. cbn -[slice0 Nat.ltb].
  destruct (maxHistorySize <? _); split; reflexivity.
Qed.

(** X10: a stroke is one history entry.  In edit mode with the draw
    tool and on an overlay that has a width and a height, a
    pointer-down, any number of moves and a pointer-up leave the points
    of the gesture, in order and in bitmap coordinates, as the path,
    end the stroke, and record the raster as it then is as the newest
    history entry, announced once. *)
Theorem stroke_is_one_capture s e0 r0 ms :
  isEditMode s = true ->
  currentTool s = js "draw" ->
  Canvas.hasArea (editCanvas s) = true ->
  let s' := run (MouseDown e0 r0 :: moveEvents ms ++ [MouseUp]) s in
  drawPath s'
  = at_pointer s r0 e0 :: map (fun m => at_pointer s (snd m) (fst m)) ms
  /\ isDrawing s' = false
  /\ editHistory s'
     = evict (slice0 (editHistory s) (historyIndex s + 1)
                ++ [Canvas.snapshot (editCanvas s')])
  /\ emitted s' = emitted s ++ [stateChanged (canUndo s') (canRedo s')].
Proof.
  intros Hm Ht Ha. cbv zeta.
  cbn [run handle]. rewrite (handleEditMouseDown_draw s e0 r0 Hm Ht).
  cbn [state_of].
  set (x0 := toCanvasX s e0 r0). set (y0 := toCanvasY s e0 r0).
  destruct (drawingStarted_view x0 y0 s)
    as (Dm & Dd & Dp & Dh & Di & De & Dc).
  set (s1 := drawingStarted x0 y0 s) in *.
  rewrite run_app.
  destruct (moves_extend_path ms s1) as (Mm & Md & Mp & Mh & Mi & Me & Mw & Mhh);
    [now rewrite Dm | exact Dd |].
  set (s2 := run (moveEvents ms) s1) in *.
  cbn [run handle]. rewrite (handleEditMouseUp_drawing s2 Mm Md).
  assert (Ha2 : Canvas.hasArea (editCanvas (set_isDrawing false s2)) = true).
  { unfold Canvas.hasArea in *.
    cbn [editCanvas set_isDrawing]. now rewrite Mw, Mhh, Dc. }
  rewrite (saveState_ok _ Ha2). cbn [state_of].
  set (s3 := set_isDrawing false s2).
  destruct (saved_view s3) as [Sd Sp].
  split.
  { rewrite Sp. change (drawPath s3) with (drawPath s2).
    rewrite Mp, Dp. reflexivity. }
  split; [rewrite Sd; reflexivity|].
  split.
  { rewrite saved_editHistory, saved_editCanvas.
    change (editHistory s3) with (editHistory s2).
    change (historyIndex s3) with (historyIndex s2).
    now rewrite Mh, Mi, Dh, Di. }
  rewrite saved_emitted. change (emitted s3) with (emitted s2).
  now rewrite Me, De.
Qed.

(** X11: in edit mode, on an overlay that has a width and a height and
    with a history of at most 50 entries whose pointer addresses one of
    them (or is [-1]), a click with the draw tool that never moves
    paints nothing and still captures: the raster is unchanged, yet its snapshot is appended as
    a new entry under the pointer and whatever could be redone is
    gone. *)
Theorem motionless_click_still_captures s e rect :
  isEditMode s = true ->
  currentTool s = js "draw" ->
  Canvas.hasArea (editCanvas s) = true ->
  wfHistory s ->
  let s' := run [MouseDown e rect; MouseUp] s in
  editCanvas s' = editCanvas s
  /\ index (editHistory s') (historyIndex s')
     = Some (Canvas.snapshot (editCanvas s))
  /\ editHistory s'
     = keepLast 50 (slice0 (editHistory s) (historyIndex s + 1)
                      ++ [Canvas.snapshot (editCanvas s)])
  /\ canRedo s' = false.
Proof.
  intros Hm Ht Ha Hwf. cbv zeta.
  cbn [run handle]. rewrite (handleEditMouseDown_draw s e rect Hm Ht).
  cbn [state_of].
  set (x0 := toCanvasX s e rect). set (y0 := toCanvasY s e rect).
  destruct (drawingStarted_view x0 y0 s)
    as (Dm & Dd & Dp & Dh & Di & De & Dc).
  set (s1 := drawingStarted x0 y0 s) in *.
  assert (Hm1 : isEditMode s1 = true) by now rewrite Dm.
  rewrite (handleEditMouseUp_drawing s1 Hm1 Dd).
  set (s2 := set_isDrawing false s1).
  assert (Ha2 : Canvas.hasArea (editCanvas s2) = true) by exact Ha.
  assert (Hwf2 : wfHistory s2) by exact Hwf.
  rewrite (saveState_ok _ Ha2). cbn [state_of].
  destruct (saved_tip s2 Hwf2) as (He & Hp & _ & Hx).
  split; [rewrite saved_editCanvas; reflexivity|].
  split; [exact Hx|]. split; [exact He|].
  unfold canRedo. rewrite Hp. apply Z.ltb_irrefl.
Qed.


Lemma handleEditMouseDown_highlight s e rect :
  isEditMode s = true ->
  currentTool s = js "highlight" ->
  handleEditMouseDown e rect s
  = saveState (highlighted (toCanvasX s e rect) (toCanvasY s e rect) s).
Proof.
  intros Hm Ht. unfold handleEditMouseDown.
  rewrite (bind_normal _ _ _ _ _ (get_normal s)).
  rewrite Hm, Ht. cbn [negb].
  change (jseqb (js "highlight") (js "text")) with false.
  change (jseqb (js "highlight") (js "draw")) with false.
  change (jseqb (js "highlight") (js "highlight")) with true.
  reflexivity.
Qed.

(** X13: a highlight is placed and recorded by the pointer-down alone.
    In edit mode with the highlight tool, no stroke in progress and an
    overlay that has a width and a height, a click fills the rectangle
    of 100 by 20 whose corner is 50 left of and 5 above the pointer,
    with the fill colour at opacity 0.3, and records the result as the
    newest entry; the pointer-up adds nothing. *)
Theorem highlight_is_placed_on_pointer_down s e rect :
  isEditMode s = true ->
  currentTool s = js "highlight" ->
  isDrawing s = false ->
  Canvas.hasArea (editCanvas s) = true ->
  let x := toCanvasX s e rect in
  let y := toCanvasY s e rect in
  let s1 := state_of (handleEditMouseDown e rect s) in
  completes (handleEditMouseDown e rect s) = true
  /\ Canvas.pixels (editCanvas s1)
     = fillRect (fillColor s) num_0_3 (sub x (num 50)) (sub y (num 5))
         (num 100) (num 20)
         (Canvas.width (editCanvas s)) (Canvas.height (editCanvas s))
         (Canvas.pixels (editCanvas s))
  /\ editHistory s1
     = evict (slice0 (editHistory s) (historyIndex s + 1)
                ++ [Canvas.snapshot (editCanvas s1)])
  /\ handleEditMouseUp s1 = Normal tt s1.
Proof.
  intros Hm Ht Hd Ha. cbv zeta.
  rewrite (handleEditMouseDown_highlight s e rect Hm Ht).
  set (h := highlighted (toCanvasX s e rect) (toCanvasY s e rect) s).
  assert (Hah : Canvas.hasArea (editCanvas h) = true) by exact Ha.
  rewrite (saveState_ok h Hah). cbn [completes state_of].
  split; [reflexivity|].
  split; [rewrite saved_editCanvas; reflexivity|].
  split; [rewrite saved_editHistory, saved_editCanvas; reflexivity|].
  destruct (saved_view h) as [Sd _].
  unfold handleEditMouseUp.
  rewrite (bind_normal _ _ _ _ _ (get_normal (saved h))).
  rewrite Sd. change (isDrawing h) with (isDrawing s). rewrite Hd.
  now destruct (negb (isEditMode (saved h))).
Qed.

(** ** Tools, edit mode and pointer input *)

Lemma recognised_false tool :
  recognised tool = false ->
  jseqb tool (js "text") = false /\ jseqb tool (js "draw") = false
  /\ jseqb tool (js "highlight") = false
  /\ jseqb tool (js "select") = false.
Proof.
  unfold recognised. intros H.
  repeat (apply orb_false_iff in H; destruct H as [H ?]).
  now repeat split.
Qed.

(** X14: a tool name that is none of the four known ones is accepted
    by [setTool] and then makes the canvas deaf: after the switch a
    pointer-down completes and changes nothing at all, in edit mode or
    out of it. *)
Theorem unknown_tool_ignores_pointer_down tool s e rect :
  recognised tool = false ->
  let s' := state_of (setTool tool s) in
  currentTool s' = tool
  /\ handleEditMouseDown e rect s' = Normal tt s'.
Proof.
  intros Hr. cbv zeta.
  pose proof (setTool_currentTool tool s) as Hc.
  split; [exact Hc|].
  destruct (recognised_false tool Hr) as (H1 & H2 & H3 & H4).
  generalize dependent (state_of (setTool tool s)). intros s' Hc.
  unfold handleEditMouseDown.
  rewrite (bind_normal _ _ _ _ _ (get_normal s')).
  destruct (negb (isEditMode s')); [reflexivity|].
  rewrite Hc, H1, H2, H3, H4. reflexivity.
Qed.

Variable mouseInit : number -> number.

Lemma handleEditMouseDown_disabled e rect s :
  isEditMode s = false -> handleEditMouseDown e rect s = Normal tt s.
Proof.
  intros Hm. unfold handleEditMouseDown.
  rewrite (bind_normal _ _ _ _ _ (get_normal s)). now rewrite Hm.
Qed.

Lemma handleEditMouseMove_idle e rect s :
  isEditMode s = false \/ isDrawing s = false ->
  handleEditMouseMove e rect s = Normal tt s.
Proof.
  intros H. unfold handleEditMouseMove.
  rewrite (bind_normal _ _ _ _ _ (get_normal s)).
  destruct H as [-> | ->]; [reflexivity|].
  now rewrite orb_true_r.
Qed.

Lemma handleEditMouseUp_disabled s :
  isEditMode s = false -> handleEditMouseUp s = Normal tt s.
Proof.
  intros Hm. unfold handleEditMouseUp.
  rewrite (bind_normal _ _ _ _ _ (get_normal s)). now rewrite Hm.
Qed.

Lemma onPointer_disabled i s :
  isEditMode s = false -> onPointer mouseInit i s = Normal tt s.
Proof.
  intros Hm. destruct i; cbn [onPointer].
  - now apply handleEditMouseDown_disabled.
  - apply handleEditMouseMove_idle. now left.
  - now apply handleEditMouseUp_disabled.
  - unfold handleEditTouchStart.
    destruct touches as [|t [|t' ts]]; try reflexivity.
    now apply handleEditMouseDown_disabled.
  - unfold handleEditTouchMove.
    rewrite (bind_normal _ _ _ _ _ (get_normal s)).
    destruct touches as [|t [|t' ts]]; try reflexivity.
    destruct (isDrawing s); [|reflexivity].
    apply handleEditMouseMove_idle. now left.
  - now apply handleEditMouseUp_disabled.
Qed.

Lemma runPointer_disabled l : forall s,
  isEditMode s = false -> runPointer mouseInit l s = s.
Proof.
  induction l as [|i l IH]; intros s Hm; [reflexivity|].
  cbn [runPointer]. rewrite (onPointer_disabled i s Hm). cbn [state_of].
  now apply IH.
Qed.

Lemma saveState_keeps_isEditMode : keeps isEditMode saveState.
Proof.
  unfold saveState, emitStateChanged, getImageData, emit.
  repeat first
    [ apply keeps_ret | apply keeps_throw | apply keeps_get
    | apply keeps_modify; intros; reflexivity
    | apply keeps_bind; [|intros]
    | match goal with
      | |- keeps _ (if ?b then _ else _) => destruct b
      | |- keeps _ (match ?x with _ => _ end) => destruct x
      end ].
Qed.

Lemma disableEditMode_disables s :
  isEditMode (state_of (disableEditMode s)) = false.
Proof.
  pose proof saveState_keeps_isEditMode as Hs.
  assert (Hk : keeps isEditMode
                 (modify (set_pointerEvents (js "none")) ;;
                  finishTextEdit ;; clearSelection ;;
                  emit editModeDisabled)).
  { unfold finishTextEdit, cancelTextEdit, addTextElement, clearSelection,
      emit.
    repeat first
      [ apply keeps_ret | apply keeps_get | assumption
      | apply keeps_modify; intros; reflexivity
      | apply keeps_bind; [|intros]
      | match goal with
        | |- keeps _ (if ?b then _ else _) => destruct b
        end ]. }
  exact (Hk (set_isEditMode false s)).
Qed.

(** X15: once edit mode is disabled the overlay ignores the pointer.
    [disableEditMode] leaves edit mode off even if committing a pending
    text fails, and from then on no sequence of mouse or touch input
    changes any field of the editor. *)
Theorem disabled_editor_ignores_pointer s l :
  let s0 := state_of (disableEditMode s) in
  isEditMode s0 = false /\ runPointer mouseInit l s0 = s0.
Proof.
  cbv zeta. pose proof (disableEditMode_disables s) as Hd.
  split; [exact Hd|]. now apply runPointer_disabled.
Qed.

(** ** Export *)

(** X17: exporting reads and never writes.  [exportAsImage] and
    [exportEditedPDF] leave every field of the editor as it is, so a
    text still being typed is neither committed nor part of the image;
    [exportAsImage] returns an image exactly when the page canvas
    exists, has a width and a height, and the overlay has too, and the
    image then has the size of the page canvas. *)
Theorem export_reads_only doc s :
  state_of (exportAsImage doc s) = s
  /\ state_of (exportEditedPDF doc s) = s
  /\ completes (exportAsImage doc s)
     = match pdfCanvas doc with
       | Some o =>
           negb ((SourceCanvas.width o =? 0) || (SourceCanvas.height o =? 0))
           && Canvas.hasArea (editCanvas s)
       | None => false
       end
  /\ forall url s', exportAsImage doc s = Normal url s' ->
       exists o p,
         pdfCanvas doc = Some o
         /\ url = toDataURL (SourceCanvas.width o) (SourceCanvas.height o) p.
Proof.
  assert (H1 : state_of (exportAsImage doc s) = s).
  { unfold exportAsImage, bind, get.
    destruct (pdfCanvas doc) as [o|]; [|reflexivity].
    destruct ((SourceCanvas.width o =? 0) || (SourceCanvas.height o =? 0));
      [reflexivity|].
    now destruct ((Canvas.width (editCanvas s) =? 0)
                  || (Canvas.height (editCanvas s) =? 0)). }
  split; [exact H1|].
  split.
  { unfold exportEditedPDF, bind, get.
    destruct (negb (engineHasPDF s)); [reflexivity | exact H1]. }
  split.
  { unfold exportAsImage, bind, get, Canvas.hasArea.
    destruct (pdfCanvas doc) as [o|]; [|reflexivity].
    destruct ((SourceCanvas.width o =? 0) || (SourceCanvas.height o =? 0));
      [reflexivity|].
    now destruct ((Canvas.width (editCanvas s) =? 0)
                  || (Canvas.height (editCanvas s) =? 0)). }
  intros url s'. unfold exportAsImage, bind, get.
  destruct (pdfCanvas doc) as [o|]; [|discriminate].
  destruct ((SourceCanvas.width o =? 0) || (SourceCanvas.height o =? 0));
    [discriminate|].
  destruct ((Canvas.width (editCanvas s) =? 0)
            || (Canvas.height (editCanvas s) =? 0)); [discriminate|].
  intros H. injection H as <- _. now eexists _, _.
Qed.

(** ** Geometry *)

Lemma styleSet_idem property old v :
  styleSet property (styleSet property old v) v = styleSet property old v.
Proof. unfold styleSet. now destruct (cssParse property v). Qed.

(** X18: a page-rendered notification delivered twice does what it
    does once: the second [syncOverlaySize] with the same payload
    leaves every field as the first one left it. *)
Theorem sync_is_idempotent rd parentRect s :
  let s1 := state_of (syncOverlaySize rd parentRect s) in
  state_of (syncOverlaySize rd parentRect s1) = s1.
Proof.
  cbv zeta. unfold syncOverlaySize.
  destruct (canvas rd) as [src|]; [|reflexivity].
  destruct parentRect; [|reflexivity].
  cbn -[styleSet px]. rewrite !styleSet_idem. reflexivity.
Qed.

(** X19: the two ways a notification falls short.  Without a canvas in
    the payload nothing happens, wherever the overlay container is
    attached.  With a canvas but with the overlay container attached to
    no parent, the overlay is resized and wiped and its drawing context
    is reset first, and then a TypeError is thrown, so the placement on
    the screen keeps its old values. *)
Theorem sync_edge_cases n src parentRect s :
  syncOverlaySize (mkRenderData n None) parentRect s = Normal tt s
  /\ exists s',
      syncOverlaySize (mkRenderData n (Some src)) None s = Throw TypeError s'
      /\ Canvas.width (editCanvas s') = SourceCanvas.width src
      /\ Canvas.height (editCanvas s') = SourceCanvas.height src
      /\ Canvas.is_blank (editCanvas s')
      /\ editContext s' = freshContext
      /\ Canvas.styleWidth (editCanvas s') = Canvas.styleWidth (editCanvas s)
      /\ Canvas.styleHeight (editCanvas s')
         = Canvas.styleHeight (editCanvas s)
      /\ Canvas.styleLeft (editCanvas s') = Canvas.styleLeft (editCanvas s)
      /\ Canvas.styleTop (editCanvas s') = Canvas.styleTop (editCanvas s).
Proof.
  split; [reflexivity|].
  eexists. split; [reflexivity|]. repeat split.
Qed.

(** ** Keys *)

Lemma handle_no_selection ev :
  maintains (fun s => selectedElement s = None) (handle ev).
Proof.
  destruct ev;
    unfold handle, setEngine, syncOverlaySize, enableEditMode,
      disableEditMode, setTool, setCursor, handleEditMouseDown,
      handleEditMouseMove, handleEditMouseUp, startTextEdit, startDrawing,
      continueDrawing, finishDrawing, startHighlight, selectElement,
      clearSelection, finishTextEdit, addTextElement, cancelTextEdit,
      clearAllEdits, undo, redo, restoreState, saveState, emitStateChanged,
      getImageData, emit;
    repeat first
      [ apply maintains_ret | apply maintains_throw | apply maintains_get
      | apply maintains_modify; intros ? ?; assumption
      | apply maintains_modify; intros ? ?; reflexivity
      | apply maintains_bind; [|intros]
      | match goal with
        | |- maintains _ (if ?b then _ else _) => destruct b
        | |- maintains _ (match ?x with _ => _ end) => destruct x
        end ].
  apply maintains_modify. intros s Hs. now destruct (engine s).
Qed.

Lemma run_no_selection evs : forall s,
  selectedElement s = None -> selectedElement (run evs s) = None.
Proof.
  induction evs as [|ev evs IH]; intros s Hs; [exact Hs|].
  simpl. apply IH. now apply handle_no_selection.
Qed.

(** X20: nothing ever becomes selected, so the Delete key never
    captures; and in any state a session reaches, a key pressed
    without Ctrl or Meta, or with them but other than "z" and "y",
    changes nothing. *)
Theorem other_keys_do_nothing evs e :
  (ctrlKey e || metaKey e)
  && (jseqb (key e) (js "z") || jseqb (key e) (js "y")) = false ->
  let s := run evs constructor in
  selectedElement s = None
  /\ handleKeyDown e s = Normal tt s
  /\ deleteSelectedElement s = Normal tt s.
Proof.
  intros He. cbv zeta.
  pose proof (run_no_selection evs constructor eq_refl) as Hs.
  generalize dependent (run evs constructor). intros s Hs.
  assert (Hh : hasSelection s = false)
    by (unfold hasSelection; now rewrite Hs).
  split; [exact Hs|].
  split.
  - unfold handleKeyDown.
    rewrite (bind_normal _ _ _ _ _ (get_normal s)).
    destruct (negb (isEditMode s)); [reflexivity|].
    assert (Hk : (if ctrlKey e || metaKey e
                  then if jseqb (key e) (js "z")
                       then (if shiftKey e then redo else undo)
                       else if jseqb (key e) (js "y") then redo
                       else ret tt
                  else ret tt) s = Normal tt s).
    { destruct (ctrlKey e || metaKey e); [|reflexivity].
      cbn [andb] in He. apply orb_false_iff in He. destruct He as [-> ->].
      reflexivity. }
    rewrite (bind_normal _ _ _ _ _ Hk).
    rewrite (bind_normal _ _ _ _ _ (get_normal s)).
    rewrite Hh, andb_false_r. reflexivity.
  - unfold deleteSelectedElement.
    rewrite (bind_normal _ _ _ _ _ (get_normal s)).
    now rewrite Hh.
Qed.

(** ** Listeners *)

Section ListenerProperties.
Variables (W D : Type).

Lemma jseqb_eq a b : jseqb a b = true <-> a = b.
Proof.
  unfold jseqb. destruct (list_eq_dec N.eq_dec a b); split;
    intros H; try assumption; try reflexivity; try discriminate.
  contradiction.
Qed.

Lemma lookup_update_same ev cbs (m : Events.registry W D) old :
  Events.lookup ev m = Some old ->
  Events.lookup ev (Events.update ev cbs m) = Some cbs.
Proof.
  induction m as [|[k v] m IH]; simpl; [discriminate|].
  destruct (jseqb k ev) eqn:E; simpl; rewrite E; [reflexivity|exact IH].
Qed.

Lemma lookup_update_other ev ev' cbs (m : Events.registry W D) :
  ev' <> ev ->
  Events.lookup ev' (Events.update ev cbs m) = Events.lookup ev' m.
Proof.
  intros Hne. induction m as [|[k v] m IH]; simpl; [reflexivity|].
  destruct (jseqb k ev) eqn:E; simpl.
  - apply jseqb_eq in E. subst k.
    destruct (jseqb ev ev') eqn:E'; [|reflexivity].
    apply jseqb_eq in E'. now subst.
  - destruct (jseqb k ev'); [reflexivity|exact IH].
Qed.

Lemma lookup_app_none ev (m m' : Events.registry W D) :
  Events.lookup ev m = None ->
  Events.lookup ev (m ++ m') = Events.lookup ev m'.
Proof.
  induction m as [|[k v] m IH]; simpl; [reflexivity|].
  destruct (jseqb k ev); [discriminate|exact IH].
Qed.

Lemma lookup_app_some ev (m m' : Events.registry W D) cbs :
  Events.lookup ev m = Some cbs ->
  Events.lookup ev (m ++ m') = Some cbs.
Proof.
  induction m as [|[k v] m IH]; simpl; [discriminate|].
  destruct (jseqb k ev); [trivial|exact IH].
Qed.

Lemma lookup_on_same ev cb (m : Events.registry W D) :
  Events.lookup ev (Events.on ev cb m)
  = Some (Events.listening ev m ++ [cb]).
Proof.
  unfold Events.listening, Events.on.
  destruct (Events.lookup ev m) as [cbs|] eqn:E.
  - now rewrite (lookup_update_same ev _ m cbs E).
  - rewrite (lookup_app_none ev m _ E). simpl.
    now rewrite (proj2 (jseqb_eq ev ev) eq_refl).
Qed.

Lemma listening_on_same ev cb (m : Events.registry W D) :
  Events.listening ev (Events.on ev cb m) = Events.listening ev m ++ [cb].
Proof.
  unfold Events.listening at 1. now rewrite lookup_on_same.
Qed.

Lemma listening_on_other ev ev' cb (m : Events.registry W D) :
  ev' <> ev ->
  Events.listening ev' (Events.on ev cb m) = Events.listening ev' m.
Proof.
  intros Hne. unfold Events.listening, Events.on.
  destruct (Events.lookup ev m) as [cbs|] eqn:E.
  - now rewrite (lookup_update_other ev ev' _ m Hne).
  - destruct (Events.lookup ev' m) as [cbs'|] eqn:E'.
    + now rewrite (lookup_app_some ev' m _ cbs' E').
    + rewrite (lookup_app_none ev' m _ E'). simpl.
      destruct (jseqb ev ev') eqn:Ek; [|reflexivity].
      apply jseqb_eq in Ek. now subst.
Qed.

Lemma removeFirst_absent i (cbs : list (Events.callback W D)) cb :
  ~ In i (map Events.ident cbs) ->
  Events.ident cb = i ->
  Events.removeFirst i (cbs ++ [cb]) = cbs.
Proof.
  intros Hn Hi. induction cbs as [|c cbs IH]; simpl.
  - now rewrite Hi, Nat.eqb_refl.
  - simpl in Hn. destruct (Nat.eqb_spec (Events.ident c) i) as [E|E].
    + exfalso. apply Hn. now left.
    + f_equal. apply IH. intros H. apply Hn. now right.
Qed.

(** X21: registering and removing a listener.  [on] puts the callback
    behind those already listening to the event and touches no other
    event; [off] of a callback that was not listening before its [on]
    gives back exactly the listeners there were. *)
Theorem on_then_off_restores_listeners ev ev' cb (m : Events.registry W D) :
  ~ In (Events.ident cb)
      (map Events.ident (Events.listening ev m)) ->
  ev' <> ev ->
  Events.listening ev (Events.on ev cb m) = Events.listening ev m ++ [cb]
  /\ Events.listening ev' (Events.on ev cb m) = Events.listening ev' m
  /\ Events.listening ev (Events.off ev cb (Events.on ev cb m))
     = Events.listening ev m
  /\ Events.listening ev' (Events.off ev cb (Events.on ev cb m))
     = Events.listening ev' m.
Proof.
  intros Hn Hne.
  pose proof (listening_on_same ev cb m) as Hs.
  pose proof (listening_on_other ev ev' cb m Hne) as Ho.
  split; [exact Hs|]. split; [exact Ho|].
  pose proof (lookup_on_same ev cb m) as E.
  unfold Events.off. rewrite E. split.
  - unfold Events.listening at 1.
    rewrite (lookup_update_same ev _ _ _ E).
    now apply removeFirst_absent.
  - unfold Events.listening at 1.
    rewrite (lookup_update_other ev ev' _ _ Hne). exact Ho.
Qed.

Lemma deliver_app (l1 l2 : list (Events.callback W D)) d w w1 :
  Events.deliver l1 d w = Normal tt w1 ->
  Events.deliver (l1 ++ l2) d w = Events.deliver l2 d w1.
Proof.
  revert w. induction l1 as [|cb l1 IH]; intros w H; simpl in *.
  - now injection H as ->.
  - destruct (Events.call cb d w) as [[] w'|e w']; [|discriminate].
    now apply IH.
Qed.

Lemma deliverGuarded_app (l1 l2 : list (Events.callback W D)) d w :
  Events.deliverGuarded (l1 ++ l2) d w
  = Events.deliverGuarded l2 d (Events.deliverGuarded l1 d w).
Proof.
  revert w. induction l1 as [|cb l1 IH]; intros w; simpl; [reflexivity|].
  apply IH.
Qed.

(** X22: what a throwing listener costs.  When the listeners before
    [cb] complete and [cb] throws, the engine's [emit] throws the same
    exception with the world as [cb] left it and calls none of the
    listeners registered after [cb]; the editor's [emit] goes on and
    calls them all, in order, on the world [cb] left. *)
Theorem throwing_listener ev (m : Events.registry W D) before cb after d w w1 e w2 :
  Events.lookup ev m = Some (before ++ cb :: after) ->
  Events.deliver before d w = Normal tt w1 ->
  Events.call cb d w1 = Throw e w2 ->
  Events.emit ev d m w = Throw e w2
  /\ Events.emitGuarded ev d (Some m) w
     = Events.deliverGuarded after d w2.
Proof.
  intros Hl Hb Hc. unfold Events.emit, Events.emitGuarded. rewrite Hl.
  split.
  - rewrite (deliver_app before (cb :: after) d w w1 Hb). simpl.
    now rewrite Hc.
  - rewrite deliverGuarded_app. simpl.
    assert (Hg : Events.deliverGuarded before d w = w1).
    { clear Hl Hc. revert w Hb.
      induction before as [|c l IH]; intros w Hb; simpl in *.
      - now injection Hb.
      - destruct (Events.call c d w) as [[] w'|e' w']; [|discriminate].
        now apply IH. }
    now rewrite Hg, Hc.
Qed.

End ListenerProperties.

End MoreProperties.

(** * The properties on the sample browser *)

Import Sample.

(** Closed equations on sample states are settled by evaluation. *)
Ltac evaluated := vm_compute; reflexivity.

(** C1 as the specification words it fails: the four operations leave
    two entries, not three. *)
Lemma branch_truncation_not_three :
  let r := (saveState ;; saveState ;; undo ;; saveState)%js_scope
             Sample.attached in
  (editHistory Sample.attached = [] /\ historyIndex Sample.attached = (-1)%Z)
  /\ ~ (canRedo (state_of r) = false
        /\ length (editHistory (state_of r)) = 3).
Proof.
  vm_compute. split; [split; reflexivity|].
  intros [_ H]. discriminate H.
Qed.

Lemma branch_truncation_witness :
  let s := Sample.attached in
  let r := (saveState ;; saveState ;; undo ;; saveState)%js_scope s in
  (editHistory s = [] /\ historyIndex s = (-1)%Z
   /\ Canvas.hasArea (editCanvas s) = true)
  /\ completes r = true
  /\ canRedo (state_of r) = false
  /\ length (editHistory (state_of r)) = 2.
Proof.
  split; [repeat split; evaluated|].
  apply (branch_truncation Sample.attached); evaluated.
Defined.

Lemma capacity_bound_witness :
  let s := Sample.attached in
  let ps := repeat [Sample.black; Sample.red_] 51 in
  let r := captures ps s in
  (wfHistory s /\ Canvas.hasArea (editCanvas s) = true /\ ps <> [])
  /\ completes r = true
  /\ length (editHistory (state_of r)) <= 50
  /\ editHistory (state_of r)
     = keepLast 50
         (slice0 (editHistory s) (historyIndex s + 1)
            ++ map (snapshotOf s) ps)
  /\ historyIndex (state_of r)
     = (Z.of_nat (length (editHistory (state_of r))) - 1)%Z
  /\ index (editHistory (state_of r)) (historyIndex (state_of r))
     = Some (Canvas.snapshot (editCanvas (state_of r))).
Proof.
  assert (Hw : wfHistory Sample.attached)
    by (unfold wfHistory; simpl; lia).
  assert (Hn : repeat [Sample.black; Sample.red_] 51 <> [])
    by (simpl; discriminate).
  split; [repeat split; try assumption; try apply Hw; evaluated|].
  apply (capacity_bound Sample.attached _ Hw); [evaluated | exact Hn].
Defined.

Lemma undo_redo_round_trip_witness :
  let s := twoCaptures in
  let r := (undo ;; redo)%js_scope s in
  (canUndo s = true
   /\ index (editHistory s) (historyIndex s)
      = Some (Canvas.snapshot (editCanvas s)))
  /\ completes r = true
  /\ (forall x y,
        Canvas.at_ (editCanvas (state_of r)) x y
        = Canvas.at_ (editCanvas s) x y)
  /\ Canvas.snapshot (editCanvas (state_of r))
     = Canvas.snapshot (editCanvas s)
  /\ Canvas.width (editCanvas (state_of r)) = Canvas.width (editCanvas s)
  /\ Canvas.height (editCanvas (state_of r)) = Canvas.height (editCanvas s)
  /\ editHistory (state_of r) = editHistory s
  /\ historyIndex (state_of r) = historyIndex s.
Proof.
  split; [split; evaluated|].
  apply (undo_redo_round_trip twoCaptures); evaluated.
Defined.

(** C4 as the specification words it fails: after two captures a page
    rendered at another size leaves both entries in place and undo
    enabled. *)
Lemma sync_keeps_undo_enabled :
  1 <= length (editHistory twoCaptures)
  /\ canUndo zoomedOut = true
  /\ length (editHistory zoomedOut) = 2
  /\ Canvas.width (editCanvas zoomedOut) = 1.
Proof. vm_compute. repeat split; lia. Qed.

(** C5 as the specification words it fails: clearing leaves one entry,
    not none. *)
Lemma clear_history_not_empty :
  length (editHistory (state_of (clearAllEdits twoCaptures))) = 1
  /\ editHistory (state_of (clearAllEdits twoCaptures)) <> [].
Proof. vm_compute. split; [reflexivity | discriminate]. Qed.

Lemma clear_leaves_one_blank_entry_witness :
  let s := twoCaptures in
  let r := clearAllEdits s in
  Canvas.hasArea (editCanvas s) = true
  /\ completes r = true
  /\ Canvas.is_blank (editCanvas (state_of r))
  /\ editHistory (state_of r) = [ImageData.mk 2 1 (blank 2 1)]
  /\ historyIndex (state_of r) = 0%Z.
Proof.
  split; [evaluated|].
  apply (clear_leaves_one_blank_entry twoCaptures). evaluated.
Defined.

Lemma blank_text_leaves_no_trace_witness :
  let s := typingSpaces in
  let tool := js "draw" in
  (editingText s = true
   /\ trim (TextEditor.textContent (textEditor s)) = [])
  /\ (completes (setTool tool s) = true
      /\ untouched s (state_of (setTool tool s))
      /\ editingText (state_of (setTool tool s)) = false)
  /\ (completes (finishTextEdit s) = true
      /\ untouched s (state_of (finishTextEdit s))
      /\ editingText (state_of (finishTextEdit s)) = false
      /\ emitted (state_of (finishTextEdit s)) = emitted s)
  /\ (completes (disableEditMode s) = true
      /\ untouched s (state_of (disableEditMode s)))
  /\ (completes (startTextEdit 0%Z 0%Z s) = true
      /\ untouched s (state_of (startTextEdit 0%Z 0%Z s))).
Proof.
  split; [split; evaluated|].
  apply (blank_text_leaves_no_trace typingSpaces (js "draw") 0%Z 0%Z);
    evaluated.
Defined.

(** C7 as the specification words it fails: an unknown tool name is
    accepted and becomes the active tool. *)
Lemma setTool_takes_unknown_tool :
  completes (setTool (js "eraser") Sample.attached) = true
  /\ currentTool (state_of (setTool (js "eraser") Sample.attached))
     = js "eraser"
  /\ emitted (state_of (setTool (js "eraser") Sample.attached))
     = [toolChanged (js "eraser")].
Proof. vm_compute. repeat split. Qed.

(** C8 as the specification words it fails: with a document loaded and
    no page rendered yet, the export returns an image. *)
Lemma export_before_any_render :
  neverRendered loadedOnly = true
  /\ completes (exportEditedPDF stillPage (run loadedOnly constructor)) = true
  /\ completes (exportAsImage stillPage constructor) = true.
Proof. repeat split; evaluated. Qed.

Lemma export_needs_document_witness :
  neverLoaded nothingLoaded = true
  /\ exportEditedPDF stillPage (run nothingLoaded constructor)
     = Throw (Error (js "No PDF loaded")) (run nothingLoaded constructor).
Proof.
  split; [evaluated|].
  apply (export_needs_document nothingLoaded stillPage). evaluated.
Defined.

(** C9 as the specification words it fails: undo onto a 1 by 1 overlay
    from a 2 by 1 entry completes normally and overwrites the pixel. *)
Lemma undo_writes_mismatched_entry :
  index (editHistory zoomedOut) (historyIndex zoomedOut - 1)
  = Some (ImageData.mk 2 1 [Sample.black; transparent])
  /\ (Canvas.width (editCanvas zoomedOut),
      Canvas.height (editCanvas zoomedOut)) = (1, 1)
  /\ Canvas.pixels (editCanvas zoomedOut) = [transparent]
  /\ completes (undo zoomedOut) = true
  /\ Canvas.pixels (editCanvas (state_of (undo zoomedOut)))
     = [Sample.black].
Proof. vm_compute. repeat split. Qed.

Lemma restore_compares_no_sizes_witness :
  let s := zoomedOut in
  let img := ImageData.mk 2 1 [Sample.black; transparent] in
  let r := undo s in
  let c := editCanvas s in
  (canUndo s = true
   /\ index (editHistory s) (historyIndex s - 1) = Some img)
  /\ completes r = true
  /\ editCanvas (state_of r) = Canvas.putImageData img c
  /\ forall x y, x < Canvas.width c -> y < Canvas.height c ->
       Canvas.at_ (editCanvas (state_of r)) x y
       = if (x <? ImageData.width img) && (y <? ImageData.height img)
         then ImageData.at_ img x y else Canvas.at_ c x y.
Proof.
  split; [split; evaluated|].
  apply (restore_compares_no_sizes false zoomedOut); evaluated.
Defined.

(** In edit mode with the text tool, a word typed, and an overlay
    without width: the pointer-down throws, the history is as it was
    and no text box is open afterwards. *)
Lemma pointer_down_on_collapsed_overlay :
  let s := typingCollapsed in
  let r := handleEditMouseDown clickLeft Sample.unitRect s in
  let s' := state_of r in
  isEditMode s = true
  /\ currentTool s = js "text"
  /\ editingText s = true
  /\ trim (TextEditor.textContent (textEditor s)) = js "hi"
  /\ r = Throw IndexSizeError s'
  /\ editHistory s' = editHistory s
  /\ historyIndex s' = historyIndex s
  /\ emitted s' = emitted s
  /\ editingText s' = false
  /\ TextEditor.display (textEditor s') = js "none".
Proof. cbv zeta. repeat apply conj; evaluated. Qed.

Lemma pointer_down_commits_pending_text_witness :
  let s := typingWord in
  let e := clickLeft in
  let rect := Sample.unitRect in
  let r := handleEditMouseDown e rect s in
  let x := toCanvasX s e rect in
  let y := toCanvasY s e rect in
  let s' := state_of r in
  (isEditMode s = true /\ currentTool s = js "text"
   /\ editingText s = true
   /\ trim (TextEditor.textContent (textEditor s)) <> []
   /\ Canvas.hasArea (editCanvas s) = true)
  /\ completes r = true
  /\ editCanvas s' = textFilled s
  /\ editHistory s'
     = evict (slice0 (editHistory s) (historyIndex s + 1)
                ++ [Canvas.snapshot (textFilled s)])
  /\ emitted s' = emitted s ++ [stateChanged (canUndo s') (canRedo s')]
  /\ editingText s' = true
  /\ TextEditor.display (textEditor s') = js "block"
  /\ TextEditor.left (textEditor s')
     = styleSet (js "left") (TextEditor.left (textEditor s)) (px x)
  /\ TextEditor.top (textEditor s')
     = styleSet (js "top") (TextEditor.top (textEditor s)) (px y)
  /\ TextEditor.textContent (textEditor s') = [].
Proof.
  assert (Hn : trim (TextEditor.textContent (textEditor typingWord)) <> [])
    by (vm_compute; discriminate).
  split; [repeat split; try exact Hn; evaluated|].
  apply (pointer_down_commits_pending_text typingWord clickLeft
           Sample.unitRect);
    try exact Hn; evaluated.
Defined.

(** The same pointer-down in figures: the word typed in the box at the
    right pixel is filled there, the history holds that raster as its
    only entry, and the box moves from [1px] to [0px]. *)
Lemma typingWord_pointer_down :
  let s := typingWord in
  let s' := state_of (handleEditMouseDown clickLeft Sample.unitRect s) in
  Canvas.pixels (editCanvas s) = [transparent; transparent]
  /\ TextEditor.left (textEditor s) = js "1px"
  /\ Canvas.pixels (editCanvas s') = [transparent; black]
  /\ editHistory s' = [ImageData.mk 2 1 [transparent; black]]
  /\ TextEditor.left (textEditor s') = js "0px"
  /\ TextEditor.color (textEditor s') = js "rgb(0, 0, 0)".
Proof. cbv zeta. repeat apply conj; evaluated. Qed.

(** * The further properties on the sample browser *)

Lemma twoCaptures_wfHistory : wfHistory twoCaptures.
Proof.
  unfold twoCaptures, Sample.attached.
  repeat apply run_wfHistory. split; simpl; lia.
Qed.

Lemma capture_moves_to_tip_witness :
  let s := twoCaptures in
  let s' := state_of (saveState s) in
  (wfHistory s /\ Canvas.hasArea (editCanvas s) = true)
  /\ canRedo s' = false
  /\ canUndo s' = (1 <? length (editHistory s'))
  /\ emitted s' = emitted s ++ [stateChanged (canUndo s') false].
Proof.
  split; [split; [exact twoCaptures_wfHistory | evaluated]|].
  apply (capture_moves_to_tip twoCaptures twoCaptures_wfHistory).
  evaluated.
Defined.

Lemma redo_undo_round_trip_witness :
  let s := oneUndone in
  let r := (redo ;; undo)%js_scope s in
  (canRedo s = true
   /\ index (editHistory s) (historyIndex s)
      = Some (Canvas.snapshot (editCanvas s)))
  /\ completes r = true
  /\ (forall x y,
        Canvas.at_ (editCanvas (state_of r)) x y
        = Canvas.at_ (editCanvas s) x y)
  /\ Canvas.snapshot (editCanvas (state_of r))
     = Canvas.snapshot (editCanvas s)
  /\ editHistory (state_of r) = editHistory s
  /\ historyIndex (state_of r) = historyIndex s.
Proof.
  split; [split; evaluated|].
  apply (redo_undo_round_trip oneUndone); evaluated.
Defined.

Lemma collapsed_wfHistory : wfHistory collapsed.
Proof.
  unfold collapsed, oneUndone.
  repeat apply run_wfHistory. split; simpl; lia.
Qed.

Lemma failed_capture_drops_redo_witness :
  let s := collapsed in
  let r := saveState s in
  (wfHistory s /\ Canvas.hasArea (editCanvas s) = false
   /\ canRedo s = true)
  /\ (exists s', r = Throw IndexSizeError s')
  /\ editHistory (state_of r)
     = firstn (Z.to_nat (historyIndex s + 1)) (editHistory s)
  /\ historyIndex (state_of r) = historyIndex s
  /\ canRedo (state_of r) = false
  /\ emitted (state_of r) = emitted s.
Proof.
  split; [split; [exact collapsed_wfHistory | split; evaluated]|].
  apply (failed_capture_drops_redo collapsed collapsed_wfHistory).
  evaluated.
Defined.

Lemma listeners_know_undo_redo_witness :
  let s := run editingSession constructor in
  forallb rendersWithArea editingSession = true
  /\ lastStateChanged (emitted s) (false, false) = (canUndo s, canRedo s)
  /\ (canUndo s, canRedo s) = (false, true).
Proof.
  split; [evaluated|].
  split; [apply (listeners_know_undo_redo editingSession); evaluated|].
  evaluated.
Defined.

Lemma tool_switch_commits_text_once_witness :
  let s := typingWord in
  let tool := js "draw" in
  let r := setTool tool s in
  let s' := state_of r in
  (pendingText s = true /\ Canvas.hasArea (editCanvas s) = true)
  /\ completes r = true
  /\ Canvas.pixels (editCanvas s') = Canvas.pixels (textFilled s)
  /\ editHistory s'
     = evict (slice0 (editHistory s) (historyIndex s + 1)
                ++ [Canvas.snapshot (textFilled s)])
  /\ emitted s'
     = emitted s ++ [stateChanged (canUndo s') (canRedo s');
                     toolChanged tool]
  /\ completes (finishTextEdit s') = true
  /\ untouched s' (state_of (finishTextEdit s')).
Proof.
  split; [split; evaluated|].
  apply (tool_switch_commits_text_once (js "draw") typingWord); evaluated.
Defined.

Lemma text_settings_apply_at_commit_witness :
  let s := typingWord in
  let c := js "#00ff00" in
  let n : @number Sample.browser := 20%Z in
  let f := js "Courier" in
  let s3 :=
    state_of ((setTextColor c ;; setTextSize n ;; setTextFont f)%js_scope s) in
  let r := finishTextEdit s3 in
  let box := textEditor s in
  (pendingText s = true /\ Canvas.hasArea (editCanvas s) = true)
  /\ (TextEditor.color (textEditor s3)
      = styleSet (js "color") (TextEditor.color box) c
      /\ TextEditor.fontSize (textEditor s3)
         = styleSet (js "font-size") (TextEditor.fontSize box) (px n)
      /\ TextEditor.fontFamily (textEditor s3)
         = styleSet (js "font-family") (TextEditor.fontFamily box) f)
  /\ completes r = true
  /\ editCanvas (state_of r)
     = textLines c (numToString n ++ js "px " ++ f) n
         (parseInt (TextEditor.left box)) (parseInt (TextEditor.top box))
         0 (split_lines (TextEditor.textContent box)) (editCanvas s)
  /\ editHistory (state_of r)
     = evict (slice0 (editHistory s) (historyIndex s + 1)
                ++ [Canvas.snapshot (editCanvas (state_of r))]).
Proof.
  split; [split; evaluated|].
  apply (@text_settings_apply_at_commit Sample.browser (js "#00ff00") 20%Z
           (js "Courier") typingWord); evaluated.
Defined.

(** The box of the sample browser after the three settings. *)
Lemma typingWord_restyled :
  let s3 :=
    state_of ((setTextColor (js "#00ff00") ;; setTextSize 20%Z ;;
               setTextFont (js "Courier"))%js_scope typingWord) in
  TextEditor.color (textEditor s3) = js "rgb(0, 255, 0)"
  /\ TextEditor.fontSize (textEditor s3) = js "20px"
  /\ TextEditor.fontFamily (textEditor s3) = js "Courier"
  /\ textColor s3 = js "#00ff00".
Proof. cbv zeta. repeat apply conj; evaluated. Qed.

Lemma stroke_is_one_capture_witness :
  let s := drawing in
  let ms := [(click, Sample.unitRect)] in
  let s' :=
    run (MouseDown clickLeft Sample.unitRect :: moveEvents ms ++ [MouseUp])
      s in
  (isEditMode s = true /\ currentTool s = js "draw"
   /\ Canvas.hasArea (editCanvas s) = true)
  /\ drawPath s'
     = at_pointer s Sample.unitRect clickLeft
       :: map (fun m => at_pointer s (snd m) (fst m)) ms
  /\ isDrawing s' = false
  /\ editHistory s'
     = evict (slice0 (editHistory s) (historyIndex s + 1)
                ++ [Canvas.snapshot (editCanvas s')])
  /\ emitted s' = emitted s ++ [stateChanged (canUndo s') (canRedo s')].
Proof.
  split; [repeat split; evaluated|].
  apply (stroke_is_one_capture drawing clickLeft Sample.unitRect
           [(click, Sample.unitRect)]); evaluated.
Defined.

Lemma drawing_wfHistory : wfHistory drawing.
Proof.
  unfold drawing. repeat apply run_wfHistory. split; simpl; lia.
Qed.

Lemma motionless_click_still_captures_witness :
  let s := drawing in
  let s' := run [MouseDown click Sample.unitRect; MouseUp] s in
  (isEditMode s = true /\ currentTool s = js "draw"
   /\ Canvas.hasArea (editCanvas s) = true /\ wfHistory s)
  /\ editCanvas s' = editCanvas s
  /\ index (editHistory s') (historyIndex s')
     = Some (Canvas.snapshot (editCanvas s))
  /\ editHistory s'
     = keepLast 50 (slice0 (editHistory s) (historyIndex s + 1)
                      ++ [Canvas.snapshot (editCanvas s)])
  /\ canRedo s' = false.
Proof.
  split;
    [split; [evaluated | split; [evaluated | split;
       [evaluated | exact drawing_wfHistory]]]|].
  apply (motionless_click_still_captures drawing click Sample.unitRect);
    try evaluated.
  exact drawing_wfHistory.
Defined.

Lemma highlight_is_placed_on_pointer_down_witness :
  let s := highlighting in
  let e := click in
  let rect := Sample.unitRect in
  let x := toCanvasX s e rect in
  let y := toCanvasY s e rect in
  let s1 := state_of (handleEditMouseDown e rect s) in
  (isEditMode s = true /\ currentTool s = js "highlight"
   /\ isDrawing s = false /\ Canvas.hasArea (editCanvas s) = true)
  /\ completes (handleEditMouseDown e rect s) = true
  /\ Canvas.pixels (editCanvas s1)
     = fillRect (fillColor s) num_0_3 (sub x (num 50)) (sub y (num 5))
         (num 100) (num 20)
         (Canvas.width (editCanvas s)) (Canvas.height (editCanvas s))
         (Canvas.pixels (editCanvas s))
  /\ editHistory s1
     = evict (slice0 (editHistory s) (historyIndex s + 1)
                ++ [Canvas.snapshot (editCanvas s1)])
  /\ handleEditMouseUp s1 = Normal tt s1.
Proof.
  split; [repeat split; evaluated|].
  apply (highlight_is_placed_on_pointer_down highlighting click
           Sample.unitRect); evaluated.
Defined.

Lemma unknown_tool_ignores_pointer_down_witness :
  let tool := js "eraser" in
  let s' := state_of (setTool tool drawing) in
  recognised tool = false
  /\ currentTool s' = tool
  /\ handleEditMouseDown click Sample.unitRect s' = Normal tt s'.
Proof.
  split; [evaluated|].
  apply (unknown_tool_ignores_pointer_down (js "eraser") drawing click
           Sample.unitRect).
  evaluated.
Defined.

Lemma other_keys_do_nothing_witness :
  let e := plainKey in
  let s := run editingSession constructor in
  (ctrlKey e || metaKey e)
  && (jseqb (key e) (js "z") || jseqb (key e) (js "y")) = false
  /\ selectedElement s = None
  /\ handleKeyDown e s = Normal tt s
  /\ deleteSelectedElement s = Normal tt s.
Proof.
  split; [evaluated|].
  apply (other_keys_do_nothing editingSession plainKey). evaluated.
Defined.

Lemma on_then_off_restores_listeners_witness :
  let ev := js "pageRendered" in
  let ev' := js "pdfLoaded" in
  let cb := counting 4 in
  let m := threeListeners in
  (~ In (Events.ident cb) (map Events.ident (Events.listening ev m))
   /\ ev' <> ev)
  /\ Events.listening ev (Events.on ev cb m) = Events.listening ev m ++ [cb]
  /\ Events.listening ev' (Events.on ev cb m) = Events.listening ev' m
  /\ Events.listening ev (Events.off ev cb (Events.on ev cb m))
     = Events.listening ev m
  /\ Events.listening ev' (Events.off ev cb (Events.on ev cb m))
     = Events.listening ev' m.
Proof.
  assert (Hn : ~ In (Events.ident (counting 4))
                   (map Events.ident
                      (Events.listening (js "pageRendered") threeListeners))).
  { vm_compute. intros [H | [H | [H | []]]]; discriminate H. }
  assert (Hne : js "pdfLoaded" <> js "pageRendered")
    by (vm_compute; discriminate).
  split; [split; assumption|].
  apply (on_then_off_restores_listeners nat unit (js "pageRendered")
           (js "pdfLoaded") (counting 4) threeListeners Hn Hne).
Defined.

Lemma throwing_listener_witness :
  let ev := js "pageRendered" in
  (Events.lookup ev threeListeners
   = Some ([counting 1] ++ failing 2 :: [counting 3])
   /\ Events.deliver [counting 1] tt 0 = Normal tt 1
   /\ Events.call (failing 2) tt 1 = Throw TypeError 11)
  /\ Events.emit ev tt threeListeners 0 = Throw TypeError 11
  /\ Events.emitGuarded ev tt (Some threeListeners) 0
     = Events.deliverGuarded [counting 3] tt 11.
Proof.
  split; [repeat split; evaluated|].
  apply (throwing_listener nat unit (js "pageRendered") threeListeners
           [counting 1] (failing 2) [counting 3] tt 0 1 TypeError 11);
    evaluated.
Defined.

Lemma undo_returns_to_previous_capture_witness :
  let s := twoCaptures in
  let p := [Sample.red_; Sample.red_] in
  let r := (saveState ;; paint p ;; saveState ;; undo)%js_scope s in
  (wfHistory s /\ Canvas.hasArea (editCanvas s) = true)
  /\ completes r = true
  /\ (forall x y,
        Canvas.at_ (editCanvas (state_of r)) x y
        = Canvas.at_ (editCanvas s) x y)
  /\ Canvas.width (editCanvas (state_of r)) = Canvas.width (editCanvas s)
  /\ Canvas.height (editCanvas (state_of r)) = Canvas.height (editCanvas s)
  /\ canRedo (state_of r) = true.
Proof.
  split; [split; [exact twoCaptures_wfHistory | evaluated]|].
  apply (undo_returns_to_previous_capture twoCaptures
           [Sample.red_; Sample.red_] twoCaptures_wfHistory).
  evaluated.
Defined.
